(** * Emotion dialogue system: the analysis-and-decision pipeline

    A shallow embedding of the three analyzers under [src/core]
    (context_analyzer.py, emotion_analyzer.py, decision_maker.py) and of
    the rule tables under [src/config] (commands.py, emotions.py,
    vocabulary.py), followed by the properties of the pipeline.

    Conventions of the embedding.
    - Python [str] is [string]: the UTF-8 bytes of the text.  The operator
      [sub in text] is byte-wise substring search, which agrees with
      code-point search because UTF-8 is self-synchronising.
    - Python [float] scores are exact rationals [Q]; the rounding of the
      binary64 arithmetic is not part of the embedding, so two sums that
      differ by rounding only (0.6 + 0.1 + 0.1 and 0.4 + 0.4) are equal
      here.
    - A [dict] with a fixed set of keys is a record; a key that may be
      absent is an [option] field, and a subscript on an absent key is the
      raise of a [KeyError].
    - [try ... except Exception] is a match on an [outcome]; state that was
      mutated before the raise stays mutated, as in Python.
    - [random.choice] draws an index from an explicit random source. *)

From Stdlib Require Import String Ascii List Bool Arith Lia.
From Stdlib Require Import ZArith QArith Qminmax Lqa.
Import ListNotations.

Set Implicit Arguments.

Open Scope string_scope.
Open Scope Q_scope.

(** ** Python helpers *)

Module Py.

(** [sub in s] on strings. *)
Fixpoint contains (sub s : string) : bool :=
  String.prefix sub s ||
  match s with
  | EmptyString => false
  | String _ rest => contains sub rest
  end.

(** [x in l] on lists and sets of strings. *)
Definition mem (x : string) (l : list string) : bool :=
  existsb (String.eqb x) l.

(** [set(l)]: the distinct elements, in one fixed iteration order. *)
Definition set (l : list string) : list string := nodup string_dec l.

(** [l.count(x)]. *)
Definition count (x : string) (l : list string) : nat :=
  List.length (filter (String.eqb x) l).

(** [l[-n:]]. *)
Definition last_n {A} (n : nat) (l : list A) : list A :=
  skipn (List.length l - n) l.

(** [l.pop(0)] on a list known to be non-empty. *)
Definition pop0 {A} (l : list A) : list A := tl l.

(** [sep.join(l)]. *)
Fixpoint join (sep : string) (l : list string) : string :=
  match l with
  | [] => ""
  | [x] => x
  | x :: rest => x ++ sep ++ join sep rest
  end.

(** The result of a [try] body: a value, or a raised exception. *)
Inductive outcome (A : Type) : Type :=
| Returned (a : A)
| Raised.
Arguments Returned {A} a.
Arguments Raised {A}.

Definition bind {A B} (m : outcome A) (k : A -> outcome B) : outcome B :=
  match m with
  | Returned a => k a
  | Raised => Raised
  end.

(** [d[key]] on a key that may be absent. *)
Definition subscript {A} (o : option A) : outcome A :=
  match o with
  | Some a => Returned a
  | None => Raised
  end.

(** The random source: an endless sequence of draws. *)
Definition Rng := nat -> nat.

Definition next (g : Rng) : Rng := fun n => g (S n).

(** [random.choice(l)]: [None] is the [IndexError] on an empty list. *)
Definition choice {A} (g : Rng) (l : list A) : option A * Rng :=
  (nth_error l (g 0%nat mod List.length l), next g).

(** [float(n)] for a natural number. *)
Definition of_nat (n : nat) : Q := inject_Z (Z.of_nat n).

End Py.

Notation "'do' x <- m ; k" := (Py.bind m (fun x => k))
  (at level 10, x name, m at level 100, k at level 200).

(** ** config/commands.py *)

Module Commands.

Inductive CommandType : Type :=
| COME | TURN | LEFT | RIGHT | RUN | STOP | FOLLOW | BACK | FORWARD | DANCE.

(** Iteration order of the [Enum]. *)
Definition all : list CommandType :=
  [COME; TURN; LEFT; RIGHT; RUN; STOP; FOLLOW; BACK; FORWARD; DANCE].

Definition value (c : CommandType) : string :=
  match c with
  | COME => "过来"
  | TURN => "转身"
  | LEFT => "在你左边"
  | RIGHT => "在你右边"
  | RUN => "快跑"
  | STOP => "停下"
  | FOLLOW => "跟着我"
  | BACK => "后退"
  | FORWARD => "向前"
  | DANCE => "跳舞"
  end.

(** [CommandType(s)]: [None] is the [ValueError] of the enum lookup. *)
Definition of_value (s : string) : option CommandType :=
  find (fun c => String.eqb (value c) s) all.

Record CommandParams : Type := {
  action : string;
  safety_check : bool;
  keywords : list string;
  response_templates : list string
}.

Definition COMMAND_PARAMS (c : CommandType) : CommandParams :=
  match c with
  | COME => {| action := "move_to_target"; safety_check := true;
               keywords := ["过来"; "来这里"; "到这儿"];
               response_templates := ["好的,我这就过来"; "马上就到"; "我来了"] |}
  | TURN => {| action := "rotate"; safety_check := false;
               keywords := ["转身"; "转过去"; "转过来"];
               response_templates := ["好的,我转身了"; "转过去了"; "已经转好了"] |}
  | LEFT => {| action := "move_left"; safety_check := true;
               keywords := ["左边"; "向左"; "左面"];
               response_templates := ["好的,向左移动"; "往左边走"; "向左边去"] |}
  | RIGHT => {| action := "move_right"; safety_check := true;
                keywords := ["右边"; "向右"; "右面"];
                response_templates := ["好的,向右移动"; "往右边走"; "向右边去"] |}
  | RUN => {| action := "run"; safety_check := true;
              keywords := ["快跑"; "跑起来"; "加速"];
              response_templates := ["好的,我开始跑"; "我跑起来了"; "加速中"] |}
  | STOP => {| action := "stop"; safety_check := false;
               keywords := ["停下"; "停止"; "别动"];
               response_templates := ["好的,我停下了"; "已经停止了"; "不动了"] |}
  | FOLLOW => {| action := "follow_target"; safety_check := true;
                 keywords := ["跟着我"; "跟我来"; "跟上"];
                 response_templates := ["好的,我跟着你"; "我跟你走"; "跟上你了"] |}
  | BACK => {| action := "move_backward"; safety_check := true;
               keywords := ["后退"; "往后"; "向后"];
               response_templates := ["好的,我后退"; "向后移动"; "往后走"] |}
  | FORWARD => {| action := "move_forward"; safety_check := true;
                  keywords := ["向前"; "往前"; "前进"];
                  response_templates := ["好的,我向前"; "向前移动"; "往前走"] |}
  | DANCE => {| action := "dance"; safety_check := false;
                keywords := ["跳舞"; "跳一下"; "跳起来"];
                response_templates := ["好的,我跳舞"; "看我的舞姿"; "跳起来了"] |}
  end.

Definition get_command_params (c : CommandType) : CommandParams :=
  COMMAND_PARAMS c.

Definition get_command_by_keywords (text : string) : list CommandType :=
  filter (fun c => existsb (fun k => Py.contains k text)
                           (keywords (COMMAND_PARAMS c))) all.

Definition needs_safety_check (c : CommandType) : bool :=
  safety_check (COMMAND_PARAMS c).

End Commands.

(** ** config/emotions.py *)

Module Emotions.

Inductive EmotionType : Type :=
| HAPPY | SAD | ANGRY | SURPRISED | SCARED | CALM | EXCITED | BORED
| FRIENDLY | SHY.

Definition all : list EmotionType :=
  [HAPPY; SAD; ANGRY; SURPRISED; SCARED; CALM; EXCITED; BORED; FRIENDLY; SHY].

Definition value (e : EmotionType) : string :=
  match e with
  | HAPPY => "高兴"
  | SAD => "难过"
  | ANGRY => "愤怒"
  | SURPRISED => "惊讶"
  | SCARED => "害怕"
  | CALM => "平静"
  | EXCITED => "兴奋"
  | BORED => "无聊"
  | FRIENDLY => "友善"
  | SHY => "害羞"
  end.

Definition eqb (a b : EmotionType) : bool :=
  match a, b with
  | HAPPY, HAPPY | SAD, SAD | ANGRY, ANGRY | SURPRISED, SURPRISED
  | SCARED, SCARED | CALM, CALM | EXCITED, EXCITED | BORED, BORED
  | FRIENDLY, FRIENDLY | SHY, SHY => true
  | _, _ => false
  end.

(** [EmotionType(s)]: [None] is the [ValueError] of the enum lookup. *)
Definition of_value (s : string) : option EmotionType :=
  find (fun e => String.eqb (value e) s) all.

Record EmotionParams : Type := {
  speech_speed : Q;
  volume : Q;
  pitch : Q;
  expression : string;
  keywords : list string
}.

Definition EMOTION_PARAMS (e : EmotionType) : EmotionParams :=
  match e with
  | HAPPY => {| speech_speed := 12#10; volume := 11#10; pitch := 11#10;
                expression := "smile";
                keywords := ["好"; "喜欢"; "棒"; "开心"] |}
  | SAD => {| speech_speed := 8#10; volume := 9#10; pitch := 9#10;
              expression := "sad";
              keywords := ["不好"; "难过"; "伤心"; "失望"] |}
  | ANGRY => {| speech_speed := 13#10; volume := 12#10; pitch := 12#10;
                expression := "angry";
                keywords := ["生气"; "讨厌"; "不要"; "别"] |}
  | SURPRISED => {| speech_speed := 11#10; volume := 11#10; pitch := 12#10;
                    expression := "surprised";
                    keywords := ["哇"; "真的吗"; "竟然"; "没想到"] |}
  | SCARED => {| speech_speed := 12#10; volume := 8#10; pitch := 11#10;
                 expression := "scared";
                 keywords := ["害怕"; "可怕"; "危险"; "小心"] |}
  | CALM => {| speech_speed := 1; volume := 1; pitch := 1;
               expression := "calm";
               keywords := ["好的"; "明白"; "知道"; "平静"] |}
  | EXCITED => {| speech_speed := 13#10; volume := 12#10; pitch := 12#10;
                  expression := "excited";
                  keywords := ["太好了"; "太棒了"; "好激动"; "期待"] |}
  | BORED => {| speech_speed := 9#10; volume := 9#10; pitch := 9#10;
                expression := "bored";
                keywords := ["无聊"; "困"; "乏"; "懒"] |}
  | FRIENDLY => {| speech_speed := 11#10; volume := 1; pitch := 1;
                   expression := "friendly";
                   keywords := ["朋友"; "一起"; "帮助"; "谢谢"] |}
  | SHY => {| speech_speed := 9#10; volume := 8#10; pitch := 9#10;
              expression := "shy";
              keywords := ["害羞"; "不好意思"; "抱歉"; "对不起"] |}
  end.

Definition get_emotion_params (e : EmotionType) : EmotionParams :=
  EMOTION_PARAMS e.

Definition get_emotion_by_keywords (text : string) : list EmotionType :=
  filter (fun e => existsb (fun k => Py.contains k text)
                           (keywords (EMOTION_PARAMS e))) all.

End Emotions.

(** ** config/vocabulary.py *)

Module Vocabulary.

Definition OBJECTS : list string :=
  ["苹果"; "书本"; "椅子"; "水杯"; "手机"; "电脑"; "眼镜"; "钥匙"; "衣服"; "鞋子"].

Definition QUESTIONS : list string :=
  ["是吗"; "真的吗"; "什么"; "为什么"; "怎么样";
   "在哪里"; "谁"; "多少"; "可以吗"; "好吗"].

Definition GREETINGS : list string :=
  ["你好"; "早上好"; "下午好"; "晚上好"; "再见"].

Definition ATTITUDES : list string :=
  ["好的"; "不好"; "喜欢"; "不喜欢"; "可以";
   "不可以"; "同意"; "不同意"; "明白"; "不明白"].

Definition ADJECTIVES : list string :=
  ["大"; "小"; "高"; "低"; "快"; "慢"; "热"; "冷"; "好"; "坏";
   "多"; "少"; "远"; "近"; "新"].

Definition ALL_VOCABULARY : list string :=
  Py.set (OBJECTS ++ QUESTIONS ++ GREETINGS ++ ATTITUDES ++ ADJECTIVES).

Definition is_valid_word (word : string) : bool :=
  Py.mem word ALL_VOCABULARY.

End Vocabulary.

(** ** config/config.json

    The keys of the loaded configuration that the analyzers read.  The file
    is external, so every key may be absent; a key that is present holds a
    value of the type that config/settings.py declares for it.  A
    configuration that failed to load, or that is an empty object, is
    [None] at its use sites: the source tests it by truthiness. *)

Module Cfg.

Record SafetyConfig : Type := {
  min_obstacle_distance : option Q;
  danger_keywords : option (list string);
  restricted_areas : option (list string);
  max_speed : option Q;
  required_checks : option (list string)
}.

Record EmotionConfig : Type := {
  speech_speed_range : option (list Q);
  volume_range : option (list Q);
  pitch_range : option (list Q);
  (** [['rules']['triggers']] *)
  triggers : option (list (string * list string))
}.

Record Config : Type := {
  safety : option SafetyConfig;
  emotion : option EmotionConfig;
  (** [['vocabulary']['responses']] *)
  responses : option (list (string * list string))
}.

(** [d.get(key)] and [key in d] on a string-keyed table. *)
Fixpoint lookup {A} (key : string) (d : list (string * A)) : option A :=
  match d with
  | [] => None
  | (k, v) :: rest => if String.eqb k key then Some v else lookup key rest
  end.

End Cfg.

(** ** The scene snapshot and the analysis context *)

Module Scn.

(** The value under an obstacle's ['distance'] key: a number, or a value
    that [<] cannot compare with a float (null, a string, a list, a
    dict).  Of the floats that are no rationals, [inf] and [nan] are below
    no minimum, as the absent key, and [-inf] is below every minimum, as a
    number under it. *)
Inductive DistanceValue : Type :=
| DistanceNumber (q : Q)
| DistanceOther.

(** An entry of the obstacle list: a dict, whose ['distance'] key may be
    absent, or a value that has no [get]. *)
Inductive Obstacle : Type :=
| ObstacleDict (distance : option DistanceValue)
| ObstacleOther.

(** The entries the loop of [_check_safety] steps over without a raise: a
    dict whose distance is absent or a number. *)
Definition comparable (obstacle : Obstacle) : bool :=
  match obstacle with
  | ObstacleDict None => true
  | ObstacleDict (Some (DistanceNumber _)) => true
  | ObstacleDict (Some DistanceOther) => false
  | ObstacleOther => false
  end.

(** The value under the scene's ['speed'] key: a number, or a string
    together with what [float()] makes of it.  An integer beyond the range
    of a float, on which [float()] raises an [OverflowError], acts on the
    code as a string that does not parse when it is positive (the limit is
    passed over and the speed check fails), and as a number when it is
    negative. *)
Inductive SpeedValue : Type :=
| SpeedNumber (q : Q)
| SpeedText (parsed : option Q).

(** A non-empty scene dict.  ['obstacles'] holds a list; a value of another
    type under that key acts on the code as the empty list when it is
    falsy, and as a list whose first entry has no [get] when it is truthy
    (iterating it raises, or yields entries without [get]).
    ['temperature'] holds a string; the field is what
    [float(temperature.replace('°C', ''))] yields, [None] being the
    [ValueError]. *)
Record Scene : Type := {
  obstacles : option (list Obstacle);
  temperature : option (option Q);
  area : option string;
  speed : option SpeedValue;
  obstacle_distance : option Q;
  has_obstacles : option bool;
  is_safe : option bool
}.

(** [context.get('scene', {})] when the context has no scene. *)
Definition empty : Scene :=
  {| obstacles := None; temperature := None; area := None; speed := None;
     obstacle_distance := None; has_obstacles := None; is_safe := None |}.

End Scn.

Module Ctx.

(** The context dict built by [ContextAnalyzer.analyze].  The entries
    ['tone_analysis'] and ['scene_emotion_impact'] are read by neither
    EmotionAnalyzer nor DecisionMaker and their computation cannot raise;
    they are not part of the record. *)
Record Context : Type := {
  original_text : string;
  words : list string;
  pos_tags : list string;
  keywords : list string;
  possible_commands : list string;
  possible_emotions : list string;
  context_type : string;
  context_confidence : Q;
  scene : option Scn.Scene;
  has_obstacles : option bool;
  is_safe : option bool
}.

End Ctx.

(** [d.get(key, default)] on an optional entry. *)
Definition get {A} (o : option A) (default : A) : A :=
  match o with
  | Some a => a
  | None => default
  end.

Definition Qlt_bool (a b : Q) : bool := negb (Qle_bool b a).

(** [max(l, key=...)]: the first element with the greatest key. *)
Fixpoint max_from {A} (key : A -> Q) (best : A) (l : list A) : A :=
  match l with
  | [] => best
  | x :: rest =>
      max_from key (if Qlt_bool (key best) (key x) then x else best) rest
  end.

Definition max_by {A} (key : A -> Q) (l : list A) : option A :=
  match l with
  | [] => None
  | x :: rest => Some (max_from key x rest)
  end.

Definition is_empty {A} (l : list A) : bool :=
  match l with
  | [] => true
  | _ :: _ => false
  end.

(** ** core/context_analyzer.py *)

Module ContextAnalyzer.

Record t : Type := {
  config : option Cfg.Config;
  (** [pseg.cut], the external tokenizer: the (word, tag) pairs of a
      text, or a raise. *)
  pseg_cut : string -> Py.outcome (list (string * string))
}.

Definition _segment_text (self : t) (text : string)
  : Py.outcome (list string * list string) :=
  do words_pos <- pseg_cut self text;
  Py.Returned (map fst words_pos, map snd words_pos).

Definition _extract_keywords (words : list string) : list string :=
  Py.set (filter Vocabulary.is_valid_word words).

(** [re.search(r'(m1|m2|..).*(s1|s2|..)', text)]: some marker, then any
    run of characters other than a newline, then some suffix. *)
Definition newline : ascii := "010"%char.

Fixpoint strip_prefix (p s : string) : option string :=
  match p, s with
  | EmptyString, _ => Some s
  | String a p', String b s' =>
      if Ascii.eqb a b then strip_prefix p' s' else None
  | String _ _, EmptyString => None
  end.

Fixpoint dot_star_then (suffixes : list string) (s : string) : bool :=
  existsb (fun x => String.prefix x s) suffixes ||
  match s with
  | EmptyString => false
  | String c rest =>
      if Ascii.eqb c newline then false else dot_star_then suffixes rest
  end.

Fixpoint re_search (markers suffixes : list string) (s : string) : bool :=
  existsb (fun m => match strip_prefix m s with
                    | Some rest => dot_star_then suffixes rest
                    | None => false
                    end) markers ||
  match s with
  | EmptyString => false
  | String _ rest => re_search markers suffixes rest
  end.

(** The [type_scores] dict, in its insertion order. *)
Record TypeScores : Type := {
  command : Q;
  question : Q;
  greeting : Q;
  chat : Q
}.

Definition items (s : TypeScores) : list (string * Q) :=
  [("command", command s); ("question", question s);
   ("greeting", greeting s); ("chat", chat s)].

Definition add_command (s : TypeScores) (d : Q) : TypeScores :=
  {| command := command s + d; question := question s;
     greeting := greeting s; chat := chat s |}.

Definition add_question (s : TypeScores) (d : Q) : TypeScores :=
  {| command := command s; question := question s + d;
     greeting := greeting s; chat := chat s |}.

Definition add_greeting (s : TypeScores) (d : Q) : TypeScores :=
  {| command := command s; question := question s;
     greeting := greeting s + d; chat := chat s |}.

Definition question_words : list string :=
  ["是吗"; "真的吗"; "什么"; "为什么"; "怎么样"].

Definition greeting_words : list string :=
  ["你好"; "早上好"; "下午好"; "晚上好"; "再见"].

(** One turn of the loop over [pos_tags]. *)
Definition score_pos (s : TypeScores) (pos : string) : TypeScores :=
  if String.eqb pos "v" then add_command s (1#10)
  else if String.eqb pos "y" then add_question s (1#10)
  else s.

Definition type_scores (text : string) (pos_tags keywords : list string)
    (possible_commands : list Commands.CommandType) : TypeScores :=
  let s := {| command := 0; question := 0; greeting := 0; chat := 1#10 |} in
  let s := if is_empty possible_commands then s else add_command s (6#10) in
  let s := fold_left score_pos pos_tags s in
  let s := if Py.contains "？" text || Py.contains "?" text
           then add_question s (4#10) else s in
  let s := if existsb (fun k => Py.mem k question_words) keywords
           then add_question s (4#10) else s in
  let s := if existsb (fun k => Py.mem k greeting_words) keywords
           then add_greeting s (6#10) else s in
  if re_search ["请"; "麻烦"; "帮忙"] ["好吗"; "可以吗"] text
  then add_command s (3#10) else s.

Definition _analyze_context_type (text : string)
    (words pos_tags keywords : list string)
    (possible_commands : list Commands.CommandType) : string * Q :=
  let s := type_scores text pos_tags keywords possible_commands in
  max_from snd ("command", command s)
           [("question", question s); ("greeting", greeting s);
            ("chat", chat s)].

(** [obstacle.get('distance', float('inf'))]: [None] is the default, and
    the raise is the [AttributeError] of an entry without [get]. *)
Definition get_distance (obstacle : Scn.Obstacle)
  : Py.outcome (option Scn.DistanceValue) :=
  match obstacle with
  | Scn.ObstacleDict distance => Py.Returned distance
  | Scn.ObstacleOther => Py.Raised
  end.

(** [distance < min_distance]: the raise is the [TypeError] of a distance
    that is not a number; infinity is below nothing. *)
Definition below (distance : option Scn.DistanceValue) (min_distance : Q)
  : Py.outcome bool :=
  match distance with
  | None => Py.Returned false
  | Some (Scn.DistanceNumber d) => Py.Returned (Qlt_bool d min_distance)
  | Some Scn.DistanceOther => Py.Raised
  end.

(** The loop over the obstacles of [_check_safety]: it stops at the first
    entry that is too near, or that raises. *)
Fixpoint all_clear (min_distance : Q) (obstacles : list Scn.Obstacle)
  : Py.outcome bool :=
  match obstacles with
  | [] => Py.Returned true
  | obstacle :: rest =>
      do distance <- get_distance obstacle;
      do near <- below distance min_distance;
      if near then Py.Returned false else all_clear min_distance rest
  end.

Definition _check_safety (self : t) (commands : list string)
    (obstacles : list Scn.Obstacle) : bool :=
  if is_empty commands || is_empty obstacles then true
  else match config self with
       | None => true
       | Some cfg =>
           let body :=
             do safety_config <- Py.subscript (Cfg.safety cfg);
             do min_distance <-
               Py.subscript (Cfg.min_obstacle_distance safety_config);
             all_clear min_distance obstacles in
           match body with
           | Py.Returned b => b
           | Py.Raised => true
           end
       end.

(** [scene_info] is [None] for an absent or empty scene (both falsy). *)
Definition _combine_scene_info (self : t) (context : Ctx.Context)
    (scene_info : option Scn.Scene) : Ctx.Context :=
  match scene_info with
  | None => context
  | Some sc =>
      let '(has, safe) :=
        match Scn.obstacles sc with
        | Some obs =>
            (negb (is_empty obs),
             _check_safety self (Ctx.possible_commands context) obs)
        | None => (false, true)
        end in
      {| Ctx.original_text := Ctx.original_text context;
         Ctx.words := Ctx.words context;
         Ctx.pos_tags := Ctx.pos_tags context;
         Ctx.keywords := Ctx.keywords context;
         Ctx.possible_commands := Ctx.possible_commands context;
         Ctx.possible_emotions := Ctx.possible_emotions context;
         Ctx.context_type := Ctx.context_type context;
         Ctx.context_confidence := Ctx.context_confidence context;
         Ctx.scene := Some sc;
         Ctx.has_obstacles := Some has;
         Ctx.is_safe := Some safe |}
  end.

Definition analyze (self : t) (text : string)
    (scene_info : option Scn.Scene) : Ctx.Context :=
  let body :=
    do wp <- _segment_text self text;
    let '(words, pos_tags) := wp in
    let keywords := _extract_keywords words in
    let possible_commands := Commands.get_command_by_keywords text in
    let possible_emotions := Emotions.get_emotion_by_keywords text in
    let '(context_type, confidence) :=
      _analyze_context_type text words pos_tags keywords possible_commands in
    Py.Returned
      (_combine_scene_info self
         {| Ctx.original_text := text;
            Ctx.words := words;
            Ctx.pos_tags := pos_tags;
            Ctx.keywords := keywords;
            Ctx.possible_commands := map Commands.value possible_commands;
            Ctx.possible_emotions := map Emotions.value possible_emotions;
            Ctx.context_type := context_type;
            Ctx.context_confidence := confidence;
            Ctx.scene := None;
            Ctx.has_obstacles := None;
            Ctx.is_safe := None |}
         scene_info) in
  match body with
  | Py.Returned context => context
  | Py.Raised =>
      {| Ctx.original_text := text;
         Ctx.words := [];
         Ctx.pos_tags := [];
         Ctx.keywords := [];
         Ctx.possible_commands := [];
         Ctx.possible_emotions := [];
         Ctx.context_type := "chat";
         Ctx.context_confidence := 5#10;
         Ctx.scene := None;
         Ctx.has_obstacles := None;
         Ctx.is_safe := None |}
  end.

End ContextAnalyzer.

(** ** core/emotion_analyzer.py *)

Module EmotionAnalyzer.

Import Emotions.

Record t : Type := {
  current_emotion : EmotionType;
  emotion_history : list EmotionType;
  history_size : nat;
  config : option Cfg.Config
}.

(** [__init__], given what loading the configuration produced. *)
Definition init (loaded : option Cfg.Config) : t :=
  {| current_emotion := CALM; emotion_history := []; history_size := 5;
     config := loaded |}.

Record EmotionResult : Type := {
  emotion_type : string;
  params : EmotionParams;
  history : list string;
  confidence : Q
}.

(** A dict keyed by [EmotionType], in insertion order. *)
Definition dict (A : Type) : Type := list (EmotionType * A).

Fixpoint dict_get {A} (d : dict A) (e : EmotionType) (default : A) : A :=
  match d with
  | [] => default
  | (k, v) :: rest => if eqb k e then v else dict_get rest e default
  end.

Fixpoint dict_set {A} (d : dict A) (e : EmotionType) (v : A) : dict A :=
  match d with
  | [] => [(e, v)]
  | (k, w) :: rest =>
      if eqb k e then (k, v) :: rest else (k, w) :: dict_set rest e v
  end.

(** [for emotion, score in scores.items():
       emotion_scores[emotion] = emotion_scores.get(emotion, 0) + score] *)
Definition add_scores (emotion_scores scores : dict Q) : dict Q :=
  fold_left (fun acc es => dict_set acc (fst es)
                             (dict_get acc (fst es) 0 + snd es))
            scores emotion_scores.

Definition _calculate_keyword_score (self : t) (emotion : EmotionType)
    (keywords : list string) : Py.outcome Q :=
  match config self with
  | None => Py.Returned 0
  | Some cfg =>
      do emotion_cfg <- Py.subscript (Cfg.emotion cfg);
      do triggers <- Py.subscript (Cfg.triggers emotion_cfg);
      let emotion_keywords :=
        Py.set (get (Cfg.lookup (value emotion) triggers) []) in
      if is_empty emotion_keywords then Py.Returned 0
      else
        let matches :=
          filter (fun k => Py.mem k emotion_keywords) keywords in
        Py.Returned (Py.of_nat (List.length matches) /
                     Py.of_nat (List.length emotion_keywords))
  end.

Definition _get_context_type_scores (context_type : string) : dict Q :=
  if String.eqb context_type "greeting" then
    [(FRIENDLY, 8#10); (HAPPY, 6#10)]
  else if String.eqb context_type "command" then
    [(EXCITED, 7#10); (FRIENDLY, 5#10)]
  else if String.eqb context_type "question" then
    [(SURPRISED, 6#10); (FRIENDLY, 4#10)]
  else
    [(CALM, 5#10); (FRIENDLY, 3#10)].

Definition _calculate_history_scores (self : t) : dict Q :=
  if is_empty (emotion_history self) then []
  else
    let total := List.length (emotion_history self) in
    let emotion_counts :=
      fold_left (fun counts e => dict_set counts e (dict_get counts e 0 + 1)%nat)
                (emotion_history self) ([] : dict nat) in
    map (fun ec => (fst ec, Py.of_nat (snd ec) / Py.of_nat total * (5#10)))
        emotion_counts.

Definition _calculate_scene_scores (scene : Scn.Scene) : dict Q :=
  let scores : dict Q := [] in
  let scores :=
    if negb (get (Scn.is_safe scene) true)
    then dict_set (dict_set scores SCARED (8#10)) SURPRISED (6#10)
    else scores in
  let scores :=
    if get (Scn.has_obstacles scene) false
    then dict_set scores SCARED (dict_get scores SCARED 0 + (4#10))
    else scores in
  match get (Scn.temperature scene) (Some (25#1)) with
  | Some temp =>
      if Qlt_bool (30#1) temp then dict_set scores ANGRY (3#10)
      else if Qlt_bool temp (10#1) then dict_set scores SAD (3#10)
      else scores
  | None => scores
  end.

(** A loop whose body may raise: the first raise ends it. *)
Fixpoint for_each {A B} (f : A -> Py.outcome B) (l : list A)
  : Py.outcome (list B) :=
  match l with
  | [] => Py.Returned []
  | x :: rest =>
      do y <- f x;
      do ys <- for_each f rest;
      Py.Returned (y :: ys)
  end.

(** The combined score table of [_recognize_emotion], steps 2.1 to 2.4. *)
Definition emotion_scores (self : t) (context : Ctx.Context)
  : Py.outcome (dict Q) :=
  let keywords := Py.set (Ctx.keywords context) in
  do scores <- for_each (fun emotion =>
                           do score <- _calculate_keyword_score
                                         self emotion keywords;
                           Py.Returned (emotion, score)) all;
  let scores :=
    add_scores scores (_get_context_type_scores (Ctx.context_type context)) in
  let scores := add_scores scores (_calculate_history_scores self) in
  Py.Returned
    (add_scores scores
       (_calculate_scene_scores (get (Ctx.scene context) Scn.empty))).

(** [min(1.0, max(0.0, confidence))] *)
Definition clamp01 (confidence : Q) : Q := Qmin 1 (Qmax 0 confidence).

Definition _recognize_emotion (self : t) (context : Ctx.Context)
    (rng : Py.Rng) : Py.outcome (EmotionType * Q) * Py.Rng :=
  let scored :=
    do possible_emotions <-
      for_each (fun e => Py.subscript (of_value e))
               (Ctx.possible_emotions context);
    do scores <- emotion_scores self context;
    Py.Returned (possible_emotions, scores) in
  match scored with
  | Py.Raised => (Py.Raised, rng)
  | Py.Returned (possible_emotions, scores) =>
      match map snd scores with
      | [] => (Py.Returned (current_emotion self, clamp01 (5#10)), rng)
      | s :: rest =>
          let max_score := max_from (fun x => x) s rest in
          let best_emotions :=
            map fst (filter (fun es => Qeq_bool (snd es) max_score) scores) in
          let confidence :=
            max_score / (Py.of_nat (List.length scores) * 4) in
          match possible_emotions with
          | first :: _ => (Py.Returned (first, clamp01 confidence), rng)
          | [] =>
              let '(picked, rng') := Py.choice rng best_emotions in
              (do selected <- Py.subscript picked;
               Py.Returned (selected, clamp01 confidence), rng')
          end
      end
  end.

Definition _update_emotion_state (self : t) (new_emotion : EmotionType) : t :=
  let appended := (emotion_history self ++ [new_emotion])%list in
  {| current_emotion := new_emotion;
     emotion_history :=
       if (history_size self <? List.length appended)%nat
       then Py.pop0 appended else appended;
     history_size := history_size self;
     config := config self |}.

(** [max(ranges[0], min(ranges[1], x))] *)
Definition clamp_range (ranges : list Q) (x : Q) : Py.outcome Q :=
  do lo <- Py.subscript (nth_error ranges 0);
  do hi <- Py.subscript (nth_error ranges 1);
  Py.Returned (Qmax lo (Qmin hi x)).

Definition _adjust_params (self : t) (params : EmotionParams)
    (context : Ctx.Context) (confidence : Q) : Py.outcome EmotionParams :=
  match config self with
  | None => Py.Returned params
  | Some cfg =>
      let blend := fun current_value =>
        current_value * confidence + 1 * (1 - confidence) in
      let speech_speed1 := blend (speech_speed params) in
      let volume1 := blend (volume params) in
      let pitch1 := blend (pitch params) in
      let unsafe := negb (get (Ctx.is_safe context) true) in
      let speech_speed2 :=
        if unsafe then speech_speed1 * (12#10) else speech_speed1 in
      let volume2 := if unsafe then volume1 * (8#10) else volume1 in
      let speech_speed3 :=
        if String.eqb (Ctx.context_type context) "command"
        then speech_speed2 * (11#10) else speech_speed2 in
      do emotion_cfg <- Py.subscript (Cfg.emotion cfg);
      do speech_speed4 <-
        clamp_range (get (Cfg.speech_speed_range emotion_cfg) [8#10; 13#10])
                    speech_speed3;
      do volume3 <-
        clamp_range (get (Cfg.volume_range emotion_cfg) [8#10; 12#10])
                    volume2;
      Py.Returned {| speech_speed := speech_speed4;
                     volume := volume3;
                     pitch := pitch1;
                     expression := expression params;
                     keywords := keywords params |}
  end.

(** The result of the [except] branch of [analyze], built on the state as
    it stands when the exception is caught. *)
Definition fallback (self : t) : EmotionResult :=
  {| emotion_type := value CALM;
     params := get_emotion_params CALM;
     history := map value (emotion_history self);
     confidence := 5#10 |}.

(** The [try] body of [analyze]: its outcome, the analyzer as the body left
    it, and the random source. *)
Definition analyze_try (self : t) (context : Ctx.Context) (rng : Py.Rng)
  : Py.outcome EmotionResult * t * Py.Rng :=
  match _recognize_emotion self context rng with
  | (Py.Raised, rng') => (Py.Raised, self, rng')
  | (Py.Returned (emotion, conf), rng') =>
      let self' := _update_emotion_state self emotion in
      let emotion_params := get_emotion_params emotion in
      match _adjust_params self' emotion_params context conf with
      | Py.Raised => (Py.Raised, self', rng')
      | Py.Returned adjusted_params =>
          (Py.Returned {| emotion_type := value emotion;
                          params := adjusted_params;
                          history := map value (emotion_history self');
                          confidence := conf |},
           self', rng')
      end
  end.

Definition analyze (self : t) (context : Ctx.Context) (rng : Py.Rng)
  : EmotionResult * t * Py.Rng :=
  match analyze_try self context rng with
  | (Py.Returned result, self', rng') => (result, self', rng')
  | (Py.Raised, self', rng') => (fallback self', self', rng')
  end.

End EmotionAnalyzer.

(** ** core/decision_maker.py *)

Module DecisionMaker.

Record t : Type := {
  config : option Cfg.Config;
  danger_keywords : list string;
  restricted_areas : list string;
  command_history : list string;
  max_history_size : nat
}.

(** [__init__], given what loading the configuration produced: a missing
    ['safety'], ['danger_keywords'] or ['restricted_areas'] key raises and
    leaves the maker without configuration. *)
Definition init (loaded : option Cfg.Config) : t :=
  let body :=
    do cfg <- Py.subscript loaded;
    do safety <- Py.subscript (Cfg.safety cfg);
    do danger <- Py.subscript (Cfg.danger_keywords safety);
    do safety' <- Py.subscript (Cfg.safety cfg);
    do restricted <- Py.subscript (Cfg.restricted_areas safety');
    Py.Returned (cfg, Py.set danger, Py.set restricted) in
  match body with
  | Py.Returned (cfg, danger, restricted) =>
      {| config := Some cfg; danger_keywords := danger;
         restricted_areas := restricted;
         command_history := []; max_history_size := 10 |}
  | Py.Raised =>
      {| config := None; danger_keywords := []; restricted_areas := [];
         command_history := []; max_history_size := 10 |}
  end.

(** The decision dict; an absent key is [None]. *)
Record Decision : Type := {
  should_execute : bool;
  reject_reason : option string;
  action_type : option string;
  response_template : option string;
  vocabulary_constraints : list string;
  safety_score : option Q
}.

Record SafetyResult : Type := {
  is_safe : bool;
  reason : option string;
  score : Q
}.

Definition unsafe (why : string) : SafetyResult :=
  {| is_safe := false; reason := Some why; score := 0 |}.

(** [self.config['safety']] *)
Definition safety_config (self : t) : Py.outcome Cfg.SafetyConfig :=
  do cfg <- Py.subscript (config self);
  Py.subscript (Cfg.safety cfg).

Definition _pass_safety_check (self : t) (check_type : string)
    (scene : Scn.Scene) : bool :=
  let body :=
    if String.eqb check_type "distance" then
      do safety <- safety_config self;
      do min_distance <- Py.subscript (Cfg.min_obstacle_distance safety);
      Py.Returned match Scn.obstacle_distance scene with
                  | Some current_distance =>
                      Qle_bool min_distance current_distance
                  | None => true
                  end
    else if String.eqb check_type "speed" then
      do safety <- safety_config self;
      do max_speed <- Py.subscript (Cfg.max_speed safety);
      match Scn.speed scene with
      | None => Py.Returned (Qle_bool 0 max_speed)
      | Some (Scn.SpeedNumber current_speed) =>
          Py.Returned (Qle_bool current_speed max_speed)
      | Some (Scn.SpeedText _) => Py.Raised
      end
    else if String.eqb check_type "obstacles" then
      Py.Returned (negb (get (Scn.has_obstacles scene) false))
    else if String.eqb check_type "area" then
      Py.Returned (negb (Py.mem (get (Scn.area scene) "")
                                (restricted_areas self)))
    else Py.Returned true in
  match body with
  | Py.Returned b => b
  | Py.Raised => false
  end.

(** [float(scene['speed'])] *)
Definition float (v : Scn.SpeedValue) : Py.outcome Q :=
  match v with
  | Scn.SpeedNumber q => Py.Returned q
  | Scn.SpeedText parsed => Py.subscript parsed
  end.

(** Step 4.3 of [_check_command_safety]: whether the speed limit is
    exceeded; a raise inside the inner [try] is passed over. *)
Definition over_speed (self : t) (scene : Scn.Scene) : bool :=
  match Scn.speed scene with
  | None => false
  | Some v =>
      let body :=
        do speed <- float v;
        do safety <- safety_config self;
        do max_speed <- Py.subscript (Cfg.max_speed safety);
        Py.Returned (Qlt_bool max_speed speed) in
      match body with
      | Py.Returned b => b
      | Py.Raised => false
      end
  end.

(** [passed_checks / len(safety_checks)] *)
Definition divide (n d : nat) : Py.outcome Q :=
  match d with
  | O => Py.Raised
  | S _ => Py.Returned (Py.of_nat n / Py.of_nat d)
  end.

Definition _check_command_safety (self : t) (command : string)
    (context : Ctx.Context) : SafetyResult :=
  let result := {| is_safe := true; reason := None; score := 1 |} in
  let body :=
    do command_type <- Py.subscript (Commands.of_value command);
    if negb (Commands.needs_safety_check command_type) then
      Py.Returned result
    else if negb (get (Ctx.is_safe context) true) then
      Py.Returned (unsafe "当前环境不安全")
    else
      let text := Ctx.original_text context in
      let danger_words :=
        filter (fun word => Py.contains word text) (danger_keywords self) in
      if negb (is_empty danger_words) then
        Py.Returned (unsafe ("包含危险词汇: " ++ Py.join ", " danger_words))
      else
        let scene := get (Ctx.scene context) Scn.empty in
        if get (Scn.has_obstacles scene) false
           && negb (is_empty (get (Scn.obstacles scene) [])) then
          Py.Returned (unsafe "前方有障碍物")
        else
          let current_area := get (Scn.area scene) "" in
          if Py.mem current_area (restricted_areas self) then
            Py.Returned (unsafe ("当前处于限制区域: " ++ current_area))
          else if over_speed self scene then
            Py.Returned (unsafe "速度超过限制")
          else
            do safety <- safety_config self;
            do safety_checks <- Py.subscript (Cfg.required_checks safety);
            let passed_checks :=
              List.length
                (filter (fun check => _pass_safety_check self check scene)
                        safety_checks) in
            do score <- divide passed_checks (List.length safety_checks);
            Py.Returned {| is_safe := true; reason := None; score := score |}
  in
  match body with
  | Py.Returned r => r
  | Py.Raised => unsafe "无法完成安全检查"
  end.

Definition _check_command_history (self : t) (command : string) : bool :=
  let recent_commands := Py.last_n 3 (command_history self) in
  (Py.count command recent_commands <? 2)%nat.

Definition _update_command_history (self : t) (command : string) : t :=
  let appended := (command_history self ++ [command])%list in
  {| config := config self;
     danger_keywords := danger_keywords self;
     restricted_areas := restricted_areas self;
     command_history :=
       if (max_history_size self <? List.length appended)%nat
       then Py.pop0 appended else appended;
     max_history_size := max_history_size self |}.

Definition _is_template_suitable (template emotion_type : string) : bool :=
  true.

Definition _select_response_template (templates : list string)
    (emotion : EmotionAnalyzer.EmotionResult) (rng : Py.Rng)
  : option string * Py.Rng :=
  let emotion_type := EmotionAnalyzer.emotion_type emotion in
  let suitable_templates :=
    filter (fun template => _is_template_suitable template emotion_type)
           templates in
  if negb (is_empty suitable_templates)
  then Py.choice rng suitable_templates
  else Py.choice rng templates.

(** The five phrasings of a refusal. *)
Definition reject_templates (command reason : string) : list string :=
  ["对不起," ++ reason;
   "抱歉," ++ reason;
   "我不能" ++ command ++ "," ++ reason;
   "现在不能" ++ command ++ ",因为" ++ reason;
   "执行" ++ command ++ "可能有风险," ++ reason].

Definition _generate_reject_response (command reason : string)
    (rng : Py.Rng) : option string * Py.Rng :=
  Py.choice rng (reject_templates command reason).

Definition rejection (message : string) (score : option Q) : Decision :=
  {| should_execute := false;
     reject_reason := Some message;
     action_type := None;
     response_template := None;
     vocabulary_constraints := Vocabulary.ALL_VOCABULARY;
     safety_score := score |}.

(** The refusal returned at each of the three gates of
    [_process_command]. *)
Definition reject_with (self : t) (command reason : string) (score : Q)
    (rng : Py.Rng) : Py.outcome Decision * t * Py.Rng :=
  let '(message, rng') := _generate_reject_response command reason rng in
  (do text <- Py.subscript message;
   Py.Returned (rejection text (Some score)), self, rng').

(** The [try] body of [_process_command]: its outcome, the maker as the
    body left it, and the random source. *)
Definition _process_command_try (self : t) (command : string)
    (context : Ctx.Context) (emotion : EmotionAnalyzer.EmotionResult)
    (rng : Py.Rng) : Py.outcome Decision * t * Py.Rng :=
  let reject := reject_with self command in
  let safety_result := _check_command_safety self command context in
  if negb (is_safe safety_result) then
    reject (get (reason safety_result) "None") (score safety_result) rng
  else
    let emotion_type := EmotionAnalyzer.emotion_type emotion in
    if Py.mem emotion_type ["害怕"; "生气"] then
      reject "我现在的心情不太好" (5#10) rng
    else if negb (_check_command_history self command) then
      reject "这个动作最近做得太频繁了" (5#10) rng
    else
      match Commands.of_value command with
      | None => (Py.Raised, self, rng)
      | Some command_type =>
          let command_params := Commands.get_command_params command_type in
          let self' := _update_command_history self command in
          let '(template, rng') :=
            _select_response_template
              (Commands.response_templates command_params) emotion rng in
          (do text <- Py.subscript template;
           Py.Returned
             {| should_execute := true;
                reject_reason := None;
                action_type := Some (Commands.action command_params);
                response_template := Some text;
                vocabulary_constraints := Vocabulary.ALL_VOCABULARY;
                safety_score := Some (score safety_result) |},
           self', rng')
      end.

Definition _process_command (self : t) (command : string)
    (context : Ctx.Context) (emotion : EmotionAnalyzer.EmotionResult)
    (rng : Py.Rng) : Decision * t * Py.Rng :=
  match _process_command_try self command context emotion rng with
  | (Py.Returned decision, self', rng') => (decision, self', rng')
  | (Py.Raised, self', rng') =>
      (rejection "抱歉,我无法处理这个指令" (Some 0), self', rng')
  end.

Definition _get_vocabulary_constraints (self : t) (response_type : string)
    (emotion : EmotionAnalyzer.EmotionResult) : list string :=
  match config self with
  | None => Vocabulary.ALL_VOCABULARY
  | Some cfg =>
      match Cfg.responses cfg with
      | Some responses =>
          get (Cfg.lookup response_type responses) Vocabulary.ALL_VOCABULARY
      | None => Vocabulary.ALL_VOCABULARY
      end
  end.

Definition _generate_chat_decision (self : t) (context : Ctx.Context)
    (emotion : EmotionAnalyzer.EmotionResult) : Decision :=
  let context_type := Ctx.context_type context in
  let response_type :=
    if String.eqb context_type "greeting" then "greeting"
    else if String.eqb context_type "question" then "question"
    else "chat" in
  {| should_execute := true;
     reject_reason := None;
     action_type := None;
     response_template := None;
     vocabulary_constraints :=
       _get_vocabulary_constraints self response_type emotion;
     safety_score := None |}.

Definition _select_best_command_result (results : list Decision) : Decision :=
  match results with
  | [] =>
      {| should_execute := false;
         reject_reason := Some "没有可用的命令";
         action_type := None;
         response_template := None;
         vocabulary_constraints := Vocabulary.ALL_VOCABULARY;
         safety_score := None |}
  | first :: _ =>
      let executable_results := filter should_execute results in
      match max_by (fun x => get (safety_score x) 0) executable_results with
      | Some best => best
      | None => first
      end
  end.

(** The loop of [make_decision] over the candidate commands. *)
Fixpoint process_all (self : t) (commands : list string)
    (context : Ctx.Context) (emotion : EmotionAnalyzer.EmotionResult)
    (rng : Py.Rng) : list Decision * t * Py.Rng :=
  match commands with
  | [] => ([], self, rng)
  | command :: rest =>
      let '(result, self', rng') :=
        _process_command self command context emotion rng in
      let '(results, self'', rng'') :=
        process_all self' rest context emotion rng' in
      (result :: results, self'', rng'')
  end.

(** No statement of the [try] body raises on a well-typed context, so the
    [except] branch of [make_decision] has no counterpart here. *)
Definition make_decision (self : t) (context : Ctx.Context)
    (emotion : EmotionAnalyzer.EmotionResult) (rng : Py.Rng)
  : Decision * t * Py.Rng :=
  let possible_commands := Ctx.possible_commands context in
  if String.eqb (Ctx.context_type context) "command"
     && negb (is_empty possible_commands) then
    let '(command_results, self', rng') :=
      process_all self possible_commands context emotion rng in
    (_select_best_command_result command_results, self', rng')
  else
    (_generate_chat_decision self context emotion, self, rng).

(** The test of the emotional gate of [_process_command]. *)
Definition mood_blocks (emotion : EmotionAnalyzer.EmotionResult) : bool :=
  Py.mem (EmotionAnalyzer.emotion_type emotion) ["害怕"; "生气"].

(** The three gates of [_process_command] taken together. *)
Definition gates_open (self : t) (command : string) (context : Ctx.Context)
    (emotion : EmotionAnalyzer.EmotionResult) : bool :=
  is_safe (_check_command_safety self command context)
  && negb (mood_blocks emotion)
  && _check_command_history self command.

End DecisionMaker.

(** ** A conversation session

    The two pieces of session state and the calls that mutate them. *)

Module Session.

Record t : Type := {
  emotion_analyzer : EmotionAnalyzer.t;
  decision_maker : DecisionMaker.t
}.

Definition init (loaded : option Cfg.Config) : t :=
  {| emotion_analyzer := EmotionAnalyzer.init loaded;
     decision_maker := DecisionMaker.init loaded |}.

Inductive Call : Type :=
| Analyze (context : Ctx.Context)
| Decide (context : Ctx.Context) (emotion : EmotionAnalyzer.EmotionResult).

Definition step (s : t) (c : Call) (rng : Py.Rng) : t * Py.Rng :=
  match c with
  | Analyze context =>
      let '(_, ea, rng') :=
        EmotionAnalyzer.analyze (emotion_analyzer s) context rng in
      ({| emotion_analyzer := ea; decision_maker := decision_maker s |}, rng')
  | Decide context emotion =>
      let '(_, dm, rng') :=
        DecisionMaker.make_decision (decision_maker s) context emotion rng in
      ({| emotion_analyzer := emotion_analyzer s; decision_maker := dm |},
       rng')
  end.

Fixpoint run (s : t) (calls : list Call) (rng : Py.Rng) : t * Py.Rng :=
  match calls with
  | [] => (s, rng)
  | c :: rest => let '(s', rng') := step s c rng in run s' rest rng'
  end.

(** Both histories are within their capacities, 5 and 10. *)
Definition within_capacity (s : t) : Prop :=
  EmotionAnalyzer.history_size (emotion_analyzer s) = 5%nat
  /\ (List.length (EmotionAnalyzer.emotion_history (emotion_analyzer s)) <= 5)%nat
  /\ DecisionMaker.max_history_size (decision_maker s) = 10%nat
  /\ (List.length (DecisionMaker.command_history (decision_maker s)) <= 10)%nat.

End Session.

(** ** Concrete configurations and requests *)

Module Example.

Definition safety : Cfg.SafetyConfig :=
  {| Cfg.min_obstacle_distance := Some 1;
     Cfg.danger_keywords :=
       Some ["撞"; "跳"; "摔"; "打"; "踢"; "伤害"; "危险"; "破坏"; "损坏"];
     Cfg.restricted_areas := Some ["厨房"];
     Cfg.max_speed := Some 2;
     Cfg.required_checks := Some ["distance"; "speed"; "obstacles"; "area"] |}.

Definition triggers : list (string * list string) :=
  [("高兴", ["表扬"; "成功"; "帮助"]);
   ("难过", ["失败"; "道歉"; "离别"]);
   ("生气", ["批评"; "打扰"; "不尊重"]);
   ("惊讶", ["意外"; "突然"; "特殊"])].

(** The default ranges. *)
Definition emotion : Cfg.EmotionConfig :=
  {| Cfg.speech_speed_range := Some [8#10; 13#10];
     Cfg.volume_range := Some [8#10; 12#10];
     Cfg.pitch_range := Some [9#10; 12#10];
     Cfg.triggers := Some triggers |}.

Definition cfg : Cfg.Config :=
  {| Cfg.safety := Some safety; Cfg.emotion := Some emotion;
     Cfg.responses := None |}.

(** A narrower pitch range. *)
Definition cfg_pitch : Cfg.Config :=
  {| Cfg.safety := Some safety;
     Cfg.emotion :=
       Some {| Cfg.speech_speed_range := Some [8#10; 13#10];
               Cfg.volume_range := Some [8#10; 12#10];
               Cfg.pitch_range := Some [1; 12#10];
               Cfg.triggers := Some triggers |};
     Cfg.responses := None |}.

(** A speech-speed range with its upper bound missing. *)
Definition cfg_short_range : Cfg.Config :=
  {| Cfg.safety := Some safety;
     Cfg.emotion :=
       Some {| Cfg.speech_speed_range := Some [8#10];
               Cfg.volume_range := Some [8#10; 12#10];
               Cfg.pitch_range := Some [9#10; 12#10];
               Cfg.triggers := Some triggers |};
     Cfg.responses := None |}.

(** A context analyzer whose tokenizer cuts every text into [tokens]. *)
Definition analyzer (loaded : Cfg.Config) (tokens : list (string * string))
  : ContextAnalyzer.t :=
  {| ContextAnalyzer.config := Some loaded;
     ContextAnalyzer.pseg_cut := fun _ => Py.Returned tokens |}.

Definition rng : Py.Rng := fun _ => 0%nat.
Definition rng' : Py.Rng := fun n => S n.

(** One request through the whole pipeline, on given session state. *)
Definition process (ca : ContextAnalyzer.t) (ea : EmotionAnalyzer.t)
    (dm : DecisionMaker.t) (text : string) (scene_info : option Scn.Scene)
    (g : Py.Rng)
  : Ctx.Context * EmotionAnalyzer.EmotionResult * DecisionMaker.Decision
    * EmotionAnalyzer.t * DecisionMaker.t :=
  let context := ContextAnalyzer.analyze ca text scene_info in
  let '(emotion, ea', g') := EmotionAnalyzer.analyze ea context g in
  let '(decision, dm', _) :=
    DecisionMaker.make_decision dm context emotion g' in
  (context, emotion, decision, ea', dm').

(** "跳舞" (dance). *)
Definition dance_tokens : list (string * string) := [("跳舞", "v")].
Definition dance_context : Ctx.Context :=
  ContextAnalyzer.analyze (analyzer cfg dance_tokens) "跳舞" None.


(** "别过来" (do not come over). *)
Definition stay_tokens : list (string * string) := [("别", "d"); ("过来", "v")].
Definition stay_context : Ctx.Context :=
  ContextAnalyzer.analyze (analyzer cfg stay_tokens) "别过来" None.

(** "过来" (come here). *)
Definition come_tokens : list (string * string) := [("过来", "v")].
Definition come_context : Ctx.Context :=
  ContextAnalyzer.analyze (analyzer cfg come_tokens) "过来" None.

(** "难过" (sad). *)
Definition sad_tokens : list (string * string) := [("难过", "a")].
Definition sad_context : Ctx.Context :=
  ContextAnalyzer.analyze (analyzer cfg_pitch sad_tokens) "难过" None.

(** "快跑" (run). *)
Definition run_tokens : list (string * string) := [("快跑", "v")].
Definition run_context : Ctx.Context :=
  ContextAnalyzer.analyze (analyzer cfg run_tokens) "快跑" None.

(** "你好" (hello), with an obstacle at distance 0.3. *)
Definition hello_tokens : list (string * string) := [("你好", "l")].
Definition near_obstacle : Scn.Scene :=
  {| Scn.obstacles :=
       Some [Scn.ObstacleDict (Some (Scn.DistanceNumber (3#10)))];
     Scn.temperature := None; Scn.area := None; Scn.speed := None;
     Scn.obstacle_distance := None; Scn.has_obstacles := None;
     Scn.is_safe := None |}.
Definition hello_context : Ctx.Context :=
  ContextAnalyzer.analyze (analyzer cfg hello_tokens) "你好"
                          (Some near_obstacle).

(** "过来" (come here), with the same obstacle. *)
Definition come_near_context : Ctx.Context :=
  ContextAnalyzer.analyze (analyzer cfg come_tokens) "过来"
                          (Some near_obstacle).

(** "转身停下" (turn around, stop). *)
Definition turn_stop_tokens : list (string * string) :=
  [("转身", "v"); ("停下", "v")].
Definition turn_stop_context : Ctx.Context :=
  ContextAnalyzer.analyze (analyzer cfg turn_stop_tokens) "转身停下" None.

(** "跳过来" (jump over here). *)
Definition jump_tokens : list (string * string) := [("跳", "v"); ("过来", "v")].
Definition jump_context : Ctx.Context :=
  ContextAnalyzer.analyze (analyzer cfg jump_tokens) "跳过来" None.

Definition calm : EmotionAnalyzer.EmotionResult :=
  EmotionAnalyzer.fallback (EmotionAnalyzer.init (Some cfg)).

(** A maker that has just run twice. *)
Definition ran_twice : DecisionMaker.t :=
  DecisionMaker._update_command_history
    (DecisionMaker._update_command_history
       (DecisionMaker.init (Some cfg)) "快跑") "快跑".

(** The analyzer on [cfg_short_range] once EXCITED has been recorded. *)
Definition excited_short_range : EmotionAnalyzer.t :=
  EmotionAnalyzer._update_emotion_state
    (EmotionAnalyzer.init (Some cfg_short_range)) Emotions.EXCITED.

(** A fresh session on [loaded], serving one request. *)
Definition fresh (loaded : Cfg.Config) (tokens : list (string * string))
    (text : string) (scene_info : option Scn.Scene) :=
  process (analyzer loaded tokens) (EmotionAnalyzer.init (Some loaded))
          (DecisionMaker.init (Some loaded)) text scene_info rng.

End Example.

(** ** core/context_analyzer.py: tone and scene impact

    [_analyze_tone] and [_analyze_scene_emotion_impact] compute the entries
    ['tone_analysis'] and ['scene_emotion_impact'] of the context dict. *)

Module Signals.

(** The [tone_scores] dict, in its insertion order: 祈使, 疑问, 感叹, 强调,
    缓和. *)
Record ToneScores : Type := {
  imperative : Q;
  interrogative : Q;
  exclamatory : Q;
  emphatic : Q;
  hedging : Q
}.

Definition items (s : ToneScores) : list (string * Q) :=
  [("祈使", imperative s); ("疑问", interrogative s);
   ("感叹", exclamatory s); ("强调", emphatic s); ("缓和", hedging s)].

(** [tone_scores[tone] += d] *)
Definition add (tone : string) (d : Q) (s : ToneScores) : ToneScores :=
  {| imperative := if String.eqb tone "祈使" then imperative s + d
                   else imperative s;
     interrogative := if String.eqb tone "疑问" then interrogative s + d
                      else interrogative s;
     exclamatory := if String.eqb tone "感叹" then exclamatory s + d
                    else exclamatory s;
     emphatic := if String.eqb tone "强调" then emphatic s + d
                 else emphatic s;
     hedging := if String.eqb tone "缓和" then hedging s + d
                else hedging s |}.

(** [self.tone_words], in insertion order. *)
Definition tone_words : list (string * list string) :=
  [("祈使", ["请"; "麻烦"; "帮忙"; "希望"; "建议"]);
   ("疑问", ["吗"; "呢"; "吧"; "啊"; "么"]);
   ("感叹", ["啊"; "哇"; "呀"; "哦"; "诶"]);
   ("强调", ["一定"; "必须"; "肯定"; "绝对"; "确实"]);
   ("缓和", ["可能"; "也许"; "大概"; "差不多"; "稍微"])].

(** One turn of the loop over [words]. *)
Definition score_word (s : ToneScores) (word : string) : ToneScores :=
  fold_left (fun acc tw => if Py.mem word (snd tw)
                           then add (fst tw) (3#10) acc else acc)
            tone_words s.

(** One turn of the loop over [pos_tags]. *)
Definition score_tag (s : ToneScores) (pos : string) : ToneScores :=
  if String.eqb pos "y" then add "疑问" (1#10) (add "感叹" (1#10) s) else s.

(** [re.search(r'a|b|c', text)] *)
Definition search_any (alternatives : list string) (text : string) : bool :=
  existsb (fun a => Py.contains a text) alternatives.

(** The scores before normalisation. *)
Definition tone_scores (words pos_tags : list string) : ToneScores :=
  let s := {| imperative := 0; interrogative := 0; exclamatory := 0;
              emphatic := 0; hedging := 0 |} in
  let s := fold_left score_word words s in
  let s := fold_left score_tag pos_tags s in
  let text := Py.join "" words in
  let s := if ContextAnalyzer.re_search ["请"] ["吧"] text
           then add "祈使" (3#10) s else s in
  let s := if search_any ["一定"; "必须"; "肯定"] text
           then add "强调" (3#10) s else s in
  if search_any ["可能"; "也许"; "大概"] text
  then add "缓和" (3#10) s else s.

(** [max(tone_scores.values())] *)
Definition max_score (s : ToneScores) : Q :=
  max_from (fun x => x) (imperative s)
           [interrogative s; exclamatory s; emphatic s; hedging s].

Definition _analyze_tone (words pos_tags : list string)
  : list (string * Q) :=
  let s := tone_scores words pos_tags in
  let m := max_score s in
  let scored :=
    if Qlt_bool 0 m
    then map (fun kv => (fst kv, snd kv / m)) (items s)
    else items s in
  filter (fun kv => Qle_bool (3#10) (snd kv)) scored.

(** No raw tone score is negative. *)
Definition tone_nonneg (s : ToneScores) : Prop :=
  0 <= imperative s /\ 0 <= interrogative s /\ 0 <= exclamatory s
  /\ 0 <= emphatic s /\ 0 <= hedging s.

(** The scene dict with the two further keys that only
    [_analyze_scene_emotion_impact] reads. *)
Record Reading : Type := {
  scene : Scn.Scene;
  lighting : option string;
  safety_status : option string
}.

(** One entry of the impact dict: [{'type': ..., 'degree': ...}]. *)
Record Impact : Type := {
  type : string;
  degree : Q
}.

(** The impact dict; an absent key is [None]. *)
Record SceneImpact : Type := {
  temperature : option Impact;
  lighting_impact : option Impact;
  safety : option Impact
}.

Definition _analyze_scene_emotion_impact (r : Reading) : SceneImpact :=
  {| temperature :=
       match get (Scn.temperature (scene r)) (Some (25#1)) with
       | Some temp =>
           if Qlt_bool (30#1) temp then
             Some {| type := "不适";
                     degree := Qmin ((temp - (30#1)) / (10#1)) 1 |}
           else if Qlt_bool temp (10#1) then
             Some {| type := "不适";
                     degree := Qmin (((10#1) - temp) / (10#1)) 1 |}
           else None
       | None => None
       end;
     lighting_impact :=
       let l := get (lighting r) "明亮" in
       if String.eqb l "黑暗" then Some {| type := "不安"; degree := 7#10 |}
       else if String.eqb l "昏暗" then
         Some {| type := "警惕"; degree := 4#10 |}
       else None;
     safety :=
       if negb (String.eqb (get (safety_status r) "安全") "安全")
       then Some {| type := "危险"; degree := 8#10 |} else None |}.

(** The entries present in an impact dict. *)
Definition entries (i : SceneImpact) : list Impact :=
  (match temperature i with Some x => [x] | None => [] end)
  ++ (match lighting_impact i with Some x => [x] | None => [] end)
  ++ (match safety i with Some x => [x] | None => [] end).

End Signals.

(** ** Further configurations and requests *)

Module Example2.

(** The default configuration written by server.py (DEFAULT_CONFIG): its
    safety section has neither restricted areas, nor a maximal speed, nor
    required checks. *)
Definition cfg_default : Cfg.Config :=
  {| Cfg.safety :=
       Some {| Cfg.min_obstacle_distance := Some 1;
               Cfg.danger_keywords :=
                 Some ["撞"; "跳"; "摔"; "打"; "踢";
                       "伤害"; "危险"; "破坏"; "损坏"];
               Cfg.restricted_areas := None;
               Cfg.max_speed := None;
               Cfg.required_checks := None |};
     Cfg.emotion := Some Example.emotion;
     Cfg.responses :=
       Some [("问候", ["你好"; "早上好"; "下午好"; "晚上好"]);
             ("告别", ["再见"; "拜拜"; "下次见"; "回头见"]);
             ("肯定", ["好的"; "没问题"; "可以"; "当然"]);
             ("否定", ["抱歉"; "不行"; "不可以"; "恐怕不行"])] |}.

(** "害怕过来" (afraid, come here). *)
Definition scared_tokens : list (string * string) :=
  [("害怕", "v"); ("过来", "v")].
Definition scared_context : Ctx.Context :=
  ContextAnalyzer.analyze (Example.analyzer Example.cfg scared_tokens)
                          "害怕过来" None.
Definition scared : EmotionAnalyzer.EmotionResult :=
  fst (fst (EmotionAnalyzer.analyze (EmotionAnalyzer.init (Some Example.cfg))
                                    scared_context Example.rng)).

(** "过来" (come here) in a scene with four obstacles: one without
    distance, one at 2.0, one at 0.3, and one whose distance is null. *)
Definition crowded : Scn.Scene :=
  {| Scn.obstacles :=
       Some [Scn.ObstacleDict None;
             Scn.ObstacleDict (Some (Scn.DistanceNumber 2));
             Scn.ObstacleDict (Some (Scn.DistanceNumber (3#10)));
             Scn.ObstacleDict (Some Scn.DistanceOther)];
     Scn.temperature := None; Scn.area := None; Scn.speed := None;
     Scn.obstacle_distance := None; Scn.has_obstacles := None;
     Scn.is_safe := None |}.
Definition come_crowded_context : Ctx.Context :=
  ContextAnalyzer.analyze (Example.analyzer Example.cfg Example.come_tokens)
                          "过来" (Some crowded).

(** A configuration whose response table has lists for greetings and for
    chat. *)
Definition cfg_responses : Cfg.Config :=
  {| Cfg.safety := Some Example.safety;
     Cfg.emotion := Some Example.emotion;
     Cfg.responses :=
       Some [("greeting", ["你好"; "早上好"]); ("chat", ["好的"; "可以"])] |}.

(** The same request served [n] times in a row by one session. *)
Fixpoint serve (ca : ContextAnalyzer.t) (text : string) (n : nat)
    (ea : EmotionAnalyzer.t) (dm : DecisionMaker.t)
  : list DecisionMaker.Decision * DecisionMaker.t :=
  match n with
  | O => ([], dm)
  | S n' =>
      let '(_, _, decision, ea', dm') :=
        Example.process ca ea dm text None Example.rng in
      let '(decisions, dm'') := serve ca text n' ea' dm' in
      (decision :: decisions, dm'')
  end.

(** "过来" (come here) in a scene with an obstacle at 2.0, one whose
    distance is null, and one at 0.3. *)
Definition hidden : Scn.Scene :=
  {| Scn.obstacles :=
       Some [Scn.ObstacleDict (Some (Scn.DistanceNumber 2));
             Scn.ObstacleDict (Some Scn.DistanceOther);
             Scn.ObstacleDict (Some (Scn.DistanceNumber (3#10)))];
     Scn.temperature := None; Scn.area := None; Scn.speed := None;
     Scn.obstacle_distance := None; Scn.has_obstacles := None;
     Scn.is_safe := None |}.
Definition come_hidden_context : Ctx.Context :=
  ContextAnalyzer.analyze (Example.analyzer Example.cfg Example.come_tokens)
                          "过来" (Some hidden).

(** A maker whose last three commands were run, run, stop. *)
Definition ran_then_stopped : DecisionMaker.t :=
  DecisionMaker._update_command_history Example.ran_twice "停下".

(** The emotion analyzer's result for "过来". *)
Definition excited : EmotionAnalyzer.EmotionResult :=
  fst (fst (EmotionAnalyzer.analyze (EmotionAnalyzer.init (Some Example.cfg))
                                    Example.come_context Example.rng)).

End Example2.

(** * Properties *)

(** ** Comparisons and lists *)

Lemma Qlt_bool_iff (a b : Q) : Qlt_bool a b = true <-> a < b.
Proof.
  unfold Qlt_bool. rewrite negb_true_iff. split; intro H.
  - apply Qnot_le_lt. intro Hle. apply Qle_bool_iff in Hle. congruence.
  - destruct (Qle_bool b a) eqn:E; [|reflexivity].
    apply Qle_bool_iff in E. exfalso. exact (Qlt_not_le _ _ H E).
Qed.

Lemma Qlt_bool_false (a b : Q) : Qlt_bool a b = false <-> b <= a.
Proof.
  unfold Qlt_bool. rewrite negb_false_iff. apply Qle_bool_iff.
Qed.

Lemma is_empty_true {A} (l : list A) : is_empty l = true <-> l = [].
Proof. destruct l; simpl; split; congruence. Qed.

Lemma is_empty_false {A} (l : list A) : is_empty l = false <-> l <> [].
Proof. destruct l; simpl; split; congruence. Qed.

(** Appending and evicting the oldest entry on overflow keeps a history
    within its capacity. *)
Lemma push_bounded {A} (n : nat) (h : list A) (x : A) :
  (List.length h <= n)%nat ->
  (List.length (if (n <? List.length (h ++ [x]))%nat
                then Py.pop0 (h ++ [x])%list else (h ++ [x])%list) <= n)%nat.
Proof.
  intro Hlen. destruct (n <? List.length (h ++ [x]))%nat eqn:E.
  - unfold Py.pop0. destruct h; simpl in *; [lia|].
    rewrite length_app. simpl. lia.
  - apply Nat.ltb_ge in E. exact E.
Qed.

(** The shape of the history after a push: first in, first out. *)
Lemma push_fifo {A} (n : nat) (h : list A) (x : A) :
  (0 < n)%nat -> (List.length h <= n)%nat ->
  (if (n <? List.length (h ++ [x]))%nat
   then Py.pop0 (h ++ [x])%list else (h ++ [x])%list)
  = if (List.length h <? n)%nat then (h ++ [x])%list else (tl h ++ [x])%list.
Proof.
  intros Hn Hlen. rewrite length_app. simpl.
  destruct (List.length h <? n)%nat eqn:E.
  - apply Nat.ltb_lt in E.
    replace (n <? List.length h + 1)%nat with false; [reflexivity|].
    symmetry. apply Nat.ltb_ge. lia.
  - apply Nat.ltb_ge in E.
    replace (n <? List.length h + 1)%nat with true
      by (symmetry; apply Nat.ltb_lt; lia).
    destruct h; simpl in *; [lia | reflexivity].
Qed.

Lemma string_app_assoc (a b c : string) : (a ++ b) ++ c = a ++ (b ++ c).
Proof. induction a; simpl; congruence. Qed.

Lemma choice_nonempty {A} (g : Py.Rng) (l : list A) :
  l <> [] -> exists x, Py.choice g l = (Some x, Py.next g) /\ In x l.
Proof.
  intros Hne. unfold Py.choice.
  destruct (nth_error l (g 0%nat mod List.length l)) eqn:E.
  - exists a. split; [reflexivity | eapply nth_error_In; eauto].
  - apply nth_error_None in E. destruct l as [|y l]; [congruence|].
    pose proof (Nat.mod_upper_bound (g 0%nat) (List.length (y :: l))) as Hb.
    simpl in *. lia.
Qed.

(** ** The decision maker, gate by gate *)

Section Gates.

Import DecisionMaker.

Variable dm : DecisionMaker.t.
Variable command : string.
Variable context : Ctx.Context.
Variable emotion : EmotionAnalyzer.EmotionResult.

Lemma reject_templates_suffix (reason x : string) :
  In x (reject_templates command reason) -> exists p, x = p ++ reason.
Proof.
  unfold reject_templates. cbn [In].
  intros [H|[H|[H|[H|[H|[]]]]]]; subst x.
  - exists "对不起,". reflexivity.
  - exists "抱歉,". reflexivity.
  - exists ("我不能" ++ command ++ ",").
    rewrite !string_app_assoc. reflexivity.
  - exists ("现在不能" ++ command ++ ",因为").
    rewrite !string_app_assoc. reflexivity.
  - exists ("执行" ++ command ++ "可能有风险,").
    rewrite !string_app_assoc. reflexivity.
Qed.

Lemma reject_with_spec (reason : string) (sc : Q) (rng : Py.Rng) :
  exists p,
    reject_with dm command reason sc rng
    = (Py.Returned (rejection (p ++ reason) (Some sc)), dm, Py.next rng).
Proof.
  unfold reject_with, _generate_reject_response.
  destruct (@choice_nonempty string rng (reject_templates command reason))
    as [x [Hx Hin]]; [discriminate|].
  destruct (reject_templates_suffix Hin) as [p Hp].
  exists p. rewrite Hx. simpl. subst x. reflexivity.
Qed.

Lemma templates_nonempty (ct : Commands.CommandType) :
  Commands.response_templates (Commands.get_command_params ct) <> [].
Proof. destruct ct; discriminate. Qed.

Lemma safe_command_valid :
  is_safe (_check_command_safety dm command context) = true ->
  exists ct, Commands.of_value command = Some ct.
Proof.
  unfold _check_command_safety.
  destruct (Commands.of_value command) as [ct|]; [eauto|].
  simpl. discriminate.
Qed.

(** What [_process_command] returns and does to the maker, by the state
    of the gates. *)
Lemma process_command_spec (rng : Py.Rng) :
  exists d,
    _process_command dm command context emotion rng
    = (d, (if gates_open dm command context emotion then _update_command_history dm command else dm),
       Py.next rng)
    /\ should_execute d = gates_open dm command context emotion
    /\ (is_safe (_check_command_safety dm command context) = false ->
        exists p,
          reject_reason d
          = Some (p ++ get (reason (_check_command_safety dm command context))
                           "None"))
    /\ (is_safe (_check_command_safety dm command context) = true ->
        mood_blocks emotion = true ->
        exists p, reject_reason d = Some (p ++ "我现在的心情不太好"))
    /\ (is_safe (_check_command_safety dm command context) = true ->
        mood_blocks emotion = false ->
        _check_command_history dm command = false ->
        exists p, reject_reason d = Some (p ++ "这个动作最近做得太频繁了"))
    /\ (gates_open dm command context emotion = true ->
        exists ct,
          Commands.of_value command = Some ct
          /\ action_type d = Some (Commands.action (Commands.get_command_params ct))
          /\ safety_score d
             = Some (score (_check_command_safety dm command context))).
Proof.
  unfold _process_command, _process_command_try, gates_open.
  change (Py.mem (EmotionAnalyzer.emotion_type emotion) ["害怕"; "生气"])
    with (mood_blocks emotion).
  destruct (is_safe (_check_command_safety dm command context)) eqn:Hsafe;
    cbn [negb andb].
  - destruct (mood_blocks emotion) eqn:Hmood; cbn [negb andb].
    + destruct (reject_with_spec "我现在的心情不太好" (5#10) rng) as [p Hp].
      rewrite Hp. eexists. split; [reflexivity|].
      cbn [should_execute reject_reason rejection].
      repeat split; try discriminate; eauto.
    + destruct (_check_command_history dm command) eqn:Hhist; cbn [negb].
      * destruct (safe_command_valid Hsafe) as [ct Hct]. rewrite Hct.
        unfold _select_response_template.
        assert (Hfil : filter (fun template =>
                    _is_template_suitable template
                      (EmotionAnalyzer.emotion_type emotion))
                  (Commands.response_templates
                     (Commands.get_command_params ct))
                = Commands.response_templates
                    (Commands.get_command_params ct)).
        { apply forallb_filter_id. apply forallb_forall. reflexivity. }
        rewrite Hfil.
        destruct (@choice_nonempty string rng
                    (Commands.response_templates
                       (Commands.get_command_params ct))
                    (templates_nonempty ct)) as [x [Hx _]].
        assert (Hif : (if negb (is_empty (Commands.response_templates
                                 (Commands.get_command_params ct)))
                       then Py.choice rng (Commands.response_templates
                                 (Commands.get_command_params ct))
                       else Py.choice rng (Commands.response_templates
                                 (Commands.get_command_params ct)))
                      = (Some x, Py.next rng)).
        { destruct (negb _); exact Hx. }
        rewrite Hif. cbn. eexists. split; [reflexivity|].
        cbn. repeat split; try discriminate. eauto.
      * destruct (reject_with_spec "这个动作最近做得太频繁了" (5#10) rng)
          as [p Hp].
        rewrite Hp. eexists. split; [reflexivity|].
        cbn [should_execute reject_reason rejection].
        repeat split; try discriminate; eauto.
  - destruct (reject_with_spec
                (get (reason (_check_command_safety dm command context))
                     "None")
                (score (_check_command_safety dm command context)) rng)
      as [p Hp].
    rewrite Hp. eexists. split; [reflexivity|].
    cbn [should_execute reject_reason rejection].
    repeat split; try discriminate; eauto.
Qed.

End Gates.

(** ** The decision maker over all candidates *)

Lemma max_from_In {A} (key : A -> Q) (l : list A) (best : A) :
  max_from key best l = best \/ In (max_from key best l) l.
Proof.
  revert best. induction l as [|x l IH]; intro best; simpl; [now left|].
  destruct (IH (if Qlt_bool (key best) (key x) then x else best)) as [H|H].
  - rewrite H. destruct (Qlt_bool (key best) (key x)); auto.
  - auto.
Qed.

Lemma max_by_In {A} (key : A -> Q) (l : list A) (x : A) :
  max_by key l = Some x -> In x l.
Proof.
  destruct l as [|y l]; simpl; [discriminate|].
  intro H. injection H as <-.
  destruct (max_from_In key l y) as [E|E]; [left; now rewrite E | now right].
Qed.

Lemma select_best_executable (results : list DecisionMaker.Decision) :
  DecisionMaker.should_execute
    (DecisionMaker._select_best_command_result results)
  = existsb DecisionMaker.should_execute results.
Proof.
  unfold DecisionMaker._select_best_command_result.
  destruct results as [|first rest]; [reflexivity|].
  destruct (max_by _ (filter DecisionMaker.should_execute (first :: rest)))
    as [best|] eqn:E.
  - apply max_by_In in E. apply filter_In in E. destruct E as [Hin Hex].
    rewrite Hex. symmetry. apply existsb_exists. eauto.
  - assert (Hnil : filter DecisionMaker.should_execute (first :: rest) = []).
    { destruct (filter _ _); [reflexivity | discriminate]. }
    destruct (existsb DecisionMaker.should_execute (first :: rest)) eqn:Hex.
    + apply existsb_exists in Hex. destruct Hex as [x [Hin Hx]].
      assert (In x (filter DecisionMaker.should_execute (first :: rest)))
        by (apply filter_In; auto).
      rewrite Hnil in H. destruct H.
    + simpl in Hex. apply orb_false_iff in Hex. tauto.
Qed.


(** A call of [process_all] none of whose results is executable leaves
    the maker as it was. *)
Lemma process_all_frame (commands : list string) :
  forall (dm : DecisionMaker.t) (ctx : Ctx.Context)
         (emotion : EmotionAnalyzer.EmotionResult) (rng : Py.Rng)
         results dm' rng',
    DecisionMaker.process_all dm commands ctx emotion rng
    = (results, dm', rng') ->
    existsb DecisionMaker.should_execute results = false ->
    dm' = dm.
Proof.
  induction commands as [|c rest IH]; intros dm ctx emotion rng results dm' rng'.
  - simpl. intros H _. now injection H as _ <- _.
  - simpl.
    destruct (process_command_spec dm c ctx emotion rng)
      as [d [Hd [Hex _]]].
    rewrite Hd.
    destruct (DecisionMaker.process_all _ rest ctx emotion (Py.next rng))
      as [[results0 dm0] rng0] eqn:Hrest.
    intros H Hnone. injection H as <- <- <-.
    simpl in Hnone. apply orb_false_iff in Hnone. destruct Hnone as [Hd0 Hr0].
    rewrite Hex in Hd0. rewrite Hd0 in Hrest.
    exact (IH _ _ _ _ _ _ _ Hrest Hr0).
Qed.

(** When every candidate is stopped at a gate, no result is executable. *)
Lemma process_all_rejected (commands : list string) :
  forall (dm : DecisionMaker.t) (ctx : Ctx.Context)
         (emotion : EmotionAnalyzer.EmotionResult) (rng : Py.Rng),
    (forall c, In c commands ->
               DecisionMaker.gates_open dm c ctx emotion = false) ->
    exists results rng',
      DecisionMaker.process_all dm commands ctx emotion rng
      = (results, dm, rng')
      /\ existsb DecisionMaker.should_execute results = false.
Proof.
  induction commands as [|c rest IH]; intros dm ctx emotion rng Hall.
  - simpl. eauto.
  - simpl.
    destruct (process_command_spec dm c ctx emotion rng)
      as [d [Hd [Hex _]]].
    rewrite Hd, (Hall c (or_introl eq_refl)).
    destruct (IH dm ctx emotion (Py.next rng)) as [results [rng' [Hr Hn]]].
    { intros c' Hin. apply Hall. now right. }
    rewrite Hr. exists (d :: results), rng'. split; [reflexivity|].
    simpl. rewrite Hex, (Hall c (or_introl eq_refl)). exact Hn.
Qed.

(** X17: a decision that is not executable leaves the maker, and with it the
    command history, as it was; so does a conversational one. *)
Lemma make_decision_frame (dm : DecisionMaker.t) (ctx : Ctx.Context)
    (emotion : EmotionAnalyzer.EmotionResult) (rng : Py.Rng) d dm' rng' :
  DecisionMaker.make_decision dm ctx emotion rng = (d, dm', rng') ->
  DecisionMaker.should_execute d = false
  \/ String.eqb (Ctx.context_type ctx) "command"
     && negb (is_empty (Ctx.possible_commands ctx)) = false ->
  dm' = dm.
Proof.
  unfold DecisionMaker.make_decision.
  destruct (String.eqb (Ctx.context_type ctx) "command"
            && negb (is_empty (Ctx.possible_commands ctx))) eqn:Hroute.
  - destruct (DecisionMaker.process_all dm (Ctx.possible_commands ctx)
                ctx emotion rng) as [[results dm0] rng0] eqn:Hall.
    intros H [Hd|Hd]; [|discriminate]. injection H as <- <- <-.
    rewrite select_best_executable in Hd.
    exact (process_all_frame _ _ _ _ _ Hall Hd).
  - intros H _. now injection H as _ <- _.
Qed.

(** ** The danger-keyword check *)

Lemma danger_keyword_unsafe (dm : DecisionMaker.t) (c : string)
    (ctx : Ctx.Context) (ct : Commands.CommandType) (w : string) :
  Commands.of_value c = Some ct ->
  Commands.needs_safety_check ct = true ->
  In w (DecisionMaker.danger_keywords dm) ->
  Py.contains w (Ctx.original_text ctx) = true ->
  DecisionMaker.is_safe (DecisionMaker._check_command_safety dm c ctx) = false.
Proof.
  intros Hct Hneed Hin Hw. unfold DecisionMaker._check_command_safety.
  rewrite Hct. cbn [Py.subscript Py.bind]. rewrite Hneed. cbn [negb].
  destruct (negb (get (Ctx.is_safe ctx) true)); [reflexivity|].
  assert (Hf : In w (filter (fun word => Py.contains word (Ctx.original_text ctx))
                            (DecisionMaker.danger_keywords dm)))
    by (apply filter_In; auto).
  destruct (filter _ (DecisionMaker.danger_keywords dm)); [destruct Hf|].
  reflexivity.
Qed.

Lemma invalid_command_unsafe (dm : DecisionMaker.t) (c : string)
    (ctx : Ctx.Context) :
  Commands.of_value c = None ->
  DecisionMaker.is_safe (DecisionMaker._check_command_safety dm c ctx) = false.
Proof.
  intro H. unfold DecisionMaker._check_command_safety. now rewrite H.
Qed.

(** C1, as stated, fails: "跳舞" (dance) contains the configured danger
    keyword "跳", its intent is a command with the one candidate DANCE, and
    the decision is to execute: DANCE is configured without safety check,
    so the danger-keyword check is never reached. *)
Lemma danger_keyword_dance_executes :
  let '(context, emotion, decision, _, dm') :=
    Example.fresh Example.cfg Example.dance_tokens "跳舞" None in
  In "跳" (DecisionMaker.danger_keywords
             (DecisionMaker.init (Some Example.cfg)))
  /\ Py.contains "跳" (Ctx.original_text context) = true
  /\ Ctx.context_type context = "command"
  /\ Ctx.possible_commands context = ["跳舞"]
  /\ DecisionMaker.should_execute decision = true
  /\ DecisionMaker.action_type decision = Some "dance"
  /\ DecisionMaker.command_history dm' = ["跳舞"].
Proof. vm_compute. intuition. Qed.

(** C1 (amended): when the text contains a configured danger keyword, the
    intent is a command, and every candidate command is one that requires
    the safety check, the decision is a rejection and the maker is left as
    it was, whatever the scene and the emotion.  (A candidate configured
    without safety check skips the danger-keyword check.) *)
Theorem danger_keyword_rejects_checked_commands
    (dm : DecisionMaker.t) (ctx : Ctx.Context)
    (emotion : EmotionAnalyzer.EmotionResult) (rng : Py.Rng) (w : string) :
  In w (DecisionMaker.danger_keywords dm) ->
  Py.contains w (Ctx.original_text ctx) = true ->
  Ctx.context_type ctx = "command" ->
  Ctx.possible_commands ctx <> [] ->
  (forall c ct, In c (Ctx.possible_commands ctx) ->
                Commands.of_value c = Some ct ->
                Commands.needs_safety_check ct = true) ->
  exists d rng',
    DecisionMaker.make_decision dm ctx emotion rng = (d, dm, rng')
    /\ DecisionMaker.should_execute d = false.
Proof.
  intros Hin Hw Htype Hne Hchecked.
  unfold DecisionMaker.make_decision. rewrite Htype.
  apply is_empty_false in Hne. rewrite Hne. cbn [String.eqb negb andb].
  replace ("command" =? "command")%string with true by reflexivity.
  cbn [andb].
  destruct (process_all_rejected (Ctx.possible_commands ctx) dm ctx emotion rng)
    as [results [rng' [Hall Hnone]]].
  { intros c Hc. unfold DecisionMaker.gates_open.
    destruct (Commands.of_value c) as [ct|] eqn:Hct.
    - now rewrite (@danger_keyword_unsafe dm c ctx ct w Hct
                     (Hchecked c ct Hc Hct) Hin Hw).
    - now rewrite (@invalid_command_unsafe dm c ctx Hct). }
  rewrite Hall. exists (DecisionMaker._select_best_command_result results), rng'.
  split; [reflexivity|]. now rewrite select_best_executable.
Qed.

Lemma danger_keyword_rejects_jump :
  exists d rng',
    DecisionMaker.make_decision (DecisionMaker.init (Some Example.cfg))
      Example.jump_context Example.calm Example.rng
    = (d, DecisionMaker.init (Some Example.cfg), rng')
    /\ DecisionMaker.should_execute d = false.
Proof.
  apply (@danger_keyword_rejects_checked_commands
           (DecisionMaker.init (Some Example.cfg)) Example.jump_context
           Example.calm Example.rng "跳").
  - vm_compute. tauto.
  - vm_compute. reflexivity.
  - vm_compute. reflexivity.
  - vm_compute. discriminate.
  - intros c ct Hc H. vm_compute in Hc. destruct Hc as [<-|[]].
    vm_compute in H. injection H as <-. reflexivity.
Defined.

(** ** The emotional gate *)

Lemma scared_blocks (emotion : EmotionAnalyzer.EmotionResult) :
  EmotionAnalyzer.emotion_type emotion = Emotions.value Emotions.SCARED ->
  DecisionMaker.mood_blocks emotion = true.
Proof. unfold DecisionMaker.mood_blocks. intros ->. reflexivity. Qed.

(** The value of ANGRY is "愤怒"; the gate tests for "生气". *)
Lemma angry_passes (emotion : EmotionAnalyzer.EmotionResult) :
  EmotionAnalyzer.emotion_type emotion = Emotions.value Emotions.ANGRY ->
  DecisionMaker.mood_blocks emotion = false.
Proof. unfold DecisionMaker.mood_blocks. intros ->. reflexivity. Qed.

(** X16: no emotion other than SCARED is stopped at the emotional gate. *)
Lemma mood_blocks_only_scared (e : Emotions.EmotionType)
    (emotion : EmotionAnalyzer.EmotionResult) :
  EmotionAnalyzer.emotion_type emotion = Emotions.value e ->
  DecisionMaker.mood_blocks emotion = true -> e = Emotions.SCARED.
Proof.
  unfold DecisionMaker.mood_blocks. intros ->.
  destruct e; vm_compute; congruence.
Qed.

(** X15: a scared maker refuses a command that passed the safety gate, with the
    mood as the reason, and records nothing. *)
Lemma scared_rejects (dm : DecisionMaker.t) (command : string)
    (ctx : Ctx.Context) (emotion : EmotionAnalyzer.EmotionResult)
    (rng : Py.Rng) :
  DecisionMaker.is_safe (DecisionMaker._check_command_safety dm command ctx)
  = true ->
  EmotionAnalyzer.emotion_type emotion = Emotions.value Emotions.SCARED ->
  exists d p,
    DecisionMaker._process_command dm command ctx emotion rng
    = (d, dm, Py.next rng)
    /\ DecisionMaker.should_execute d = false
    /\ DecisionMaker.reject_reason d = Some (p ++ "我现在的心情不太好").
Proof.
  intros Hsafe Hscared. apply scared_blocks in Hscared.
  destruct (process_command_spec dm command ctx emotion rng)
    as [d [Hd [Hex [_ [Hmood _]]]]].
  destruct (Hmood Hsafe Hscared) as [p Hp].
  exists d, p. unfold DecisionMaker.gates_open in Hd, Hex.
  rewrite Hsafe, Hscared in Hd, Hex. auto.
Qed.

(** C3: the code breaks the claim for the angry emotion.  "别过来" (do not
    come over) matches the trigger "别" of ANGRY and the keyword "过来" of
    COME; the emotion analyzer returns ANGRY, whose value is "愤怒", the
    emotional gate tests for "生气", and the command is executed and
    recorded. *)
Theorem angry_command_executes :
  let '(context, emotion, decision, ea', dm') :=
    Example.fresh Example.cfg Example.stay_tokens "别过来" None in
  EmotionAnalyzer.current_emotion ea' = Emotions.ANGRY
  /\ EmotionAnalyzer.emotion_type emotion = Emotions.value Emotions.ANGRY
  /\ Ctx.possible_commands context = ["过来"]
  /\ DecisionMaker.is_safe
       (DecisionMaker._check_command_safety
          (DecisionMaker.init (Some Example.cfg)) "过来" context) = true
  /\ DecisionMaker.should_execute decision = true
  /\ DecisionMaker.action_type decision = Some "move_to_target"
  /\ DecisionMaker.command_history dm' = ["过来"].
Proof. vm_compute. intuition. Qed.

(** ** The repetition gate *)




(** X18: a command that fills two of the last three history entries is never
    executed, whatever the other gates say. *)
Lemma repeated_command_not_executed (dm : DecisionMaker.t)
    (command : string) (ctx : Ctx.Context)
    (emotion : EmotionAnalyzer.EmotionResult) (rng : Py.Rng) :
  (2 <= Py.count command (Py.last_n 3 (DecisionMaker.command_history dm)))%nat ->
  exists d,
    DecisionMaker._process_command dm command ctx emotion rng
    = (d, dm, Py.next rng)
    /\ DecisionMaker.should_execute d = false.
Proof.
  intro Hcount.
  destruct (process_command_spec dm command ctx emotion rng)
    as [d [Hd [Hex _]]].
  assert (Hgate : DecisionMaker.gates_open dm command ctx emotion = false).
  { unfold DecisionMaker.gates_open, DecisionMaker._check_command_history.
    replace (_ <? 2)%nat with false
      by (symmetry; apply Nat.ltb_ge; exact Hcount).
    apply andb_false_r. }
  rewrite Hgate in Hd, Hex. eauto.
Qed.


(** Nor are the first two of three identical requests always executed: on
    the default configuration written by server.py, "快跑" is rejected all
    three times, the safety check being impossible. *)
Lemma default_config_rejects_run_thrice :
  let '(decisions, dm) :=
    Example2.serve
      (Example.analyzer Example2.cfg_default Example.run_tokens) "快跑" 3
      (EmotionAnalyzer.init (Some Example2.cfg_default))
      (DecisionMaker.init (Some Example2.cfg_default)) in
  map DecisionMaker.should_execute decisions = [false; false; false]
  /\ DecisionMaker.command_history dm = [].
Proof. vm_compute. repeat split. Qed.



(** C9: the code breaks the claim when several candidates are executable.
    "转身停下" (turn around, stop) has the candidates TURN and STOP; one
    decision, for TURN, is returned, and two entries are appended to the
    command history, the second for a command that was not decided. *)
Theorem two_candidates_two_entries :
  let '(context, emotion, decision, _, dm') :=
    Example.fresh Example.cfg Example.turn_stop_tokens "转身停下" None in
  Ctx.context_type context = "command"
  /\ Ctx.possible_commands context = ["转身"; "停下"]
  /\ DecisionMaker.command_history (DecisionMaker.init (Some Example.cfg)) = []
  /\ DecisionMaker.should_execute decision = true
  /\ DecisionMaker.action_type decision = Some "rotate"
  /\ DecisionMaker.command_history dm' = ["转身"; "停下"].
Proof. vm_compute. intuition. Qed.

(** ** Bounded histories *)

Lemma analyze_state (self : EmotionAnalyzer.t) (ctx : Ctx.Context)
    (rng : Py.Rng) :
  snd (fst (EmotionAnalyzer.analyze self ctx rng)) = self
  \/ exists e,
      snd (fst (EmotionAnalyzer.analyze self ctx rng))
      = EmotionAnalyzer._update_emotion_state self e.
Proof.
  unfold EmotionAnalyzer.analyze, EmotionAnalyzer.analyze_try.
  destruct (EmotionAnalyzer._recognize_emotion self ctx rng) as [[[e c]|] g].
  - right. exists e.
    destruct (EmotionAnalyzer._adjust_params _ _ ctx c); reflexivity.
  - left. reflexivity.
Qed.

Lemma process_all_invariant (P : DecisionMaker.t -> Prop) :
  (forall dm c, P dm -> P (DecisionMaker._update_command_history dm c)) ->
  forall commands dm ctx emotion rng,
    P dm ->
    P (snd (fst (DecisionMaker.process_all dm commands ctx emotion rng))).
Proof.
  intros Hupd commands.
  induction commands as [|c rest IH]; intros dm ctx emotion rng HP.
  - exact HP.
  - simpl.
    destruct (process_command_spec dm c ctx emotion rng) as [d [Hd _]].
    rewrite Hd.
    specialize (IH (if DecisionMaker.gates_open dm c ctx emotion
                    then DecisionMaker._update_command_history dm c else dm)
                   ctx emotion (Py.next rng)).
    destruct (DecisionMaker.process_all _ rest ctx emotion (Py.next rng))
      as [[results dm'] rng'].
    simpl in *. apply IH.
    destruct (DecisionMaker.gates_open dm c ctx emotion); auto.
Qed.

Lemma make_decision_invariant (P : DecisionMaker.t -> Prop) :
  (forall dm c, P dm -> P (DecisionMaker._update_command_history dm c)) ->
  forall dm ctx emotion rng,
    P dm ->
    P (snd (fst (DecisionMaker.make_decision dm ctx emotion rng))).
Proof.
  intros Hupd dm ctx emotion rng HP. unfold DecisionMaker.make_decision.
  destruct (_ && _); [|exact HP].
  pose proof (process_all_invariant P Hupd (Ctx.possible_commands ctx)
                dm ctx emotion rng HP) as H.
  destruct (DecisionMaker.process_all dm _ ctx emotion rng) as [[r dm'] g].
  exact H.
Qed.

Lemma step_within_capacity (s : Session.t) (c : Session.Call) (rng : Py.Rng) :
  Session.within_capacity s ->
  Session.within_capacity (fst (Session.step s c rng)).
Proof.
  intros [Hsize [Hlen [Hmax Hcmd]]]. destruct c as [ctx|ctx emotion]; simpl.
  - pose proof (analyze_state (Session.emotion_analyzer s) ctx rng) as Hst.
    destruct (EmotionAnalyzer.analyze (Session.emotion_analyzer s) ctx rng)
      as [[r ea] g]. simpl in *.
    unfold Session.within_capacity. simpl.
    destruct Hst as [->|[e ->]]; [tauto|].
    unfold EmotionAnalyzer._update_emotion_state. simpl.
    rewrite Hsize. repeat split; auto. now apply push_bounded.
  - pose proof (make_decision_invariant
                  (fun dm => DecisionMaker.max_history_size dm = 10%nat
                             /\ (List.length (DecisionMaker.command_history dm)
                                  <= 10)%nat)) as Hinv.
    specialize (Hinv ltac:(
      intros dm c0 [Hm Hl]; unfold DecisionMaker._update_command_history;
      simpl; rewrite Hm; split; [reflexivity | now apply push_bounded])
      (Session.decision_maker s) ctx emotion rng (conj Hmax Hcmd)).
    destruct (DecisionMaker.make_decision (Session.decision_maker s)
                ctx emotion rng) as [[d dm'] g].
    unfold Session.within_capacity. simpl in *. tauto.
Qed.

Lemma run_within_capacity (calls : list Session.Call) :
  forall s rng,
    Session.within_capacity s ->
    Session.within_capacity (fst (Session.run s calls rng)).
Proof.
  induction calls as [|c rest IH]; intros s rng Hs; [exact Hs|].
  simpl. pose proof (step_within_capacity c rng Hs) as H.
  destruct (Session.step s c rng) as [s' g]. now apply IH.
Qed.

Lemma init_within_capacity (loaded : option Cfg.Config) :
  Session.within_capacity (Session.init loaded).
Proof.
  unfold Session.within_capacity, Session.init, DecisionMaker.init. simpl.
  destruct (do cfg <- Py.subscript loaded; _) as [[[cfg d] r]|]; simpl;
    repeat split; lia.
Qed.

(** C6: after any sequence of calls to [analyze] and [make_decision] on a
    session, the emotion history holds at most 5 entries and the command
    history at most 10; and the next entry is appended at the end, the
    oldest one leaving when the history is full. *)
Theorem histories_bounded (loaded : option Cfg.Config)
    (calls : list Session.Call) (rng : Py.Rng) :
  let s := fst (Session.run (Session.init loaded) calls rng) in
  let h := EmotionAnalyzer.emotion_history (Session.emotion_analyzer s) in
  let k := DecisionMaker.command_history (Session.decision_maker s) in
  (List.length h <= 5)%nat
  /\ (List.length k <= 10)%nat
  /\ (forall e,
        EmotionAnalyzer.emotion_history
          (EmotionAnalyzer._update_emotion_state (Session.emotion_analyzer s) e)
        = if (List.length h <? 5)%nat then (h ++ [e])%list
          else (tl h ++ [e])%list)
  /\ (forall c,
        DecisionMaker.command_history
          (DecisionMaker._update_command_history (Session.decision_maker s) c)
        = if (List.length k <? 10)%nat then (k ++ [c])%list
          else (tl k ++ [c])%list).
Proof.
  intros s h k.
  destruct (run_within_capacity calls rng (init_within_capacity loaded))
    as [Hsize [Hlen [Hmax Hcmd]]].
  fold s in Hsize, Hlen, Hmax, Hcmd. fold h in Hlen. fold k in Hcmd.
  repeat split; try assumption.
  - intro e. unfold EmotionAnalyzer._update_emotion_state. simpl.
    rewrite Hsize. fold h. apply push_fifo; [lia | exact Hlen].
  - intro c. unfold DecisionMaker._update_command_history. simpl.
    rewrite Hmax. fold k. apply push_fifo; [lia | exact Hcmd].
Qed.

(** ** Recognition of the emotion *)

Lemma dict_set_nonempty {A} (d : EmotionAnalyzer.dict A)
    (e : Emotions.EmotionType) (v : A) :
  EmotionAnalyzer.dict_set d e v <> [].
Proof.
  destruct d as [|[k w] d]; simpl; [discriminate|].
  destruct (Emotions.eqb k e); discriminate.
Qed.

Lemma add_scores_nonempty (scores d : EmotionAnalyzer.dict Q) :
  d <> [] -> EmotionAnalyzer.add_scores d scores <> [].
Proof.
  unfold EmotionAnalyzer.add_scores. revert d.
  induction scores as [|es scores IH]; intros d Hd; simpl; [exact Hd|].
  apply IH. apply dict_set_nonempty.
Qed.

Lemma for_each_length {A B} (f : A -> Py.outcome B) (l : list A) ys :
  EmotionAnalyzer.for_each f l = Py.Returned ys ->
  List.length ys = List.length l.
Proof.
  revert ys. induction l as [|x l IH]; intros ys; simpl.
  - intro H. injection H as <-. reflexivity.
  - destruct (f x) as [y|]; simpl; [|discriminate].
    destruct (EmotionAnalyzer.for_each f l) as [ys0|]; simpl; [|discriminate].
    intro H. injection H as <-. simpl. f_equal. now apply IH.
Qed.

(** The score table has an entry for every emotion: it is never empty. *)
Lemma emotion_scores_nonempty (self : EmotionAnalyzer.t) (ctx : Ctx.Context)
    scores :
  EmotionAnalyzer.emotion_scores self ctx = Py.Returned scores ->
  scores <> [].
Proof.
  unfold EmotionAnalyzer.emotion_scores.
  destruct (EmotionAnalyzer.for_each _ Emotions.all) as [base|] eqn:E;
    simpl; [|discriminate].
  intro H. injection H as <-.
  apply for_each_length in E.
  repeat apply add_scores_nonempty.
  destruct base; [discriminate E | discriminate].
Qed.

(** C10: when the context carries keyword-matched candidate emotions, the
    recognition step draws nothing from the random source, returns the
    same outcome for any two random sources, and any emotion it returns is
    the first candidate; it does return one whenever the candidates are
    emotion values and the scoring does not raise.  [analyze] then returns
    the same result and leaves the same state for any two random
    sources. *)
Theorem first_candidate_selected (self : EmotionAnalyzer.t)
    (ctx : Ctx.Context) (rng1 rng2 : Py.Rng) :
  Ctx.possible_emotions ctx <> [] ->
  snd (EmotionAnalyzer._recognize_emotion self ctx rng1) = rng1
  /\ fst (EmotionAnalyzer._recognize_emotion self ctx rng1)
     = fst (EmotionAnalyzer._recognize_emotion self ctx rng2)
  /\ (forall e c,
        fst (EmotionAnalyzer._recognize_emotion self ctx rng1)
        = Py.Returned (e, c) ->
        exists v rest,
          Ctx.possible_emotions ctx = v :: rest
          /\ Emotions.of_value v = Some e)
  /\ (forall es scores,
        EmotionAnalyzer.for_each (fun v => Py.subscript (Emotions.of_value v))
          (Ctx.possible_emotions ctx) = Py.Returned es ->
        EmotionAnalyzer.emotion_scores self ctx = Py.Returned scores ->
        exists e c,
          fst (EmotionAnalyzer._recognize_emotion self ctx rng1)
          = Py.Returned (e, c))
  /\ fst (EmotionAnalyzer.analyze self ctx rng1)
     = fst (EmotionAnalyzer.analyze self ctx rng2).
Proof.
  intro Hne.
  assert (Hrec : forall rng,
            EmotionAnalyzer._recognize_emotion self ctx rng
            = (fst (EmotionAnalyzer._recognize_emotion self ctx rng1), rng)
            /\ (forall e c,
                  fst (EmotionAnalyzer._recognize_emotion self ctx rng)
                  = Py.Returned (e, c) ->
                  exists v rest,
                    Ctx.possible_emotions ctx = v :: rest
                    /\ Emotions.of_value v = Some e)
            /\ (forall es scores,
                  EmotionAnalyzer.for_each
                    (fun v => Py.subscript (Emotions.of_value v))
                    (Ctx.possible_emotions ctx) = Py.Returned es ->
                  EmotionAnalyzer.emotion_scores self ctx
                  = Py.Returned scores ->
                  exists e c,
                    fst (EmotionAnalyzer._recognize_emotion self ctx rng)
                    = Py.Returned (e, c))).
  { intro rng. unfold EmotionAnalyzer._recognize_emotion.
    destruct (Ctx.possible_emotions ctx) as [|v rest]; [congruence|].
    cbn [EmotionAnalyzer.for_each].
    destruct (Emotions.of_value v) as [e0|] eqn:Ev;
      cbn [Py.subscript Py.bind].
    2: { repeat split; intros; discriminate. }
    destruct (EmotionAnalyzer.for_each _ rest) as [es0|]; cbn [Py.bind].
    2: { repeat split; intros; discriminate. }
    destruct (EmotionAnalyzer.emotion_scores self ctx) as [scores|] eqn:Es;
      cbn [Py.bind].
    2: { repeat split; intros; discriminate. }
    pose proof (emotion_scores_nonempty self ctx Es) as Hs.
    destruct scores as [|[k q] scores]; [congruence|].
    cbn [map snd fst].
    split; [reflexivity|]. split.
    - intros e c H. injection H as <- _. eauto.
    - intros. eauto. }
  destruct (Hrec rng1) as [H1 [Hfirst Hreturns]].
  destruct (Hrec rng2) as [H2 _].
  repeat split.
  - now rewrite H1.
  - now rewrite H2.
  - exact Hfirst.
  - exact Hreturns.
  - unfold EmotionAnalyzer.analyze, EmotionAnalyzer.analyze_try.
    rewrite H1, H2.
    destruct (fst (EmotionAnalyzer._recognize_emotion self ctx rng1))
      as [[e c]|]; [|reflexivity].
    destruct (EmotionAnalyzer._adjust_params _ _ ctx c); reflexivity.
Qed.

Lemma first_candidate_selected_stay :
  snd (EmotionAnalyzer._recognize_emotion
         (EmotionAnalyzer.init (Some Example.cfg)) Example.stay_context
         Example.rng) = Example.rng
  /\ fst (EmotionAnalyzer._recognize_emotion
            (EmotionAnalyzer.init (Some Example.cfg)) Example.stay_context
            Example.rng)
     = fst (EmotionAnalyzer._recognize_emotion
              (EmotionAnalyzer.init (Some Example.cfg)) Example.stay_context
              Example.rng')
  /\ (forall e c,
        fst (EmotionAnalyzer._recognize_emotion
               (EmotionAnalyzer.init (Some Example.cfg)) Example.stay_context
               Example.rng)
        = Py.Returned (e, c) ->
        exists v rest,
          Ctx.possible_emotions Example.stay_context = v :: rest
          /\ Emotions.of_value v = Some e)
  /\ (forall es scores,
        EmotionAnalyzer.for_each (fun v => Py.subscript (Emotions.of_value v))
          (Ctx.possible_emotions Example.stay_context) = Py.Returned es ->
        EmotionAnalyzer.emotion_scores
          (EmotionAnalyzer.init (Some Example.cfg)) Example.stay_context
        = Py.Returned scores ->
        exists e c,
          fst (EmotionAnalyzer._recognize_emotion
                 (EmotionAnalyzer.init (Some Example.cfg))
                 Example.stay_context Example.rng)
          = Py.Returned (e, c))
  /\ fst (EmotionAnalyzer.analyze (EmotionAnalyzer.init (Some Example.cfg))
            Example.stay_context Example.rng)
     = fst (EmotionAnalyzer.analyze (EmotionAnalyzer.init (Some Example.cfg))
              Example.stay_context Example.rng').
Proof.
  apply (@first_candidate_selected (EmotionAnalyzer.init (Some Example.cfg))
           Example.stay_context Example.rng Example.rng').
  vm_compute. discriminate.
Defined.

(** ** The failure policy of the emotion analyzer *)

(** C4, as stated, fails.  On a configuration whose speech-speed range
    lacks its upper bound the parameter adjustment raises.  The first
    request of a session then leaves the state updated (EXCITED is current
    and in the history), and the second returns CALM although the current
    emotion before the call was EXCITED. *)
Lemma failure_returns_calm_and_keeps_update :
  let ea0 := EmotionAnalyzer.init (Some Example.cfg_short_range) in
  let '(r1, ea1, g1) :=
    EmotionAnalyzer.analyze ea0 Example.come_context Example.rng in
  let '(r2, ea2, g2) := EmotionAnalyzer.analyze ea1 Example.come_context g1 in
  fst (fst (EmotionAnalyzer.analyze_try ea0 Example.come_context Example.rng))
  = Py.Raised
  /\ EmotionAnalyzer.current_emotion ea0 = Emotions.CALM
  /\ EmotionAnalyzer.emotion_history ea0 = []
  /\ EmotionAnalyzer.current_emotion ea1 = Emotions.EXCITED
  /\ EmotionAnalyzer.emotion_history ea1 = [Emotions.EXCITED]
  /\ fst (fst (EmotionAnalyzer.analyze_try ea1 Example.come_context g1))
     = Py.Raised
  /\ EmotionAnalyzer.emotion_type r2 = Emotions.value Emotions.CALM
  /\ EmotionAnalyzer.emotion_type r2
     <> Emotions.value (EmotionAnalyzer.current_emotion ea1).
Proof. vm_compute. intuition discriminate. Qed.

(** C4 (amended): when the body of [analyze] raises, the result carries
    the emotion CALM, the parameters of CALM, the confidence 0.5 and the
    history as it stands when the exception is caught.  If the raise is in
    the recognition (scoring) step, the analyzer is left as it was; if it
    is in the parameter adjustment, the analyzer has been updated with the
    recognised emotion and stays so. *)
Theorem analyze_failure_policy (self : EmotionAnalyzer.t) (ctx : Ctx.Context)
    (rng : Py.Rng) (self' : EmotionAnalyzer.t) (rng' : Py.Rng) :
  EmotionAnalyzer.analyze_try self ctx rng = (Py.Raised, self', rng') ->
  EmotionAnalyzer.analyze self ctx rng
  = (EmotionAnalyzer.fallback self', self', rng')
  /\ EmotionAnalyzer.emotion_type (EmotionAnalyzer.fallback self')
     = Emotions.value Emotions.CALM
  /\ EmotionAnalyzer.params (EmotionAnalyzer.fallback self')
     = Emotions.get_emotion_params Emotions.CALM
  /\ EmotionAnalyzer.confidence (EmotionAnalyzer.fallback self') = 5#10
  /\ EmotionAnalyzer.history (EmotionAnalyzer.fallback self')
     = map Emotions.value (EmotionAnalyzer.emotion_history self')
  /\ ((fst (EmotionAnalyzer._recognize_emotion self ctx rng) = Py.Raised
       /\ self' = self)
      \/ (exists e c,
             fst (EmotionAnalyzer._recognize_emotion self ctx rng)
             = Py.Returned (e, c)
             /\ EmotionAnalyzer._adjust_params
                  (EmotionAnalyzer._update_emotion_state self e)
                  (Emotions.get_emotion_params e) ctx c = Py.Raised
             /\ self' = EmotionAnalyzer._update_emotion_state self e)).
Proof.
  intro Htry. unfold EmotionAnalyzer.analyze. rewrite Htry.
  repeat split.
  unfold EmotionAnalyzer.analyze_try in Htry.
  destruct (EmotionAnalyzer._recognize_emotion self ctx rng)
    as [[[e c]|] g] eqn:Hrec.
  - right. exists e, c.
    destruct (EmotionAnalyzer._adjust_params
                (EmotionAnalyzer._update_emotion_state self e)
                (Emotions.get_emotion_params e) ctx c) eqn:Hadj;
      [discriminate|].
    injection Htry as <- _. auto.
  - left. injection Htry as <- _. auto.
Qed.

Lemma analyze_failure_policy_short_range :
  EmotionAnalyzer.analyze (EmotionAnalyzer.init (Some Example.cfg_short_range))
    Example.come_context Example.rng
  = (EmotionAnalyzer.fallback Example.excited_short_range,
     Example.excited_short_range, Py.next Example.rng)
  /\ EmotionAnalyzer.emotion_type
       (EmotionAnalyzer.fallback Example.excited_short_range)
     = Emotions.value Emotions.CALM
  /\ EmotionAnalyzer.params
       (EmotionAnalyzer.fallback Example.excited_short_range)
     = Emotions.get_emotion_params Emotions.CALM
  /\ EmotionAnalyzer.confidence
       (EmotionAnalyzer.fallback Example.excited_short_range) = 5#10
  /\ EmotionAnalyzer.history
       (EmotionAnalyzer.fallback Example.excited_short_range)
     = map Emotions.value
         (EmotionAnalyzer.emotion_history Example.excited_short_range)
  /\ ((fst (EmotionAnalyzer._recognize_emotion
              (EmotionAnalyzer.init (Some Example.cfg_short_range))
              Example.come_context Example.rng) = Py.Raised
       /\ Example.excited_short_range
          = EmotionAnalyzer.init (Some Example.cfg_short_range))
      \/ (exists e c,
             fst (EmotionAnalyzer._recognize_emotion
                    (EmotionAnalyzer.init (Some Example.cfg_short_range))
                    Example.come_context Example.rng)
             = Py.Returned (e, c)
             /\ EmotionAnalyzer._adjust_params
                  (EmotionAnalyzer._update_emotion_state
                     (EmotionAnalyzer.init (Some Example.cfg_short_range)) e)
                  (Emotions.get_emotion_params e) Example.come_context c
                = Py.Raised
             /\ Example.excited_short_range
                = EmotionAnalyzer._update_emotion_state
                    (EmotionAnalyzer.init (Some Example.cfg_short_range)) e)).
Proof.
  apply (@analyze_failure_policy
           (EmotionAnalyzer.init (Some Example.cfg_short_range))
           Example.come_context Example.rng
           Example.excited_short_range (Py.next Example.rng)).
  vm_compute. reflexivity.
Defined.

(** ** Parameter adjustment *)

Lemma clamp_range_within (lo hi x y : Q) (rest : list Q) :
  lo <= hi ->
  EmotionAnalyzer.clamp_range (lo :: hi :: rest) x = Py.Returned y ->
  lo <= y /\ y <= hi.
Proof.
  intros Hle H. unfold EmotionAnalyzer.clamp_range in H. simpl in H.
  injection H as <-. split.
  - apply Q.le_max_l.
  - apply Q.max_lub; [exact Hle | apply Q.le_min_l].
Qed.

(** X19: speech speed and volume are clamped into their ranges; the pitch is
    the blended value, which no range is applied to. *)
Lemma adjust_params_clamps_speed_volume (self : EmotionAnalyzer.t)
    (cfg : Cfg.Config) (em : Cfg.EmotionConfig)
    (params p : Emotions.EmotionParams) (ctx : Ctx.Context) (conf : Q)
    (slo shi vlo vhi : Q) (srest vrest : list Q) :
  EmotionAnalyzer.config self = Some cfg ->
  Cfg.emotion cfg = Some em ->
  get (Cfg.speech_speed_range em) [8#10; 13#10] = slo :: shi :: srest ->
  get (Cfg.volume_range em) [8#10; 12#10] = vlo :: vhi :: vrest ->
  slo <= shi -> vlo <= vhi ->
  EmotionAnalyzer._adjust_params self params ctx conf = Py.Returned p ->
  (slo <= Emotions.speech_speed p /\ Emotions.speech_speed p <= shi)
  /\ (vlo <= Emotions.volume p /\ Emotions.volume p <= vhi)
  /\ Emotions.pitch p = Emotions.pitch params * conf + 1 * (1 - conf).
Proof.
  intros Hcfg Hem Hs Hv Hsle Hvle. unfold EmotionAnalyzer._adjust_params.
  rewrite Hcfg, Hem. cbn [Py.subscript Py.bind]. rewrite Hs, Hv.
  destruct (EmotionAnalyzer.clamp_range (slo :: shi :: srest) _)
    as [s4|] eqn:Es; cbn [Py.bind]; [|discriminate].
  destruct (EmotionAnalyzer.clamp_range (vlo :: vhi :: vrest) _)
    as [v3|] eqn:Ev; cbn [Py.bind]; [|discriminate].
  intro H. injection H as <-. cbn.
  split; [exact (clamp_range_within Hsle Es)|].
  split; [exact (clamp_range_within Hvle Ev) | reflexivity].
Qed.

(** C5: the code breaks the claim for the pitch.  With the pitch range
    configured as [1.0, 1.2], the request "难过" (sad) is recognised as SAD,
    whose base pitch is 0.9; the returned pitch is 799/800, below the
    configured minimum: [_adjust_params] clamps speech speed and volume and
    never reads the pitch range. *)
Theorem pitch_not_clamped :
  let '(_, emotion, _, _, _) :=
    Example.fresh Example.cfg_pitch Example.sad_tokens "难过" None in
  (do em <- Py.subscript (Cfg.emotion Example.cfg_pitch);
   Py.subscript (Cfg.pitch_range em)) = Py.Returned [1; 12#10]
  /\ EmotionAnalyzer.emotion_type emotion = Emotions.value Emotions.SAD
  /\ Qred (Emotions.pitch (EmotionAnalyzer.params emotion)) = 799#800
  /\ Emotions.pitch (EmotionAnalyzer.params emotion) < 1.
Proof. vm_compute. repeat split. Qed.

(** ** Scene flags of the context *)

Lemma all_clear_false_iff (m : Q) (obs : list Scn.Obstacle) :
  ContextAnalyzer.all_clear m obs = Py.Returned false
  <-> exists pre d post,
        obs = (pre ++ Scn.ObstacleDict (Some (Scn.DistanceNumber d)) :: post)%list
        /\ forallb Scn.comparable pre = true
        /\ d < m.
Proof.
  induction obs as [|o obs IH].
  - split; [discriminate|].
    intros [pre [d [post [H _]]]]. destruct pre; discriminate.
  - assert (Hskip :
      Scn.comparable o = true ->
      (forall d, o = Scn.ObstacleDict (Some (Scn.DistanceNumber d)) -> m <= d) ->
      ContextAnalyzer.all_clear m obs = Py.Returned false
      <-> exists pre d post,
            (o :: obs
             = pre ++ Scn.ObstacleDict (Some (Scn.DistanceNumber d)) :: post)%list
            /\ forallb Scn.comparable pre = true
            /\ d < m).
    { intros Hc Hfar. rewrite IH. split.
      - intros [pre [d [post [-> [Hpre Hlt]]]]].
        exists (o :: pre), d, post. cbn [forallb app]. rewrite Hc, Hpre. auto.
      - intros [[|o' pre] [d [post [Heq [Hpre Hlt]]]]];
          cbn [app] in Heq; injection Heq as -> ->.
        + exfalso. exact (Qlt_not_le _ _ Hlt (Hfar d eq_refl)).
        + cbn [forallb] in Hpre. apply andb_true_iff in Hpre.
          exists pre, d, post. tauto. }
    assert (Hraise :
      Scn.comparable o = false ->
      ~ exists pre d post,
          (o :: obs
           = pre ++ Scn.ObstacleDict (Some (Scn.DistanceNumber d)) :: post)%list
          /\ forallb Scn.comparable pre = true
          /\ d < m).
    { intros Hc [[|o' pre] [d [post [Heq [Hpre Hlt]]]]];
        cbn [app] in Heq; injection Heq as -> ->.
      - discriminate.
      - cbn [forallb] in Hpre. rewrite Hc in Hpre. discriminate. }
    destruct o as [[[d|]|]|];
      cbn [ContextAnalyzer.all_clear ContextAnalyzer.get_distance
           ContextAnalyzer.below Py.bind].
    + destruct (Qlt_bool d m) eqn:Elt.
      * split; [|reflexivity]. intros _.
        exists [], d, obs. apply Qlt_bool_iff in Elt. auto.
      * apply Hskip; [reflexivity|].
        intros d' Heq. injection Heq as <-. now apply Qlt_bool_false.
    + split; [discriminate|]. intro H. exfalso. now apply Hraise in H.
    + apply Hskip; [reflexivity | discriminate].
    + split; [discriminate|]. intro H. exfalso. now apply Hraise in H.
Qed.

Lemma check_safety_false_iff (self : ContextAnalyzer.t)
    (commands : list string) (obs : list Scn.Obstacle) :
  ContextAnalyzer._check_safety self commands obs = false
  <-> commands <> []
      /\ exists cfg safety m pre d post,
           ContextAnalyzer.config self = Some cfg
           /\ Cfg.safety cfg = Some safety
           /\ Cfg.min_obstacle_distance safety = Some m
           /\ obs = (pre ++ Scn.ObstacleDict (Some (Scn.DistanceNumber d))
                         :: post)%list
           /\ forallb Scn.comparable pre = true
           /\ d < m.
Proof.
  unfold ContextAnalyzer._check_safety.
  destruct commands as [|c commands]; cbn [is_empty orb].
  - split; [discriminate | intros [H _]; congruence].
  - destruct obs as [|o0 obs0] eqn:Eobs; cbn [is_empty].
    + split; [discriminate|].
      intros [_ [cfg [safety [m [pre [d [post [_ [_ [_ [H _]]]]]]]]]]].
      destruct pre; discriminate.
    + rewrite <- Eobs. clear Eobs.
      destruct (ContextAnalyzer.config self) as [cfg|].
      2: { split; [discriminate|].
           intros [_ [cfg [safety [m [pre [d [post [H _]]]]]]]]. discriminate. }
      destruct (Cfg.safety cfg) as [safety|] eqn:Es; cbn [Py.subscript Py.bind].
      2: { split; [discriminate|].
           intros [_ [cfg' [safety [m [pre [d [post [H [H' _]]]]]]]]].
           injection H as <-. congruence. }
      destruct (Cfg.min_obstacle_distance safety) as [m|] eqn:Em;
        cbn [Py.subscript Py.bind].
      2: { split; [discriminate|].
           intros [_ [cfg' [safety' [m [pre [d [post [H [H' [H'' _]]]]]]]]]].
           injection H as <-. congruence. }
      assert (Hout : match ContextAnalyzer.all_clear m obs with
                     | Py.Returned b => b
                     | Py.Raised => true
                     end = false
                     <-> ContextAnalyzer.all_clear m obs = Py.Returned false).
      { destruct (ContextAnalyzer.all_clear m obs) as [[|]|];
          split; congruence. }
      rewrite Hout, all_clear_false_iff. split.
      * intros [pre [d [post H]]]. split; [discriminate|].
        exists cfg, safety, m, pre, d, post. tauto.
      * intros [_ [cfg' [safety' [m' [pre [d [post [H [H' [H'' Hrest]]]]]]]]]].
        injection H as <-. rewrite Es in H'. injection H' as <-.
        rewrite Em in H''. injection H'' as <-. eauto.
Qed.




(** ** Bounds on confidence and safety score *)


Lemma of_nat_nonneg (n : nat) : 0 <= Py.of_nat n.
Proof.
  unfold Py.of_nat. change 0 with (inject_Z 0). rewrite <- Zle_Qle. lia.
Qed.

Lemma of_nat_le (n m : nat) : (n <= m)%nat -> Py.of_nat n <= Py.of_nat m.
Proof. intro H. unfold Py.of_nat. rewrite <- Zle_Qle. lia. Qed.

Lemma max_from_ge {A} (key : A -> Q) (l : list A) :
  forall best,
    key best <= key (max_from key best l)
    /\ forall x, In x l -> key x <= key (max_from key best l).
Proof.
  induction l as [|y l IH]; intro best; simpl.
  - split; [apply Qle_refl | intros x []].
  - destruct (IH (if Qlt_bool (key best) (key y) then y else best))
      as [Hbest Hin].
    destruct (Qlt_bool (key best) (key y)) eqn:E.
    + apply Qlt_bool_iff in E. split.
      * eapply Qle_trans; [apply Qlt_le_weak; exact E | exact Hbest].
      * intros x [<-|Hx]; [exact Hbest | now apply Hin].
    + apply Qlt_bool_false in E. split; [exact Hbest|].
      intros x [<-|Hx]; [|now apply Hin].
      eapply Qle_trans; [exact E | exact Hbest].
Qed.

(** The loop over the tags lowers no score and leaves the greeting and
    chat scores as they are. *)
Lemma fold_score_pos (tags : list string) :
  forall s : ContextAnalyzer.TypeScores,
    let s' := fold_left ContextAnalyzer.score_pos tags s in
    ContextAnalyzer.command s <= ContextAnalyzer.command s'
    /\ ContextAnalyzer.question s <= ContextAnalyzer.question s'
    /\ ContextAnalyzer.greeting s' = ContextAnalyzer.greeting s
    /\ ContextAnalyzer.chat s' = ContextAnalyzer.chat s.
Proof.
  induction tags as [|t tags IH]; intro s; cbn [fold_left].
  - cbv zeta. repeat split; lra.
  - specialize (IH (ContextAnalyzer.score_pos s t)). cbv zeta in IH |- *.
    destruct IH as [IH1 [IH3 [IH5 IH6]]].
    rewrite IH5, IH6.
    unfold ContextAnalyzer.score_pos in *.
    destruct (String.eqb t "v"); [|destruct (String.eqb t "y")];
      cbn [ContextAnalyzer.command ContextAnalyzer.question
           ContextAnalyzer.greeting ContextAnalyzer.chat
           ContextAnalyzer.add_command ContextAnalyzer.add_question] in *;
      repeat split; try reflexivity; lra.
Qed.





(** The confidence of the emotion analyzer is clamped into [0, 1]. *)
Lemma clamp01_bounds (c : Q) :
  0 <= EmotionAnalyzer.clamp01 c /\ EmotionAnalyzer.clamp01 c <= 1.
Proof.
  unfold EmotionAnalyzer.clamp01. split.
  - apply Q.min_glb; [lra | apply Q.le_max_l].
  - apply Q.le_min_l.
Qed.






(** * Further properties of the rule tables and the analyzers *)

(** ** Substring search *)

Lemma prefix_app (a s : string) :
  String.prefix a s = true <-> exists post, s = a ++ post.
Proof.
  revert s. induction a as [|x a IH]; intro s.
  - destruct s; simpl; (split; [intros _; eexists; reflexivity | reflexivity]).
  - destruct s as [|y s]; simpl.
    + split; [discriminate | intros [post H]; discriminate].
    + destruct (Ascii.ascii_dec x y) as [->|Hne].
      * rewrite IH. split; intros [post H]; exists post.
        -- now rewrite H.
        -- now injection H.
      * split; [discriminate|]. intros [post H]. injection H as H _.
        congruence.
Qed.

Lemma contains_iff (sub s : string) :
  Py.contains sub s = true <-> exists pre post, s = pre ++ sub ++ post.
Proof.
  induction s as [|y s IH]; cbn [Py.contains].
  - rewrite orb_false_r, prefix_app. split.
    + intros [post H]. exists "", post. exact H.
    + intros [pre [post H]]. destruct pre; [eauto | discriminate].
  - rewrite orb_true_iff, prefix_app, IH. split.
    + intros [[post H]|[pre [post H]]].
      * exists "", post. exact H.
      * exists (String y pre), post. simpl. now rewrite H.
    + intros [pre [post H]]. destruct pre as [|z pre].
      * left. exists post. exact H.
      * right. simpl in H. injection H as _ H. eauto.
Qed.

Lemma contains_trans (a b t : string) :
  Py.contains a b = true -> Py.contains b t = true ->
  Py.contains a t = true.
Proof.
  rewrite !contains_iff. intros [p1 [q1 ->]] [p2 [q2 ->]].
  exists (p2 ++ p1), (q1 ++ q2). now rewrite !string_app_assoc.
Qed.

(** ** The enumerations and their keyword tables *)

(** X1: looking an enum member up by its value gives the member back, and
    a successful lookup of a string gives a member with that value, for
    commands and for emotions. *)
Theorem enum_value_round_trip :
  (forall c, Commands.of_value (Commands.value c) = Some c)
  /\ (forall s c, Commands.of_value s = Some c -> Commands.value c = s)
  /\ (forall e, Emotions.of_value (Emotions.value e) = Some e)
  /\ (forall s e, Emotions.of_value s = Some e -> Emotions.value e = s).
Proof.
  repeat split.
  - intro c. destruct c; vm_compute; reflexivity.
  - intros s c H. unfold Commands.of_value in H. apply find_some in H.
    now apply String.eqb_eq.
  - intro e. destruct e; vm_compute; reflexivity.
  - intros s e H. unfold Emotions.of_value in H. apply find_some in H.
    now apply String.eqb_eq.
Qed.

Lemma commands_all_complete (c : Commands.CommandType) : In c Commands.all.
Proof. destruct c; simpl; tauto. Qed.

Lemma commands_all_nodup : NoDup Commands.all.
Proof.
  unfold Commands.all.
  repeat (constructor; [simpl; intuition discriminate|]). constructor.
Qed.

(** X2: the candidate commands of a text are listed without duplicates; a
    command is a candidate exactly when one of its trigger keywords occurs
    in the text; and a text that contains the value string of a command has
    that command among its candidates. *)
Theorem command_candidates_spec (text : string) :
  NoDup (Commands.get_command_by_keywords text)
  /\ (forall c,
        In c (Commands.get_command_by_keywords text)
        <-> exists k,
              In k (Commands.keywords (Commands.COMMAND_PARAMS c))
              /\ Py.contains k text = true)
  /\ (forall c,
        Py.contains (Commands.value c) text = true ->
        In c (Commands.get_command_by_keywords text)).
Proof.
  assert (Hspec : forall c,
             In c (Commands.get_command_by_keywords text)
             <-> exists k,
                   In k (Commands.keywords (Commands.COMMAND_PARAMS c))
                   /\ Py.contains k text = true).
  { intro c. unfold Commands.get_command_by_keywords.
    rewrite filter_In, existsb_exists. split.
    - intros [_ H]. exact H.
    - intro H. split; [apply commands_all_complete | exact H]. }
  split; [apply NoDup_filter, commands_all_nodup|].
  split; [exact Hspec|].
  intros c Hc. apply Hspec.
  assert (Hk : exists k,
             In k (Commands.keywords (Commands.COMMAND_PARAMS c))
             /\ Py.contains k (Commands.value c) = true).
  { destruct c;
      (match goal with
       | |- exists k, In k (Commands.keywords (Commands.COMMAND_PARAMS ?c)) /\ _ =>
           exists (hd "" (Commands.keywords (Commands.COMMAND_PARAMS c)))
       end;
       split; [left; reflexivity | vm_compute; reflexivity]). }
  destruct Hk as [k [Hin Hsub]]. exists k. split; [exact Hin|].
  exact (contains_trans _ _ _ Hsub Hc).
Qed.

Lemma for_each_of_value (es : list Emotions.EmotionType) :
  EmotionAnalyzer.for_each (fun v => Py.subscript (Emotions.of_value v))
                           (map Emotions.value es)
  = Py.Returned es.
Proof.
  induction es as [|e es IH]; [reflexivity|].
  cbn [map EmotionAnalyzer.for_each]. rewrite IH.
  replace (Emotions.of_value (Emotions.value e)) with (Some e)
    by (destruct e; vm_compute; reflexivity).
  reflexivity.
Qed.

Lemma analyze_possible_emotions (ca : ContextAnalyzer.t) (text : string)
    (scene_info : option Scn.Scene) (tokens : list (string * string)) :
  ContextAnalyzer.pseg_cut ca text = Py.Returned tokens ->
  Ctx.possible_emotions (ContextAnalyzer.analyze ca text scene_info)
  = map Emotions.value (Emotions.get_emotion_by_keywords text).
Proof.
  intro Htok. unfold ContextAnalyzer.analyze, ContextAnalyzer._segment_text.
  rewrite Htok. cbn [Py.bind].
  destruct (ContextAnalyzer._analyze_context_type _ _ _ _ _) as [ty conf].
  cbn [Py.bind]. unfold ContextAnalyzer._combine_scene_info.
  destruct scene_info as [sc|]; [destruct (Scn.obstacles sc)|]; reflexivity.
Qed.

(** X3: a text that contains a string containing "好" -- such as the SAD
    trigger "不好", the CALM trigger "好的", the EXCITED trigger "太好了" or
    the SHY trigger "不好意思" -- has HAPPY as its first candidate emotion,
    and the emotion analyzer recognises it as HAPPY whenever scoring does
    not raise, drawing nothing from the random source. *)
Theorem happy_trigger_shadows (k text : string) :
  Py.contains "好" k = true ->
  Py.contains k text = true ->
  (exists rest, Emotions.get_emotion_by_keywords text = Emotions.HAPPY :: rest)
  /\ forall ca scene_info tokens ea rng scores,
       ContextAnalyzer.pseg_cut ca text = Py.Returned tokens ->
       EmotionAnalyzer.emotion_scores
         ea (ContextAnalyzer.analyze ca text scene_info)
       = Py.Returned scores ->
       exists c,
         EmotionAnalyzer._recognize_emotion
           ea (ContextAnalyzer.analyze ca text scene_info) rng
         = (Py.Returned (Emotions.HAPPY, c), rng).
Proof.
  intros Hk Ht. pose proof (contains_trans _ _ _ Hk Ht) as Hgood.
  assert (Hp : existsb (fun w => Py.contains w text)
                 (Emotions.keywords (Emotions.EMOTION_PARAMS Emotions.HAPPY))
               = true).
  { apply existsb_exists. exists "好". split; [left; reflexivity | exact Hgood]. }
  assert (Hhd : exists rest,
             Emotions.get_emotion_by_keywords text = Emotions.HAPPY :: rest).
  { unfold Emotions.get_emotion_by_keywords, Emotions.all. cbn [filter].
    rewrite Hp. eauto. }
  split; [exact Hhd|].
  intros ca scene_info tokens ea rng scores Htok Hscores.
  destruct Hhd as [rest Hrest].
  unfold EmotionAnalyzer._recognize_emotion.
  rewrite (analyze_possible_emotions ca text scene_info Htok), Hrest.
  rewrite for_each_of_value. cbn [Py.bind]. rewrite Hscores. cbn [Py.bind].
  pose proof (emotion_scores_nonempty _ _ Hscores) as Hne.
  destruct scores as [|[e0 q0] scores]; [congruence|].
  cbn [map snd]. eauto.
Qed.

Lemma happy_trigger_shadows_sad :
  (exists rest,
      Emotions.get_emotion_by_keywords "不好" = Emotions.HAPPY :: rest)
  /\ exists c,
       EmotionAnalyzer._recognize_emotion
         (EmotionAnalyzer.init (Some Example.cfg))
         (ContextAnalyzer.analyze
            (Example.analyzer Example.cfg [("不好", "a")]) "不好" None)
         Example.rng
       = (Py.Returned (Emotions.HAPPY, c), Example.rng).
Proof.
  destruct (@happy_trigger_shadows "不好" "不好") as [Hfirst Hrec].
  - vm_compute. reflexivity.
  - vm_compute. reflexivity.
  - split; [exact Hfirst|].
    apply (Hrec (Example.analyzer Example.cfg [("不好", "a")]) None
                [("不好", "a")] (EmotionAnalyzer.init (Some Example.cfg))
                Example.rng
                match EmotionAnalyzer.emotion_scores
                        (EmotionAnalyzer.init (Some Example.cfg))
                        (ContextAnalyzer.analyze
                           (Example.analyzer Example.cfg [("不好", "a")])
                           "不好" None) with
                | Py.Returned scores => scores
                | Py.Raised => []
                end).
    + reflexivity.
    + vm_compute. reflexivity.
Defined.

(** ** The emotion analyzer *)

Lemma recognize_confidence (self : EmotionAnalyzer.t) (ctx : Ctx.Context)
    (rng g : Py.Rng) (e : Emotions.EmotionType) (c : Q) :
  EmotionAnalyzer._recognize_emotion self ctx rng = (Py.Returned (e, c), g) ->
  0 <= c /\ c <= 1.
Proof.
  unfold EmotionAnalyzer._recognize_emotion.
  destruct (do possible_emotions <- _; _) as [[pe scores]|]; [|discriminate].
  destruct (map snd scores) as [|s rest].
  - intro H. injection H as _ <- _. apply clamp01_bounds.
  - destruct pe as [|first pe].
    + destruct (Py.choice rng _) as [[x|] g']; cbn [Py.subscript Py.bind];
        [|discriminate].
      intro H. injection H as _ <- _. apply clamp01_bounds.
    + intro H. injection H as _ <- _. apply clamp01_bounds.
Qed.

(** X4: the confidence returned by [EmotionAnalyzer.analyze] lies in
    [0, 1] on every path, the fallback included. *)
Theorem emotion_confidence_bounds (self : EmotionAnalyzer.t)
    (ctx : Ctx.Context) (rng : Py.Rng) :
  let result := fst (fst (EmotionAnalyzer.analyze self ctx rng)) in
  0 <= EmotionAnalyzer.confidence result
  /\ EmotionAnalyzer.confidence result <= 1.
Proof.
  cbv zeta. unfold EmotionAnalyzer.analyze, EmotionAnalyzer.analyze_try.
  destruct (EmotionAnalyzer._recognize_emotion self ctx rng)
    as [[[e c]|] g] eqn:Hrec.
  - apply recognize_confidence in Hrec.
    destruct (EmotionAnalyzer._adjust_params _ _ ctx c);
      cbn [fst EmotionAnalyzer.confidence EmotionAnalyzer.fallback];
      [exact Hrec | lra].
  - cbn [fst EmotionAnalyzer.confidence EmotionAnalyzer.fallback]. lra.
Qed.

Lemma Qeq_bool_true (a b : Q) : Qeq_bool a b = true -> a == b.
Proof. apply Qeq_bool_iff. Qed.

(** X5: with no keyword-matched candidate, the recognition step returns
    an emotion whose combined score is maximal in the score table, whatever
    the random draw, and it never raises once the scoring has returned. *)
Theorem recognize_without_candidates_picks_maximum
    (self : EmotionAnalyzer.t) (ctx : Ctx.Context) (rng : Py.Rng)
    (scores : EmotionAnalyzer.dict Q) :
  Ctx.possible_emotions ctx = [] ->
  EmotionAnalyzer.emotion_scores self ctx = Py.Returned scores ->
  exists e c s,
    EmotionAnalyzer._recognize_emotion self ctx rng
    = (Py.Returned (e, c), Py.next rng)
    /\ In (e, s) scores
    /\ forall e' s', In (e', s') scores -> s' <= s.
Proof.
  intros Hnone Hscores. unfold EmotionAnalyzer._recognize_emotion.
  rewrite Hnone, Hscores. cbn [EmotionAnalyzer.for_each Py.bind].
  pose proof (emotion_scores_nonempty _ _ Hscores) as Hne.
  destruct (map snd scores) as [|v rest] eqn:Hvals.
  { destruct scores; [congruence | discriminate]. }
  set (m := max_from (fun x : Q => x) v rest).
  assert (Hm_in : In m (map snd scores)).
  { rewrite Hvals. destruct (max_from_In (fun x : Q => x) rest v) as [H|H];
      fold m in H; [left; now rewrite H | now right]. }
  assert (Hm_ge : forall s', In s' (map snd scores) -> s' <= m).
  { rewrite Hvals. intros s' [<-|Hin].
    - exact (proj1 (max_from_ge (fun x : Q => x) rest v)).
    - exact (proj2 (max_from_ge (fun x : Q => x) rest v) _ Hin). }
  set (best := map fst (filter (fun es => Qeq_bool (snd es) m) scores)).
  assert (Hbest : best <> []).
  { apply in_map_iff in Hm_in. destruct Hm_in as [[e0 s0] [Hs0 Hin0]].
    cbn [snd] in Hs0. subst s0.
    assert (H : In (e0, m) (filter (fun es => Qeq_bool (snd es) m) scores)).
    { apply filter_In. split; [exact Hin0|]. apply Qeq_bool_iff.
      reflexivity. }
    unfold best. intro Hnil.
    apply (in_map fst) in H. rewrite Hnil in H. destruct H. }
  destruct (choice_nonempty rng Hbest) as [x [Hx Hin]].
  rewrite Hx. cbn [Py.subscript Py.bind].
  unfold best in Hin. apply in_map_iff in Hin.
  destruct Hin as [[e s] [He Hin]]. cbn [fst] in He. subst x.
  apply filter_In in Hin. destruct Hin as [Hin Heq]. cbn [snd] in Heq.
  apply Qeq_bool_true in Heq.
  exists e, (EmotionAnalyzer.clamp01
               (m / (Py.of_nat (List.length scores) * 4))), s.
  split; [reflexivity|]. split; [exact Hin|].
  intros e' s' Hin'. rewrite Heq. apply Hm_ge.
  apply in_map_iff. exists (e', s'). auto.
Qed.

Lemma recognize_without_candidates_come :
  exists e c s,
    EmotionAnalyzer._recognize_emotion
      (EmotionAnalyzer.init (Some Example.cfg)) Example.come_context
      Example.rng
    = (Py.Returned (e, c), Py.next Example.rng)
    /\ In (e, s)
          match EmotionAnalyzer.emotion_scores
                  (EmotionAnalyzer.init (Some Example.cfg))
                  Example.come_context with
          | Py.Returned scores => scores
          | Py.Raised => []
          end
    /\ forall e' s',
         In (e', s')
            match EmotionAnalyzer.emotion_scores
                    (EmotionAnalyzer.init (Some Example.cfg))
                    Example.come_context with
            | Py.Returned scores => scores
            | Py.Raised => []
            end ->
         s' <= s.
Proof.
  apply (@recognize_without_candidates_picks_maximum
           (EmotionAnalyzer.init (Some Example.cfg)) Example.come_context
           Example.rng).
  - vm_compute. reflexivity.
  - vm_compute. reflexivity.
Defined.

(** X6: when [analyze] succeeds, the returned emotion is the new current
    emotion of the session and the last entry of its history, and the
    returned history is the session's history (for a positive capacity). *)
Theorem analyze_success_updates_state (self self' : EmotionAnalyzer.t)
    (ctx : Ctx.Context) (rng rng' : Py.Rng)
    (r : EmotionAnalyzer.EmotionResult) :
  (0 < EmotionAnalyzer.history_size self)%nat ->
  EmotionAnalyzer.analyze_try self ctx rng = (Py.Returned r, self', rng') ->
  EmotionAnalyzer.analyze self ctx rng = (r, self', rng')
  /\ EmotionAnalyzer.emotion_type r
     = Emotions.value (EmotionAnalyzer.current_emotion self')
  /\ last (EmotionAnalyzer.emotion_history self') Emotions.CALM
     = EmotionAnalyzer.current_emotion self'
  /\ EmotionAnalyzer.emotion_history self' <> []
  /\ EmotionAnalyzer.history r
     = map Emotions.value (EmotionAnalyzer.emotion_history self').
Proof.
  intros Hsize Htry. unfold EmotionAnalyzer.analyze. rewrite Htry.
  split; [reflexivity|]. unfold EmotionAnalyzer.analyze_try in Htry.
  destruct (EmotionAnalyzer._recognize_emotion self ctx rng)
    as [[[e c]|] g]; [|discriminate].
  destruct (EmotionAnalyzer._adjust_params _ _ ctx c) as [p|];
    [|discriminate].
  injection Htry as <- <- _.
  cbn [EmotionAnalyzer.emotion_type EmotionAnalyzer.history
       EmotionAnalyzer._update_emotion_state EmotionAnalyzer.current_emotion
       EmotionAnalyzer.emotion_history].
  split; [reflexivity|].
  assert (Hshape :
    exists h, (if (EmotionAnalyzer.history_size self
                   <? List.length (EmotionAnalyzer.emotion_history self ++ [e]))%nat
               then Py.pop0 (EmotionAnalyzer.emotion_history self ++ [e])%list
               else (EmotionAnalyzer.emotion_history self ++ [e])%list)
              = (h ++ [e])%list).
  { destruct (_ <? _)%nat eqn:E; [|eauto].
    destruct (EmotionAnalyzer.emotion_history self) as [|x h].
    - apply Nat.ltb_lt in E. simpl in E. lia.
    - exists h. reflexivity. }
  destruct Hshape as [h ->].
  split; [apply last_last|]. split; [|reflexivity].
  destruct h; discriminate.
Qed.

Lemma analyze_success_stay :
  EmotionAnalyzer.analyze (EmotionAnalyzer.init (Some Example.cfg))
    Example.stay_context Example.rng
  = (fst (fst (EmotionAnalyzer.analyze
                 (EmotionAnalyzer.init (Some Example.cfg))
                 Example.stay_context Example.rng)),
     EmotionAnalyzer._update_emotion_state
       (EmotionAnalyzer.init (Some Example.cfg)) Emotions.ANGRY,
     Example.rng)
  /\ EmotionAnalyzer.emotion_type
       (fst (fst (EmotionAnalyzer.analyze
                    (EmotionAnalyzer.init (Some Example.cfg))
                    Example.stay_context Example.rng)))
     = Emotions.value
         (EmotionAnalyzer.current_emotion
            (EmotionAnalyzer._update_emotion_state
               (EmotionAnalyzer.init (Some Example.cfg)) Emotions.ANGRY))
  /\ last (EmotionAnalyzer.emotion_history
             (EmotionAnalyzer._update_emotion_state
                (EmotionAnalyzer.init (Some Example.cfg)) Emotions.ANGRY))
          Emotions.CALM
     = EmotionAnalyzer.current_emotion
         (EmotionAnalyzer._update_emotion_state
            (EmotionAnalyzer.init (Some Example.cfg)) Emotions.ANGRY)
  /\ EmotionAnalyzer.emotion_history
       (EmotionAnalyzer._update_emotion_state
          (EmotionAnalyzer.init (Some Example.cfg)) Emotions.ANGRY) <> []
  /\ EmotionAnalyzer.history
       (fst (fst (EmotionAnalyzer.analyze
                    (EmotionAnalyzer.init (Some Example.cfg))
                    Example.stay_context Example.rng)))
     = map Emotions.value
         (EmotionAnalyzer.emotion_history
            (EmotionAnalyzer._update_emotion_state
               (EmotionAnalyzer.init (Some Example.cfg)) Emotions.ANGRY)).
Proof.
  apply (@analyze_success_updates_state
           (EmotionAnalyzer.init (Some Example.cfg))
           (EmotionAnalyzer._update_emotion_state
              (EmotionAnalyzer.init (Some Example.cfg)) Emotions.ANGRY)
           Example.stay_context Example.rng Example.rng).
  - vm_compute. repeat constructor.
  - vm_compute. reflexivity.
Defined.

Lemma mem_In (x : string) (l : list string) : Py.mem x l = true <-> In x l.
Proof.
  unfold Py.mem. rewrite existsb_exists. split.
  - intros [y [Hin Heq]]. apply String.eqb_eq in Heq. now subst.
  - intro H. exists x. split; [exact H | apply String.eqb_refl].
Qed.

Lemma ratio_bounds (n d : nat) :
  (0 < d)%nat -> (n <= d)%nat ->
  0 <= Py.of_nat n / Py.of_nat d /\ Py.of_nat n / Py.of_nat d <= 1.
Proof.
  intros Hd Hle.
  assert (Hpos : 0 < Py.of_nat d).
  { unfold Py.of_nat. change 0 with (inject_Z 0). rewrite <- Zlt_Qlt. lia. }
  split.
  - apply Qle_shift_div_l; [exact Hpos|]. rewrite Qmult_0_l.
    apply of_nat_nonneg.
  - apply Qle_shift_div_r; [exact Hpos|]. rewrite Qmult_1_l.
    now apply of_nat_le.
Qed.

(** X7: the keyword score of an emotion, computed on the keyword set of a
    context, lies in [0, 1]; it is 0 without configuration or without
    configured triggers for the emotion. *)
Theorem keyword_score_bounds (self : EmotionAnalyzer.t)
    (emotion : Emotions.EmotionType) (keywords : list string) (q : Q) :
  EmotionAnalyzer._calculate_keyword_score self emotion (Py.set keywords)
  = Py.Returned q ->
  0 <= q /\ q <= 1
  /\ (EmotionAnalyzer.config self = None -> q = 0)
  /\ (forall cfg em triggers,
        EmotionAnalyzer.config self = Some cfg ->
        Cfg.emotion cfg = Some em ->
        Cfg.triggers em = Some triggers ->
        Cfg.lookup (Emotions.value emotion) triggers = None -> q = 0).
Proof.
  unfold EmotionAnalyzer._calculate_keyword_score.
  destruct (EmotionAnalyzer.config self) as [cfg|].
  2: { intro H. injection H as <-. repeat split; try lra; intros; discriminate. }
  destruct (Cfg.emotion cfg) as [em|] eqn:Hem; cbn [Py.subscript Py.bind];
    [|discriminate].
  destruct (Cfg.triggers em) as [triggers|] eqn:Htr;
    cbn [Py.subscript Py.bind]; [|discriminate].
  destruct (is_empty (Py.set (get (Cfg.lookup (Emotions.value emotion)
                                               triggers) []))) eqn:Hempty.
  - intro H. injection H as <-. repeat split; try lra; intros; discriminate.
  - intro H. injection H as <-.
    set (E := Py.set (get (Cfg.lookup (Emotions.value emotion) triggers) []))
      in *.
    assert (Hlen : (List.length (filter (fun k => Py.mem k E)
                                        (Py.set keywords))
                    <= List.length E)%nat).
    { apply NoDup_incl_length.
      - apply NoDup_filter. apply NoDup_nodup.
      - intros x Hx. apply filter_In in Hx. now apply mem_In. }
    assert (Hpos : (0 < List.length E)%nat).
    { destruct E; [discriminate | simpl; lia]. }
    destruct (ratio_bounds Hpos Hlen) as [H0 H1].
    split; [exact H0|]. split; [exact H1|]. split; [discriminate|].
    intros cfg' em' triggers' Hc He Ht Hl.
    injection Hc as <-. rewrite Hem in He. injection He as <-.
    rewrite Htr in Ht. injection Ht as <-.
    subst E. rewrite Hl in Hempty. discriminate.
Qed.

Lemma keyword_score_bounds_happy :
  0 <= 1#3 /\ 1#3 <= 1
  /\ (EmotionAnalyzer.config (EmotionAnalyzer.init (Some Example.cfg)) = None
      -> 1#3 = 0)
  /\ (forall cfg em triggers,
        EmotionAnalyzer.config (EmotionAnalyzer.init (Some Example.cfg))
        = Some cfg ->
        Cfg.emotion cfg = Some em ->
        Cfg.triggers em = Some triggers ->
        Cfg.lookup (Emotions.value Emotions.HAPPY) triggers = None ->
        1#3 = 0).
Proof.
  apply (@keyword_score_bounds (EmotionAnalyzer.init (Some Example.cfg))
           Emotions.HAPPY ["帮助"; "你好"; "帮助"] (1#3)).
  vm_compute. reflexivity.
Defined.

(** ** History bias *)

Lemma emotion_eqb_eq (a b : Emotions.EmotionType) :
  Emotions.eqb a b = true <-> a = b.
Proof. destruct a, b; simpl; split; congruence. Qed.

Lemma dict_get_set {A} (d : EmotionAnalyzer.dict A)
    (e e' : Emotions.EmotionType) (v default : A) :
  EmotionAnalyzer.dict_get (EmotionAnalyzer.dict_set d e v) e' default
  = if Emotions.eqb e e' then v else EmotionAnalyzer.dict_get d e' default.
Proof.
  induction d as [|[k w] d IH]; simpl.
  - reflexivity.
  - destruct (Emotions.eqb k e) eqn:Eke; simpl.
    + apply emotion_eqb_eq in Eke. subst k.
      destruct (Emotions.eqb e e'); reflexivity.
    + rewrite IH. destruct (Emotions.eqb k e') eqn:Eke';
        destruct (Emotions.eqb e e') eqn:Eee'; try reflexivity.
      apply emotion_eqb_eq in Eke', Eee'. subst.
      rewrite (proj2 (emotion_eqb_eq e' e') eq_refl) in Eke. discriminate.
Qed.

(** The number of occurrences of an emotion in a history. *)
Lemma counts_fold (h : list Emotions.EmotionType) :
  forall (d : EmotionAnalyzer.dict nat) (e : Emotions.EmotionType),
    EmotionAnalyzer.dict_get
      (fold_left (fun counts x =>
                    EmotionAnalyzer.dict_set counts x
                      (EmotionAnalyzer.dict_get counts x 0 + 1)%nat) h d)
      e 0%nat
    = (EmotionAnalyzer.dict_get d e 0
       + List.length (filter (Emotions.eqb e) h))%nat.
Proof.
  induction h as [|x h IH]; intros d e; cbn [fold_left filter].
  - simpl. lia.
  - rewrite IH, dict_get_set.
    destruct (Emotions.eqb x e) eqn:Exe.
    + apply emotion_eqb_eq in Exe. subst x.
      rewrite (proj2 (emotion_eqb_eq e e) eq_refl). simpl. lia.
    + assert (Hex : Emotions.eqb e x = false).
      { destruct (Emotions.eqb e x) eqn:E; [|reflexivity].
        apply emotion_eqb_eq in E. subst.
        rewrite (proj2 (emotion_eqb_eq x x) eq_refl) in Exe. discriminate. }
      rewrite Hex. lia.
Qed.

Lemma dict_get_scaled (f : nat -> Q) (d : EmotionAnalyzer.dict nat)
    (e : Emotions.EmotionType) :
  f 0%nat == 0 ->
  EmotionAnalyzer.dict_get (map (fun ec => (fst ec, f (snd ec))) d) e 0
  == f (EmotionAnalyzer.dict_get d e 0%nat).
Proof.
  intro H0. induction d as [|[k w] d IH]; simpl.
  - now rewrite H0.
  - destruct (Emotions.eqb k e); [reflexivity | exact IH].
Qed.

(** X8: the history bias of an emotion is half its relative frequency in
    the emotion history: (occurrences / length) x 0.5; with an empty
    history there is no bias. *)
Theorem history_scores_frequency (self : EmotionAnalyzer.t)
    (e : Emotions.EmotionType) :
  let h := EmotionAnalyzer.emotion_history self in
  EmotionAnalyzer.dict_get (EmotionAnalyzer._calculate_history_scores self) e 0
  == if is_empty h then 0
     else Py.of_nat (List.length (filter (Emotions.eqb e) h))
          / Py.of_nat (List.length h) * (5#10).
Proof.
  cbv zeta. unfold EmotionAnalyzer._calculate_history_scores.
  destruct (is_empty (EmotionAnalyzer.emotion_history self)).
  - reflexivity.
  - cbv zeta.
    rewrite (dict_get_scaled
               (fun n => Py.of_nat n
                         / Py.of_nat (List.length
                                        (EmotionAnalyzer.emotion_history self))
                         * (5#10))).
    + rewrite counts_fold. reflexivity.
    + change (Py.of_nat 0) with 0. unfold Qdiv. now rewrite !Qmult_0_l.
Qed.

(** ** The combined score table *)

Lemma dict_set_keys {A} (d : EmotionAnalyzer.dict A)
    (e x : Emotions.EmotionType) (v : A) :
  In x (map fst (EmotionAnalyzer.dict_set d e v)) ->
  x = e \/ In x (map fst d).
Proof.
  induction d as [|[k w] d IH]; simpl.
  - intros [H|[]]. now left.
  - destruct (Emotions.eqb k e); simpl; intros [H|H]; auto.
    destruct (IH H); auto.
Qed.

Lemma dict_set_nodup {A} (d : EmotionAnalyzer.dict A)
    (e : Emotions.EmotionType) (v : A) :
  NoDup (map fst d) -> NoDup (map fst (EmotionAnalyzer.dict_set d e v)).
Proof.
  induction d as [|[k w] d IH]; simpl; intro H.
  - constructor; [intros [] | constructor].
  - destruct (Emotions.eqb k e) eqn:Eke; simpl; [exact H|].
    inversion H as [|? ? Hnotin Hnd]; subst. constructor; [|now apply IH].
    intro Hin. apply dict_set_keys in Hin. destruct Hin as [->|Hin]; [|tauto].
    rewrite (proj2 (emotion_eqb_eq e e) eq_refl) in Eke. discriminate.
Qed.

Lemma dict_get_absent {A} (d : EmotionAnalyzer.dict A)
    (e : Emotions.EmotionType) (default : A) :
  ~ In e (map fst d) -> EmotionAnalyzer.dict_get d e default = default.
Proof.
  induction d as [|[k w] d IH]; simpl; intro H; [reflexivity|].
  destruct (Emotions.eqb k e) eqn:Eke.
  - apply emotion_eqb_eq in Eke. tauto.
  - apply IH. tauto.
Qed.

(** Adding a table with distinct keys adds, per emotion, its entry. *)
Lemma add_scores_get (s : EmotionAnalyzer.dict Q) :
  NoDup (map fst s) ->
  forall (d : EmotionAnalyzer.dict Q) (e : Emotions.EmotionType),
    EmotionAnalyzer.dict_get (EmotionAnalyzer.add_scores d s) e 0
    == EmotionAnalyzer.dict_get d e 0 + EmotionAnalyzer.dict_get s e 0.
Proof.
  unfold EmotionAnalyzer.add_scores.
  induction s as [|[k v] s IH]; intros Hnd d e; cbn [fold_left].
  - simpl. lra.
  - inversion Hnd as [|? ? Hnotin Hnd']; subst.
    rewrite (IH Hnd'). cbn [fst snd]. rewrite dict_get_set.
    cbn [EmotionAnalyzer.dict_get].
    destruct (Emotions.eqb k e) eqn:Eke.
    + apply emotion_eqb_eq in Eke. subst k.
      rewrite (dict_get_absent s e 0 Hnotin). lra.
    + reflexivity.
Qed.

Lemma fold_dict_set_nodup {A B} (f : EmotionAnalyzer.dict A -> B -> A)
    (g : B -> Emotions.EmotionType) (l : list B) :
  forall d : EmotionAnalyzer.dict A,
    NoDup (map fst d) ->
    NoDup (map fst (fold_left (fun acc x =>
                                 EmotionAnalyzer.dict_set acc (g x) (f acc x))
                              l d)).
Proof.
  induction l as [|x l IH]; intros d H; cbn [fold_left]; [exact H|].
  apply IH. now apply dict_set_nodup.
Qed.

Lemma history_scores_nodup (self : EmotionAnalyzer.t) :
  NoDup (map fst (EmotionAnalyzer._calculate_history_scores self)).
Proof.
  unfold EmotionAnalyzer._calculate_history_scores.
  destruct (is_empty _); [constructor|]. cbv zeta.
  rewrite map_map. cbn [fst].
  apply (fold_dict_set_nodup
           (fun counts x => (EmotionAnalyzer.dict_get counts x 0 + 1)%nat)
           (fun x => x)).
  constructor.
Qed.

Lemma scene_scores_nodup (scene : Scn.Scene) :
  NoDup (map fst (EmotionAnalyzer._calculate_scene_scores scene)).
Proof.
  unfold EmotionAnalyzer._calculate_scene_scores. cbv zeta.
  destruct (get (Scn.temperature scene) (Some (25#1))) as [temp|];
    [destruct (Qlt_bool (30#1) temp); [|destruct (Qlt_bool temp (10#1))]|];
    destruct (negb (get (Scn.is_safe scene) true));
    destruct (get (Scn.has_obstacles scene) false);
    repeat apply dict_set_nodup; constructor.
Qed.

Lemma context_type_scores_nodup (context_type : string) :
  NoDup (map fst (EmotionAnalyzer._get_context_type_scores context_type)).
Proof.
  unfold EmotionAnalyzer._get_context_type_scores.
  destruct (String.eqb context_type "greeting");
    [|destruct (String.eqb context_type "command");
      [|destruct (String.eqb context_type "question")]];
    simpl; repeat (constructor; [simpl; intuition discriminate|]);
    constructor.
Qed.

Lemma keyword_table_get (f : Emotions.EmotionType -> Py.outcome Q)
    (l : list Emotions.EmotionType) :
  forall base e,
    EmotionAnalyzer.for_each
      (fun emotion => do score <- f emotion; Py.Returned (emotion, score)) l
    = Py.Returned base ->
    In e l ->
    exists q, f e = Py.Returned q /\ EmotionAnalyzer.dict_get base e 0 = q.
Proof.
  induction l as [|x l IH]; intros base e Hfor Hin; [destruct Hin|].
  cbn [EmotionAnalyzer.for_each] in Hfor.
  destruct (f x) as [qx|] eqn:Efx; cbn [Py.bind] in Hfor; [|discriminate].
  destruct (EmotionAnalyzer.for_each _ l) as [rest|] eqn:Erest;
    cbn [Py.bind] in Hfor; [|discriminate].
  injection Hfor as <-. cbn [EmotionAnalyzer.dict_get].
  destruct (Emotions.eqb x e) eqn:Exe.
  - apply emotion_eqb_eq in Exe. subst x. eauto.
  - destruct Hin as [->|Hin].
    + rewrite (proj2 (emotion_eqb_eq e e) eq_refl) in Exe. discriminate.
    + exact (IH rest e eq_refl Hin).
Qed.

Lemma emotions_all_complete (e : Emotions.EmotionType) : In e Emotions.all.
Proof. destruct e; simpl; tauto. Qed.

(** X9: in the score table of the recognition step, the combined score of
    every emotion is the sum of its four sources: keyword score, intent
    prior, history bias and scene bias. *)
Theorem combined_score_is_sum (self : EmotionAnalyzer.t) (ctx : Ctx.Context)
    (scores : EmotionAnalyzer.dict Q) (e : Emotions.EmotionType) :
  EmotionAnalyzer.emotion_scores self ctx = Py.Returned scores ->
  exists keyword_score,
    EmotionAnalyzer._calculate_keyword_score
      self e (Py.set (Ctx.keywords ctx)) = Py.Returned keyword_score
    /\ EmotionAnalyzer.dict_get scores e 0
       == keyword_score
          + EmotionAnalyzer.dict_get
              (EmotionAnalyzer._get_context_type_scores (Ctx.context_type ctx))
              e 0
          + EmotionAnalyzer.dict_get
              (EmotionAnalyzer._calculate_history_scores self) e 0
          + EmotionAnalyzer.dict_get
              (EmotionAnalyzer._calculate_scene_scores
                 (get (Ctx.scene ctx) Scn.empty)) e 0.
Proof.
  unfold EmotionAnalyzer.emotion_scores. cbv zeta.
  destruct (EmotionAnalyzer.for_each _ Emotions.all) as [base|] eqn:Ebase;
    cbn [Py.bind]; [|discriminate].
  intro H. injection H as <-.
  destruct (keyword_table_get
              (fun emotion =>
                 EmotionAnalyzer._calculate_keyword_score
                   self emotion (Py.set (Ctx.keywords ctx)))
              Emotions.all e Ebase (emotions_all_complete e))
    as [q [Hq Hget]].
  exists q. split; [exact Hq|].
  rewrite (@add_scores_get _ (scene_scores_nodup _)).
  rewrite (@add_scores_get _ (history_scores_nodup self)).
  rewrite (@add_scores_get _ (context_type_scores_nodup _)).
  rewrite Hget. reflexivity.
Qed.

Lemma combined_score_excited :
  exists keyword_score,
    EmotionAnalyzer._calculate_keyword_score
      (EmotionAnalyzer.init (Some Example.cfg)) Emotions.EXCITED
      (Py.set (Ctx.keywords Example.come_context))
    = Py.Returned keyword_score
    /\ EmotionAnalyzer.dict_get
         match EmotionAnalyzer.emotion_scores
                 (EmotionAnalyzer.init (Some Example.cfg))
                 Example.come_context with
         | Py.Returned scores => scores
         | Py.Raised => []
         end Emotions.EXCITED 0
       == keyword_score
          + EmotionAnalyzer.dict_get
              (EmotionAnalyzer._get_context_type_scores
                 (Ctx.context_type Example.come_context))
              Emotions.EXCITED 0
          + EmotionAnalyzer.dict_get
              (EmotionAnalyzer._calculate_history_scores
                 (EmotionAnalyzer.init (Some Example.cfg)))
              Emotions.EXCITED 0
          + EmotionAnalyzer.dict_get
              (EmotionAnalyzer._calculate_scene_scores
                 (get (Ctx.scene Example.come_context) Scn.empty))
              Emotions.EXCITED 0.
Proof.
  apply (@combined_score_is_sum (EmotionAnalyzer.init (Some Example.cfg))
           Example.come_context).
  vm_compute. reflexivity.
Defined.

(** ** Intent classification *)

Ltac pick_case :=
  first [ left; solve [repeat split; try reflexivity; lra]
        | right; left; solve [repeat split; try reflexivity; lra]
        | right; right; left; solve [repeat split; try reflexivity; lra]
        | right; right; right; solve [repeat split; try reflexivity; lra] ].

(** X10: the intent category returned by [_analyze_context_type] has the
    greatest score, which is the confidence, and ties go to the category
    that comes first in the order command, question, greeting, chat: every
    category before the winner has a strictly smaller score. *)
Theorem context_type_priority (text : string)
    (words pos_tags keywords : list string)
    (cmds : list Commands.CommandType) :
  let s := ContextAnalyzer.type_scores text pos_tags keywords cmds in
  let r := ContextAnalyzer._analyze_context_type
             text words pos_tags keywords cmds in
  (ContextAnalyzer.command s <= snd r
   /\ ContextAnalyzer.question s <= snd r
   /\ ContextAnalyzer.greeting s <= snd r
   /\ ContextAnalyzer.chat s <= snd r)
  /\ (r = ("command", ContextAnalyzer.command s)
      \/ (r = ("question", ContextAnalyzer.question s)
          /\ ContextAnalyzer.command s < snd r)
      \/ (r = ("greeting", ContextAnalyzer.greeting s)
          /\ ContextAnalyzer.command s < snd r
          /\ ContextAnalyzer.question s < snd r)
      \/ (r = ("chat", ContextAnalyzer.chat s)
          /\ ContextAnalyzer.command s < snd r
          /\ ContextAnalyzer.question s < snd r
          /\ ContextAnalyzer.greeting s < snd r)).
Proof.
  cbv zeta. unfold ContextAnalyzer._analyze_context_type. cbv zeta.
  set (s := ContextAnalyzer.type_scores text pos_tags keywords cmds).
  cbn [max_from snd].
  destruct (Qlt_bool (ContextAnalyzer.command s) (ContextAnalyzer.question s))
    eqn:E1; cbn [snd];
    destruct (Qlt_bool _ (ContextAnalyzer.greeting s)) eqn:E2; cbn [snd];
    destruct (Qlt_bool _ (ContextAnalyzer.chat s)) eqn:E3; cbn [snd];
    repeat match goal with
           | H : Qlt_bool _ _ = true |- _ => apply Qlt_bool_iff in H
           | H : Qlt_bool _ _ = false |- _ => apply Qlt_bool_false in H
           end;
    (split; [repeat split; lra | pick_case]).
Qed.

Lemma fold_no_verb (tags : list string) :
  ~ In "v" tags ->
  forall s,
    ContextAnalyzer.command (fold_left ContextAnalyzer.score_pos tags s)
    = ContextAnalyzer.command s.
Proof.
  induction tags as [|t tags IH]; intros Hno s; cbn [fold_left];
    [reflexivity|].
  rewrite IH by (intro H; apply Hno; now right).
  unfold ContextAnalyzer.score_pos.
  destruct (String.eqb t "v") eqn:Ev.
  - apply String.eqb_eq in Ev. exfalso. apply Hno. now left.
  - destruct (String.eqb t "y"); reflexivity.
Qed.

Lemma type_scores_evidence (text : string) (pos_tags keywords : list string)
    (cmds : list Commands.CommandType) :
  let s := ContextAnalyzer.type_scores text pos_tags keywords cmds in
  (is_empty cmds = false -> 6#10 <= ContextAnalyzer.command s)
  /\ (existsb (fun k => Py.mem k ContextAnalyzer.greeting_words) keywords
      = true -> 6#10 <= ContextAnalyzer.greeting s)
  /\ (Py.contains "？" text || Py.contains "?" text = true ->
      4#10 <= ContextAnalyzer.question s)
  /\ (is_empty cmds = true -> ~ In "v" pos_tags ->
      ContextAnalyzer.re_search ["请"; "麻烦"; "帮忙"] ["好吗"; "可以吗"] text
      = false ->
      ContextAnalyzer.command s == 0)
  /\ ContextAnalyzer.chat s == 1#10.
Proof.
  cbv zeta. unfold ContextAnalyzer.type_scores.
  match goal with
  | |- context [fold_left ContextAnalyzer.score_pos pos_tags ?s0] =>
      pose proof (fold_score_pos pos_tags s0) as H; cbv zeta in H;
      pose proof (fun Hno => @fold_no_verb pos_tags Hno s0) as Hv;
      set (F := fold_left ContextAnalyzer.score_pos pos_tags s0) in *
  end.
  destruct H as [H1 [H3 [H5 H6]]].
  destruct (is_empty cmds);
    destruct (Py.contains "？" text || Py.contains "?" text);
    destruct (existsb (fun k => Py.mem k ContextAnalyzer.question_words)
                      keywords);
    destruct (existsb (fun k => Py.mem k ContextAnalyzer.greeting_words)
                      keywords);
    destruct (ContextAnalyzer.re_search _ _ text);
    cbn [ContextAnalyzer.command ContextAnalyzer.question
         ContextAnalyzer.greeting ContextAnalyzer.chat
         ContextAnalyzer.add_command ContextAnalyzer.add_question
         ContextAnalyzer.add_greeting] in *;
    rewrite ?H5, ?H6;
    repeat split; intros; try discriminate; try lra;
    match goal with
    | Hno : ~ In "v" pos_tags |- _ => rewrite (Hv Hno); reflexivity
    end.
Qed.

(** X11: a text is classified as a command only on command evidence: a
    command keyword matched, a token tagged as verb, or the polite-request
    pattern.  Without any of them the category is never "command". *)
Theorem command_type_needs_evidence (text : string)
    (words pos_tags keywords : list string)
    (cmds : list Commands.CommandType) :
  fst (ContextAnalyzer._analyze_context_type
         text words pos_tags keywords cmds) = "command" ->
  cmds <> []
  \/ In "v" pos_tags
  \/ ContextAnalyzer.re_search ["请"; "麻烦"; "帮忙"] ["好吗"; "可以吗"] text
     = true.
Proof.
  intro Hty.
  destruct (is_empty cmds) eqn:Hc;
    [|left; now apply is_empty_false].
  destruct (in_dec string_dec "v" pos_tags) as [Hv|Hv]; [auto|].
  destruct (ContextAnalyzer.re_search _ _ text) eqn:Hre; [auto|].
  exfalso.
  destruct (type_scores_evidence text pos_tags keywords cmds)
    as [_ [_ [_ [Hzero Hchat]]]]. cbv zeta in Hzero, Hchat.
  specialize (Hzero Hc Hv Hre).
  unfold ContextAnalyzer._analyze_context_type in Hty. cbv zeta in Hty.
  set (s := ContextAnalyzer.type_scores text pos_tags keywords cmds) in *.
  set (l := [("question", ContextAnalyzer.question s);
             ("greeting", ContextAnalyzer.greeting s);
             ("chat", ContextAnalyzer.chat s)]) in *.
  set (best := ("command", ContextAnalyzer.command s)) in *.
  set (r := max_from (@snd string Q) best l) in *.
  destruct (max_from_ge (@snd string Q) l best) as [_ Hge]. fold r in Hge.
  specialize (Hge ("chat", ContextAnalyzer.chat s)). cbn [snd] in Hge.
  assert (Hin : In ("chat", ContextAnalyzer.chat s) l)
    by (subst l; simpl; tauto).
  specialize (Hge Hin).
  assert (Hr : r = best \/ In r l) by apply max_from_In.
  destruct Hr as [Hr|Hr].
  - rewrite Hr in Hge. subst best. cbn [snd] in Hge. lra.
  - subst l. cbn [In] in Hr.
    destruct Hr as [E|[E|[E|[]]]]; rewrite <- E in Hty; discriminate.
Qed.

Lemma command_type_needs_evidence_come :
  Commands.get_command_by_keywords "过来" <> []
  \/ In "v" ["v"]
  \/ ContextAnalyzer.re_search ["请"; "麻烦"; "帮忙"] ["好吗"; "可以吗"] "过来"
     = true.
Proof.
  apply (@command_type_needs_evidence "过来" ["过来"] ["v"] []
           (Commands.get_command_by_keywords "过来")).
  vm_compute. reflexivity.
Defined.

Lemma context_type_max (text : string) (words pos_tags keywords : list string)
    (cmds : list Commands.CommandType) :
  let s := ContextAnalyzer.type_scores text pos_tags keywords cmds in
  let r := ContextAnalyzer._analyze_context_type
             text words pos_tags keywords cmds in
  ContextAnalyzer.command s <= snd r
  /\ ContextAnalyzer.question s <= snd r
  /\ ContextAnalyzer.greeting s <= snd r.
Proof.
  cbv zeta. unfold ContextAnalyzer._analyze_context_type. cbv zeta.
  set (s := ContextAnalyzer.type_scores text pos_tags keywords cmds).
  set (l := [("question", ContextAnalyzer.question s);
             ("greeting", ContextAnalyzer.greeting s);
             ("chat", ContextAnalyzer.chat s)]).
  set (best := ("command", ContextAnalyzer.command s)).
  destruct (max_from_ge (@snd string Q) l best) as [Hb Hge].
  split; [exact Hb|]. split.
  - apply (Hge ("question", ContextAnalyzer.question s)). subst l. simpl. tauto.
  - apply (Hge ("greeting", ContextAnalyzer.greeting s)). subst l. simpl. tauto.
Qed.

Lemma greeting_word_is_keyword (w : string) (words : list string) :
  In w ContextAnalyzer.greeting_words -> In w words ->
  In w (ContextAnalyzer._extract_keywords words).
Proof.
  intros Hg Hw. unfold ContextAnalyzer._extract_keywords, Py.set.
  apply nodup_In. apply filter_In. split; [exact Hw|].
  unfold ContextAnalyzer.greeting_words in Hg. cbn [In] in Hg.
  destruct Hg as [<-|[<-|[<-|[<-|[<-|[]]]]]]; vm_compute; reflexivity.
Qed.

(** X12: lower bounds on the intent confidence by the evidence in the
    request.  When tokenization succeeds, a matched command keyword or a
    greeting word among the tokens gives a confidence of at least 0.6, and
    a question mark gives at least 0.4. *)
Theorem confidence_evidence (ca : ContextAnalyzer.t) (text : string)
    (scene_info : option Scn.Scene) (tokens : list (string * string)) :
  ContextAnalyzer.pseg_cut ca text = Py.Returned tokens ->
  let confidence :=
    Ctx.context_confidence (ContextAnalyzer.analyze ca text scene_info) in
  (Commands.get_command_by_keywords text <> [] -> 6#10 <= confidence)
  /\ ((exists w, In w (map fst tokens)
                 /\ In w ContextAnalyzer.greeting_words) ->
      6#10 <= confidence)
  /\ (Py.contains "？" text = true \/ Py.contains "?" text = true ->
      4#10 <= confidence).
Proof.
  intro Htok. cbv zeta.
  unfold ContextAnalyzer.analyze, ContextAnalyzer._segment_text.
  rewrite Htok. cbn [Py.bind].
  pose proof (context_type_max text (map fst tokens) (map snd tokens)
                (ContextAnalyzer._extract_keywords (map fst tokens))
                (Commands.get_command_by_keywords text)) as Hmax.
  pose proof (type_scores_evidence text (map snd tokens)
                (ContextAnalyzer._extract_keywords (map fst tokens))
                (Commands.get_command_by_keywords text)) as Hev.
  cbv zeta in Hmax, Hev.
  destruct Hmax as [Hc [Hq Hg]]. destruct Hev as [Ec [Eg [Eq _]]].
  destruct (ContextAnalyzer._analyze_context_type _ _ _ _ _) as [ty conf].
  cbn [snd] in Hc, Hq, Hg. cbn [Py.bind].
  assert (Hconf :
    Ctx.context_confidence
      (ContextAnalyzer._combine_scene_info ca
         {| Ctx.original_text := text;
            Ctx.words := map fst tokens;
            Ctx.pos_tags := map snd tokens;
            Ctx.keywords := ContextAnalyzer._extract_keywords (map fst tokens);
            Ctx.possible_commands :=
              map Commands.value (Commands.get_command_by_keywords text);
            Ctx.possible_emotions :=
              map Emotions.value (Emotions.get_emotion_by_keywords text);
            Ctx.context_type := ty;
            Ctx.context_confidence := conf;
            Ctx.scene := None;
            Ctx.has_obstacles := None;
            Ctx.is_safe := None |} scene_info) = conf).
  { unfold ContextAnalyzer._combine_scene_info.
    destruct scene_info as [sc|]; [destruct (Scn.obstacles sc)|];
      reflexivity. }
  rewrite Hconf. repeat split.
  - intro Hne. apply is_empty_false in Hne. specialize (Ec Hne). lra.
  - intros [w [Hw Hgw]].
    assert (Hex : existsb (fun k => Py.mem k ContextAnalyzer.greeting_words)
                    (ContextAnalyzer._extract_keywords (map fst tokens))
                  = true).
    { apply existsb_exists. exists w. split.
      - now apply greeting_word_is_keyword.
      - now apply mem_In. }
    specialize (Eg Hex). lra.
  - intro Hmark.
    assert (Hor : Py.contains "？" text || Py.contains "?" text = true).
    { apply orb_true_iff. exact Hmark. }
    specialize (Eq Hor). lra.
Qed.

Lemma confidence_evidence_hello :
  6#10 <= Ctx.context_confidence Example.hello_context.
Proof.
  destruct (@confidence_evidence
              (Example.analyzer Example.cfg Example.hello_tokens) "你好"
              (Some Example.near_obstacle) Example.hello_tokens eq_refl)
    as [_ [Hgreeting _]].
  apply Hgreeting. exists "你好". split.
  - left. reflexivity.
  - left. reflexivity.
Defined.

(** ** Tone analysis and scene impact *)

Lemma add_nonneg (tone : string) (d : Q) (s : Signals.ToneScores) :
  0 <= d -> Signals.tone_nonneg s -> Signals.tone_nonneg (Signals.add tone d s).
Proof.
  unfold Signals.tone_nonneg, Signals.add. intros Hd [H1 [H2 [H3 [H4 H5]]]].
  cbn [Signals.imperative Signals.interrogative Signals.exclamatory
       Signals.emphatic Signals.hedging].
  repeat split;
    match goal with |- context [if ?b then _ else _] => destruct b end; lra.
Qed.

Lemma score_word_nonneg (s : Signals.ToneScores) (word : string) :
  Signals.tone_nonneg s -> Signals.tone_nonneg (Signals.score_word s word).
Proof.
  unfold Signals.score_word. generalize Signals.tone_words. intro tw.
  revert s. induction tw as [|t tw IH]; intros s Hs; cbn [fold_left];
    [exact Hs|].
  apply IH. destruct (Py.mem word (snd t)); [|exact Hs].
  apply add_nonneg; [lra | exact Hs].
Qed.

Lemma score_tag_nonneg (s : Signals.ToneScores) (pos : string) :
  Signals.tone_nonneg s -> Signals.tone_nonneg (Signals.score_tag s pos).
Proof.
  unfold Signals.score_tag. intro Hs. destruct (String.eqb pos "y");
    [|exact Hs].
  repeat apply add_nonneg; try lra. exact Hs.
Qed.

Lemma fold_nonneg {B} (f : Signals.ToneScores -> B -> Signals.ToneScores)
    (l : list B) :
  (forall s x, Signals.tone_nonneg s -> Signals.tone_nonneg (f s x)) ->
  forall s, Signals.tone_nonneg s -> Signals.tone_nonneg (fold_left f l s).
Proof.
  intro Hf. induction l as [|x l IH]; intros s Hs; cbn [fold_left];
    [exact Hs | apply IH, Hf, Hs].
Qed.

Lemma tone_scores_nonneg (words pos_tags : list string) :
  Signals.tone_nonneg (Signals.tone_scores words pos_tags).
Proof.
  unfold Signals.tone_scores. cbv zeta.
  repeat match goal with
         | |- Signals.tone_nonneg (if ?b then _ else _) => destruct b
         | |- Signals.tone_nonneg (Signals.add _ _ _) => apply add_nonneg; [lra|]
         end;
    (apply fold_nonneg; [apply score_tag_nonneg|];
     apply fold_nonneg; [apply score_word_nonneg|];
     unfold Signals.tone_nonneg; simpl; repeat split; lra).
Qed.

Lemma tone_max (s : Signals.ToneScores) :
  (exists k, In (k, Signals.max_score s) (Signals.items s))
  /\ forall k v, In (k, v) (Signals.items s) -> v <= Signals.max_score s.
Proof.
  unfold Signals.max_score.
  set (rest := [Signals.interrogative s; Signals.exclamatory s;
                Signals.emphatic s; Signals.hedging s]).
  set (m := max_from (fun x : Q => x) (Signals.imperative s) rest).
  destruct (max_from_ge (fun x : Q => x) rest (Signals.imperative s))
    as [Hb Hge]. fold m in Hb, Hge.
  assert (Hm : m = Signals.imperative s \/ In m rest) by apply max_from_In.
  split.
  - unfold Signals.items. destruct Hm as [->|Hm].
    + exists "祈使". simpl. tauto.
    + subst rest. cbn [In] in Hm.
      destruct Hm as [E|[E|[E|[E|[]]]]]; rewrite <- E.
      * exists "疑问". simpl. tauto.
      * exists "感叹". simpl. tauto.
      * exists "强调". simpl. tauto.
      * exists "缓和". simpl. tauto.
  - intros k v Hin. unfold Signals.items in Hin. cbn [In] in Hin.
    destruct Hin as [E|[E|[E|[E|[E|[]]]]]]; injection E as _ <-;
      [exact Hb | | | | ]; apply Hge; subst rest; simpl; tauto.
Qed.

(** X13: the tone analysis keeps only scores between 0.3 and 1; when some
    tone has evidence (a positive raw score) the strongest tone is kept
    with the score 1, and when none has, the result is empty. *)
Theorem tone_normalised (words pos_tags : list string) :
  let raw := Signals.items (Signals.tone_scores words pos_tags) in
  let result := Signals._analyze_tone words pos_tags in
  (forall k v, In (k, v) result -> 3#10 <= v /\ v <= 1)
  /\ ((exists k v, In (k, v) raw /\ 0 < v) ->
      exists k v, In (k, v) result /\ v == 1)
  /\ ((forall k v, In (k, v) raw -> v <= 0) -> result = []).
Proof.
  cbv zeta. unfold Signals._analyze_tone. cbv zeta.
  set (s := Signals.tone_scores words pos_tags).
  pose proof (tone_scores_nonneg words pos_tags) as Hnn. fold s in Hnn.
  destruct (tone_max s) as [[km Hkm] Hle].
  set (m := Signals.max_score s) in *.
  destruct (Qlt_bool 0 m) eqn:Epos.
  - apply Qlt_bool_iff in Epos.
    assert (Hdiv : forall v, v <= m -> v / m <= 1).
    { intros v Hv. apply Qle_shift_div_r; [exact Epos | lra]. }
    assert (Hone : m / m == 1) by (field; lra).
    split; [|split].
    + intros k v Hin. apply filter_In in Hin. destruct Hin as [Hin Hge].
      cbn [snd] in Hge. apply Qle_bool_iff in Hge. split; [exact Hge|].
      apply in_map_iff in Hin. destruct Hin as [[k0 v0] [E Hin0]].
      cbn [fst snd] in E. injection E as _ <-. apply Hdiv.
      exact (Hle k0 v0 Hin0).
    + intros _. exists km, (m / m). split; [|exact Hone].
      apply filter_In. split.
      * apply in_map_iff. exists (km, m). split; [reflexivity | exact Hkm].
      * cbn [snd]. apply Qle_bool_iff. rewrite Hone. lra.
    + intro Hall. specialize (Hall km m Hkm). lra.
  - apply Qlt_bool_false in Epos.
    assert (Hnone : forall k v,
               ~ In (k, v) (filter (fun kv => Qle_bool (3#10) (snd kv))
                                   (Signals.items s))).
    { intros k v Hin. apply filter_In in Hin. destruct Hin as [Hin Hge].
      cbn [snd] in Hge. apply Qle_bool_iff in Hge.
      pose proof (Hle k v Hin). lra. }
    split; [|split].
    + intros k v Hin. exfalso. exact (Hnone k v Hin).
    + intros [k [v [Hin Hv]]]. pose proof (Hle k v Hin). lra.
    + intros _. destruct (filter _ (Signals.items s)) as [|[k v] r];
        [reflexivity|].
      exfalso. apply (Hnone k v). now left.
Qed.

(** X14: every entry of the scene's emotion impact has a degree in (0, 1];
    the temperature entry is absent exactly when the temperature is missing
    (then taken as 25), unreadable, or between 10 and 30 degrees; lighting
    and safety entries are absent for the default lighting and a safe
    status. *)
Theorem scene_impact_degrees (r : Signals.Reading) :
  let impact := Signals._analyze_scene_emotion_impact r in
  (forall i, In i (Signals.entries impact) ->
             0 < Signals.degree i /\ Signals.degree i <= 1)
  /\ (Signals.temperature impact = None
      <-> match get (Scn.temperature (Signals.scene r)) (Some (25#1)) with
          | Some temp => 10#1 <= temp /\ temp <= 30#1
          | None => True
          end)
  /\ (Signals.lighting r = None -> Signals.lighting_impact impact = None)
  /\ (get (Signals.safety_status r) "安全" = "安全" ->
      Signals.safety impact = None).
Proof.
  cbv zeta. unfold Signals._analyze_scene_emotion_impact.
  cbn [Signals.temperature Signals.lighting_impact Signals.safety].
  split; [|split; [|split]].
  - intros i Hin. unfold Signals.entries in Hin.
    cbn [Signals.temperature Signals.lighting_impact Signals.safety] in Hin.
    apply in_app_or in Hin. destruct Hin as [Hin|Hin];
      [|apply in_app_or in Hin; destruct Hin as [Hin|Hin]].
    + destruct (get (Scn.temperature (Signals.scene r)) (Some (25#1)))
        as [temp|]; [|destruct Hin].
      destruct (Qlt_bool (30#1) temp) eqn:Ehot.
      * destruct Hin as [<-|[]]. cbn [Signals.degree].
        apply Qlt_bool_iff in Ehot. split; [|apply Q.le_min_r].
        apply Q.min_glb_lt; [|lra].
        apply Qlt_shift_div_l; lra.
      * destruct (Qlt_bool temp (10#1)) eqn:Ecold; [|destruct Hin].
        destruct Hin as [<-|[]]. cbn [Signals.degree].
        apply Qlt_bool_iff in Ecold. split; [|apply Q.le_min_r].
        apply Q.min_glb_lt; [|lra].
        apply Qlt_shift_div_l; lra.
    + destruct (String.eqb _ "黑暗");
        [|destruct (String.eqb _ "昏暗"); [|destruct Hin]];
        destruct Hin as [<-|[]]; cbn [Signals.degree]; lra.
    + destruct (negb _); [|destruct Hin].
      destruct Hin as [<-|[]]. cbn [Signals.degree]. lra.
  - destruct (get (Scn.temperature (Signals.scene r)) (Some (25#1)))
      as [temp|]; [|tauto].
    destruct (Qlt_bool (30#1) temp) eqn:Ehot.
    + apply Qlt_bool_iff in Ehot. split; [discriminate | lra].
    + apply Qlt_bool_false in Ehot.
      destruct (Qlt_bool temp (10#1)) eqn:Ecold.
      * apply Qlt_bool_iff in Ecold. split; [discriminate | lra].
      * apply Qlt_bool_false in Ecold. tauto.
  - intros ->. reflexivity.
  - intros ->. reflexivity.
Qed.

(** ** Further properties of the decision maker *)

Lemma scared_rejects_come :
  exists d p,
    DecisionMaker._process_command (DecisionMaker.init (Some Example.cfg))
      "过来" Example2.scared_context Example2.scared Example.rng
    = (d, DecisionMaker.init (Some Example.cfg), Py.next Example.rng)
    /\ DecisionMaker.should_execute d = false
    /\ DecisionMaker.reject_reason d = Some (p ++ "我现在的心情不太好").
Proof.
  apply (@scared_rejects (DecisionMaker.init (Some Example.cfg)) "过来"
           Example2.scared_context Example2.scared Example.rng).
  - vm_compute. reflexivity.
  - vm_compute. reflexivity.
Defined.

Lemma mood_blocks_only_scared_run :
  Emotions.SCARED = Emotions.SCARED.
Proof.
  apply (@mood_blocks_only_scared Emotions.SCARED Example2.scared).
  - vm_compute. reflexivity.
  - vm_compute. reflexivity.
Defined.

Lemma make_decision_frame_jump :
  DecisionMaker.init (Some Example.cfg) = DecisionMaker.init (Some Example.cfg).
Proof.
  apply (@make_decision_frame (DecisionMaker.init (Some Example.cfg))
           Example.jump_context Example.calm Example.rng
           (fst (fst (DecisionMaker.make_decision
                        (DecisionMaker.init (Some Example.cfg))
                        Example.jump_context Example.calm Example.rng)))
           (DecisionMaker.init (Some Example.cfg))
           (Py.next Example.rng)).
  - vm_compute. reflexivity.
  - left. vm_compute. reflexivity.
Defined.

Lemma repeated_command_not_executed_run :
  exists d,
    DecisionMaker._process_command Example.ran_twice "快跑"
      Example.run_context Example2.scared Example.rng
    = (d, Example.ran_twice, Py.next Example.rng)
    /\ DecisionMaker.should_execute d = false.
Proof.
  apply (@repeated_command_not_executed Example.ran_twice "快跑"
           Example.run_context Example2.scared Example.rng).
  vm_compute. apply le_n.
Defined.

Lemma adjust_params_clamps_excited :
  exists p,
    EmotionAnalyzer._adjust_params (EmotionAnalyzer.init (Some Example.cfg))
      (Emotions.get_emotion_params Emotions.EXCITED) Example.come_context 1
    = Py.Returned p
    /\ (8#10 <= Emotions.speech_speed p /\ Emotions.speech_speed p <= 13#10)
    /\ (8#10 <= Emotions.volume p /\ Emotions.volume p <= 12#10)
    /\ Emotions.pitch p
       = Emotions.pitch (Emotions.get_emotion_params Emotions.EXCITED) * 1
         + 1 * (1 - 1).
Proof.
  eexists. split; [vm_compute; reflexivity|].
  apply (@adjust_params_clamps_speed_volume
           (EmotionAnalyzer.init (Some Example.cfg)) Example.cfg
           Example.emotion (Emotions.get_emotion_params Emotions.EXCITED)
           _ Example.come_context 1 (8#10) (13#10) (8#10) (12#10) [] []).
  - reflexivity.
  - reflexivity.
  - reflexivity.
  - reflexivity.
  - vm_compute. discriminate.
  - vm_compute. discriminate.
  - vm_compute. reflexivity.
Defined.

Lemma init_unconfigured (loaded : option Cfg.Config) :
  (forall cfg s d r,
      loaded = Some cfg -> Cfg.safety cfg = Some s ->
      Cfg.danger_keywords s = Some d -> Cfg.restricted_areas s = Some r ->
      False) ->
  DecisionMaker.config (DecisionMaker.init loaded) = None.
Proof.
  intro Hmissing. unfold DecisionMaker.init.
  destruct loaded as [cfg|]; cbn [Py.subscript Py.bind]; [|reflexivity].
  destruct (Cfg.safety cfg) as [s|] eqn:Hs; cbn [Py.subscript Py.bind];
    [|reflexivity].
  destruct (Cfg.danger_keywords s) as [d|] eqn:Hd;
    cbn [Py.subscript Py.bind]; [|reflexivity].
  destruct (Cfg.restricted_areas s) as [r|] eqn:Hr;
    cbn [Py.subscript Py.bind]; [|reflexivity].
  exfalso. exact (Hmissing cfg s d r eq_refl Hs Hd Hr).
Qed.

Lemma no_config_unsafe (dm : DecisionMaker.t) (command : string)
    (ct : Commands.CommandType) (ctx : Ctx.Context) :
  DecisionMaker.config dm = None ->
  Commands.of_value command = Some ct ->
  Commands.needs_safety_check ct = true ->
  DecisionMaker.is_safe (DecisionMaker._check_command_safety dm command ctx)
  = false.
Proof.
  intros Hcfg Hct Hneed. unfold DecisionMaker._check_command_safety.
  rewrite Hct. cbn [Py.subscript Py.bind]. rewrite Hneed. cbn [negb].
  destruct (negb (get (Ctx.is_safe ctx) true)); [reflexivity|].
  destruct (negb (is_empty _)); [reflexivity|].
  destruct (_ && _); [reflexivity|].
  destruct (Py.mem _ _); [reflexivity|].
  destruct (DecisionMaker.over_speed dm _); [reflexivity|].
  unfold DecisionMaker.safety_config. rewrite Hcfg. reflexivity.
Qed.

(** X20: the decision maker fails closed without a usable configuration.
    When the configuration is missing or lacks the safety section, the
    danger keywords or the restricted areas -- as the default configuration
    written by server.py does -- every command that requires the safety
    check is rejected and nothing is recorded. *)
Theorem unconfigured_maker_fails_closed (loaded : option Cfg.Config)
    (command : string) (ct : Commands.CommandType) (ctx : Ctx.Context)
    (emotion : EmotionAnalyzer.EmotionResult) (rng : Py.Rng) :
  (forall cfg s d r,
      loaded = Some cfg -> Cfg.safety cfg = Some s ->
      Cfg.danger_keywords s = Some d -> Cfg.restricted_areas s = Some r ->
      False) ->
  Commands.of_value command = Some ct ->
  Commands.needs_safety_check ct = true ->
  exists d,
    DecisionMaker._process_command (DecisionMaker.init loaded) command ctx
      emotion rng
    = (d, DecisionMaker.init loaded, Py.next rng)
    /\ DecisionMaker.should_execute d = false
    /\ DecisionMaker.action_type d = None.
Proof.
  intros Hmissing Hct Hneed.
  pose proof (@no_config_unsafe (DecisionMaker.init loaded) command ct ctx
                (@init_unconfigured loaded Hmissing) Hct Hneed) as Hunsafe.
  destruct (process_command_spec (DecisionMaker.init loaded) command ctx
              emotion rng) as [d [Hd [Hex _]]].
  unfold DecisionMaker.gates_open in Hd, Hex.
  rewrite Hunsafe in Hd, Hex. cbn [andb] in Hd, Hex.
  exists d. split; [exact Hd|]. split; [exact Hex|].
  unfold DecisionMaker._process_command, DecisionMaker._process_command_try
    in Hd.
  rewrite Hunsafe in Hd. cbn [negb] in Hd.
  destruct (reject_with_spec (DecisionMaker.init loaded) command
              (get (DecisionMaker.reason
                      (DecisionMaker._check_command_safety
                         (DecisionMaker.init loaded) command ctx)) "None")
              (DecisionMaker.score
                 (DecisionMaker._check_command_safety
                    (DecisionMaker.init loaded) command ctx)) rng)
    as [p Hp].
  rewrite Hp in Hd. injection Hd as <-. reflexivity.
Qed.

Lemma default_config_rejects_come :
  exists d,
    DecisionMaker._process_command
      (DecisionMaker.init (Some Example2.cfg_default)) "过来"
      Example.come_context Example2.excited Example.rng
    = (d, DecisionMaker.init (Some Example2.cfg_default), Py.next Example.rng)
    /\ DecisionMaker.should_execute d = false
    /\ DecisionMaker.action_type d = None.
Proof.
  apply (@unconfigured_maker_fails_closed (Some Example2.cfg_default) "过来"
           Commands.COME Example.come_context Example2.excited Example.rng).
  - intros cfg s d r Hc Hs Hd Hr. injection Hc as <-.
    vm_compute in Hs. injection Hs as <-. vm_compute in Hr. discriminate.
  - vm_compute. reflexivity.
  - reflexivity.
Defined.

(** X21: on a context without scene that is not flagged unsafe, whose text
    holds no danger keyword, and with the empty area name unrestricted, a
    configured maker (minimal distance given, maximal speed not negative, at
    least one required check) finds every command safe with the full safety
    score 1. *)
Theorem clear_scene_full_score (dm : DecisionMaker.t) (command : string)
    (ct : Commands.CommandType) (ctx : Ctx.Context)
    (cfg : Cfg.Config) (s : Cfg.SafetyConfig) (checks : list string)
    (m v : Q) :
  Commands.of_value command = Some ct ->
  get (Ctx.is_safe ctx) true = true ->
  (forall w, In w (DecisionMaker.danger_keywords dm) ->
             Py.contains w (Ctx.original_text ctx) = false) ->
  Ctx.scene ctx = None ->
  ~ In "" (DecisionMaker.restricted_areas dm) ->
  DecisionMaker.config dm = Some cfg ->
  Cfg.safety cfg = Some s ->
  Cfg.required_checks s = Some checks ->
  checks <> [] ->
  Cfg.min_obstacle_distance s = Some m ->
  Cfg.max_speed s = Some v ->
  0 <= v ->
  DecisionMaker.is_safe (DecisionMaker._check_command_safety dm command ctx)
  = true
  /\ DecisionMaker.score (DecisionMaker._check_command_safety dm command ctx)
     == 1.
Proof.
  intros Hct Hsafe Hdanger Hscene Harea Hcfg Hs Hchecks Hne Hm Hv Hv0.
  unfold DecisionMaker._check_command_safety.
  rewrite Hct. cbn [Py.subscript Py.bind].
  destruct (negb (Commands.needs_safety_check ct));
    [split; reflexivity|].
  rewrite Hsafe. cbn [negb].
  assert (Hfilter : filter (fun word => Py.contains word (Ctx.original_text ctx))
                           (DecisionMaker.danger_keywords dm) = []).
  { destruct (filter _ _) as [|w l] eqn:E; [reflexivity|].
    assert (Hin : In w (filter (fun word =>
                                  Py.contains word (Ctx.original_text ctx))
                               (DecisionMaker.danger_keywords dm)))
      by (rewrite E; now left).
    apply filter_In in Hin. destruct Hin as [Hin Hc].
    rewrite (Hdanger w Hin) in Hc. discriminate. }
  rewrite Hfilter, Hscene.
  cbv beta iota zeta delta [get Scn.empty Scn.has_obstacles Scn.obstacles
                            Scn.area Scn.speed is_empty negb andb
                            DecisionMaker.over_speed].
  assert (Hmem : Py.mem "" (DecisionMaker.restricted_areas dm) = false).
  { destruct (Py.mem "" _) eqn:E; [|reflexivity].
    apply mem_In in E. tauto. }
  rewrite Hmem.
  unfold DecisionMaker.safety_config. rewrite Hcfg.
  cbn [Py.subscript Py.bind]. rewrite Hs. cbn [Py.subscript Py.bind].
  rewrite Hchecks. cbn [Py.subscript Py.bind].
  assert (Hall : filter (fun check =>
                           DecisionMaker._pass_safety_check dm check
                             {| Scn.obstacles := None; Scn.temperature := None;
                                Scn.area := None; Scn.speed := None;
                                Scn.obstacle_distance := None;
                                Scn.has_obstacles := None;
                                Scn.is_safe := None |}) checks
                 = checks).
  { apply forallb_filter_id. apply forallb_forall. intros check _.
    unfold DecisionMaker._pass_safety_check, DecisionMaker.safety_config.
    rewrite Hcfg. cbn [Py.subscript Py.bind]. rewrite Hs.
    cbn [Py.subscript Py.bind]. rewrite Hm, Hv.
    cbn [Py.subscript Py.bind Scn.obstacle_distance Scn.speed
         Scn.has_obstacles Scn.area Scn.empty get].
    rewrite Hmem.
    assert (Hle : Qle_bool 0 v = true) by now apply Qle_bool_iff.
    rewrite Hle.
    destruct (String.eqb check "distance"); [reflexivity|].
    destruct (String.eqb check "speed"); [reflexivity|].
    destruct (String.eqb check "obstacles"); [reflexivity|].
    destruct (String.eqb check "area"); reflexivity. }
  rewrite Hall. unfold DecisionMaker.divide.
  destruct checks as [|c0 checks0]; [congruence|].
  cbn [List.length Py.bind DecisionMaker.is_safe DecisionMaker.score].
  split; [reflexivity|].
  assert (Hpos : 0 < Py.of_nat (S (List.length checks0))).
  { unfold Py.of_nat. change 0 with (inject_Z 0). rewrite <- Zlt_Qlt. lia. }
  field. lra.
Qed.

Lemma clear_scene_full_score_come :
  DecisionMaker.is_safe
    (DecisionMaker._check_command_safety
       (DecisionMaker.init (Some Example.cfg)) "过来" Example.come_context)
  = true
  /\ DecisionMaker.score
       (DecisionMaker._check_command_safety
          (DecisionMaker.init (Some Example.cfg)) "过来" Example.come_context)
     == 1.
Proof.
  apply (@clear_scene_full_score (DecisionMaker.init (Some Example.cfg))
           "过来" Commands.COME Example.come_context Example.cfg
           Example.safety ["distance"; "speed"; "obstacles"; "area"] 1 2).
  - vm_compute. reflexivity.
  - vm_compute. reflexivity.
  - intros w Hin. vm_compute in Hin.
    repeat (destruct Hin as [<-|Hin]; [vm_compute; reflexivity|]).
    destruct Hin.
  - vm_compute. reflexivity.
  - vm_compute. intros [H|[]]. discriminate H.
  - vm_compute. reflexivity.
  - reflexivity.
  - reflexivity.
  - discriminate.
  - reflexivity.
  - reflexivity.
  - vm_compute. discriminate.
Defined.

(** X22: the best of a non-empty list of command results is one of them;
    when some result is executable the best one is executable and no
    executable result has a higher safety score (a missing score counting
    as 0). *)
Theorem select_best_maximal (results : list DecisionMaker.Decision) :
  results <> [] ->
  let best := DecisionMaker._select_best_command_result results in
  In best results
  /\ forall r, In r results -> DecisionMaker.should_execute r = true ->
               DecisionMaker.should_execute best = true
               /\ get (DecisionMaker.safety_score r) 0
                  <= get (DecisionMaker.safety_score best) 0.
Proof.
  intro Hne. cbv zeta. unfold DecisionMaker._select_best_command_result.
  destruct results as [|first rest]; [congruence|].
  set (key := fun x => get (DecisionMaker.safety_score x) 0).
  destruct (filter DecisionMaker.should_execute (first :: rest))
    as [|x xs] eqn:Hf; cbn [max_by].
  - split; [now left|]. intros r Hin Hex.
    assert (H : In r (filter DecisionMaker.should_execute (first :: rest)))
      by (apply filter_In; auto).
    rewrite Hf in H. destruct H.
  - assert (Hbest : In (max_from key x xs)
                       (filter DecisionMaker.should_execute (first :: rest))).
    { rewrite Hf. destruct (max_from_In key xs x) as [E|E];
        [left; now rewrite E | now right]. }
    apply filter_In in Hbest. destruct Hbest as [Hin Hex].
    split; [exact Hin|]. intros r Hr Hrex. split; [exact Hex|].
    assert (H : In r (x :: xs))
      by (rewrite <- Hf; apply filter_In; auto).
    destruct (max_from_ge key xs x) as [Hx Hxs].
    destruct H as [<-|H]; [exact Hx | exact (Hxs r H)].
Qed.

Lemma select_best_maximal_pair :
  In (DecisionMaker._select_best_command_result
        [DecisionMaker.rejection "" (Some 0);
         DecisionMaker._generate_chat_decision
           (DecisionMaker.init (Some Example.cfg)) Example.hello_context
           Example.calm])
     [DecisionMaker.rejection "" (Some 0);
      DecisionMaker._generate_chat_decision
        (DecisionMaker.init (Some Example.cfg)) Example.hello_context
        Example.calm]
  /\ forall r,
       In r [DecisionMaker.rejection "" (Some 0);
             DecisionMaker._generate_chat_decision
               (DecisionMaker.init (Some Example.cfg)) Example.hello_context
               Example.calm] ->
       DecisionMaker.should_execute r = true ->
       DecisionMaker.should_execute
         (DecisionMaker._select_best_command_result
            [DecisionMaker.rejection "" (Some 0);
             DecisionMaker._generate_chat_decision
               (DecisionMaker.init (Some Example.cfg)) Example.hello_context
               Example.calm]) = true
       /\ get (DecisionMaker.safety_score r) 0
          <= get (DecisionMaker.safety_score
                    (DecisionMaker._select_best_command_result
                       [DecisionMaker.rejection "" (Some 0);
                        DecisionMaker._generate_chat_decision
                          (DecisionMaker.init (Some Example.cfg))
                          Example.hello_context Example.calm])) 0.
Proof.
  apply (@select_best_maximal
           [DecisionMaker.rejection "" (Some 0);
            DecisionMaker._generate_chat_decision
              (DecisionMaker.init (Some Example.cfg)) Example.hello_context
              Example.calm]).
  discriminate.
Defined.

Lemma last_three {A} (h : list A) (a b z : A) :
  Py.last_n 3 (h ++ [a; b; z]) = [a; b; z].
Proof.
  unfold Py.last_n. rewrite length_app. cbn [List.length].
  replace (List.length h + 3 - 3)%nat with (List.length h) by lia.
  rewrite skipn_app, skipn_all, Nat.sub_diag. reflexivity.
Qed.

(** X23: the repetition check reads the last three entries of the command
    history only: whatever came before them, a command is allowed exactly
    when it fills fewer than two of these three. *)
Theorem throttle_window (dm : DecisionMaker.t) (command : string)
    (h : list string) (a b z : string) :
  DecisionMaker.command_history dm = (h ++ [a; b; z])%list ->
  DecisionMaker._check_command_history dm command
  = (Py.count command [a; b; z] <? 2)%nat.
Proof.
  intro Hh. unfold DecisionMaker._check_command_history.
  now rewrite Hh, last_three.
Qed.

Lemma throttle_window_run :
  DecisionMaker._check_command_history Example2.ran_then_stopped "快跑"
  = (Py.count "快跑" ["快跑"; "快跑"; "停下"] <? 2)%nat.
Proof.
  apply (@throttle_window Example2.ran_then_stopped "快跑" []
           "快跑" "快跑" "停下").
  vm_compute. reflexivity.
Defined.

(** X24: a context whose type is not "command", or that has no candidate
    command, gets a conversational decision: executable flag set, no
    action, no refusal, no template, the maker and the random source left
    as they were.  Its vocabulary is decided by the response type, which is
    "greeting" for a greeting, "question" for a question and "chat" for
    every other context type: when the maker's configuration has a list
    under that key of its response table, the vocabulary is that list; when
    it has none (no configuration, no response table, or no such key) the
    vocabulary is the whole vocabulary. *)
Theorem conversational_route (dm : DecisionMaker.t) (ctx : Ctx.Context)
    (emotion : EmotionAnalyzer.EmotionResult) (rng : Py.Rng) :
  String.eqb (Ctx.context_type ctx) "command"
  && negb (is_empty (Ctx.possible_commands ctx)) = false ->
  let response_type :=
    if String.eqb (Ctx.context_type ctx) "greeting" then "greeting"
    else if String.eqb (Ctx.context_type ctx) "question" then "question"
    else "chat" in
  exists d,
    DecisionMaker.make_decision dm ctx emotion rng = (d, dm, rng)
    /\ DecisionMaker.should_execute d = true
    /\ DecisionMaker.action_type d = None
    /\ DecisionMaker.reject_reason d = None
    /\ DecisionMaker.response_template d = None
    /\ (forall cfg responses words,
          DecisionMaker.config dm = Some cfg ->
          Cfg.responses cfg = Some responses ->
          Cfg.lookup response_type responses = Some words ->
          DecisionMaker.vocabulary_constraints d = words)
    /\ ((forall cfg responses,
            DecisionMaker.config dm = Some cfg ->
            Cfg.responses cfg = Some responses ->
            Cfg.lookup response_type responses = None) ->
        DecisionMaker.vocabulary_constraints d = Vocabulary.ALL_VOCABULARY).
Proof.
  intros Hroute response_type. unfold DecisionMaker.make_decision.
  rewrite Hroute.
  eexists. split; [reflexivity|].
  unfold DecisionMaker._generate_chat_decision.
  cbn [DecisionMaker.should_execute DecisionMaker.action_type
       DecisionMaker.reject_reason DecisionMaker.response_template
       DecisionMaker.vocabulary_constraints].
  fold response_type.
  unfold DecisionMaker._get_vocabulary_constraints.
  repeat split.
  - intros cfg responses words Hcfg Hr Hl. now rewrite Hcfg, Hr, Hl.
  - intros Hnone.
    destruct (DecisionMaker.config dm) as [cfg|]; [|reflexivity].
    destruct (Cfg.responses cfg) as [responses|] eqn:Hr; [|reflexivity].
    now rewrite (Hnone cfg responses eq_refl Hr).
Qed.

Lemma conversational_route_hello :
  exists d,
    DecisionMaker.make_decision
      (DecisionMaker.init (Some Example2.cfg_responses)) Example.hello_context
      Example.calm Example.rng
    = (d, DecisionMaker.init (Some Example2.cfg_responses), Example.rng)
    /\ DecisionMaker.should_execute d = true
    /\ DecisionMaker.action_type d = None
    /\ DecisionMaker.vocabulary_constraints d = ["你好"; "早上好"].
Proof.
  assert (Hroute :
    String.eqb (Ctx.context_type Example.hello_context) "command"
    && negb (is_empty (Ctx.possible_commands Example.hello_context)) = false)
    by (vm_compute; reflexivity).
  destruct (@conversational_route
              (DecisionMaker.init (Some Example2.cfg_responses))
              Example.hello_context Example.calm Example.rng Hroute)
    as [d [Hd [Hex [Hact [_ [_ [Hlist _]]]]]]].
  exists d. repeat split; try assumption.
  apply (Hlist Example2.cfg_responses
               [("greeting", ["你好"; "早上好"]); ("chat", ["好的"; "可以"])]).
  - reflexivity.
  - reflexivity.
  - vm_compute. reflexivity.
Defined.

(** Two makers with the same rules differ in their history at most. *)
Lemma check_safety_same_rules (dm1 dm2 : DecisionMaker.t) (c : string)
    (ctx : Ctx.Context) :
  DecisionMaker.config dm1 = DecisionMaker.config dm2 ->
  DecisionMaker.danger_keywords dm1 = DecisionMaker.danger_keywords dm2 ->
  DecisionMaker.restricted_areas dm1 = DecisionMaker.restricted_areas dm2 ->
  DecisionMaker._check_command_safety dm1 c ctx
  = DecisionMaker._check_command_safety dm2 c ctx.
Proof.
  destruct dm1, dm2. cbn [DecisionMaker.config DecisionMaker.danger_keywords
                          DecisionMaker.restricted_areas].
  intros -> -> ->. reflexivity.
Qed.

Lemma process_all_results (commands : list string) :
  forall (dm0 dm : DecisionMaker.t) (ctx : Ctx.Context)
         (emotion : EmotionAnalyzer.EmotionResult) (rng : Py.Rng)
         results dm' rng',
    DecisionMaker.config dm = DecisionMaker.config dm0 ->
    DecisionMaker.danger_keywords dm = DecisionMaker.danger_keywords dm0 ->
    DecisionMaker.restricted_areas dm = DecisionMaker.restricted_areas dm0 ->
    DecisionMaker.process_all dm commands ctx emotion rng
    = (results, dm', rng') ->
    forall d, In d results -> DecisionMaker.should_execute d = true ->
    exists c ct,
      In c commands
      /\ Commands.of_value c = Some ct
      /\ DecisionMaker.action_type d
         = Some (Commands.action (Commands.get_command_params ct))
      /\ DecisionMaker.is_safe
           (DecisionMaker._check_command_safety dm0 c ctx) = true
      /\ DecisionMaker.mood_blocks emotion = false.
Proof.
  induction commands as [|c rest IH];
    intros dm0 dm ctx emotion rng results dm' rng' Hc Hd Hr Hall d Hin Hex.
  - simpl in Hall. injection Hall as <- _ _. destruct Hin.
  - simpl in Hall.
    destruct (process_command_spec dm c ctx emotion rng)
      as [d0 [Hd0 [Hex0 [_ [_ [_ Hact]]]]]].
    rewrite Hd0 in Hall.
    destruct (DecisionMaker.process_all _ rest ctx emotion (Py.next rng))
      as [[results0 dm1] rng1] eqn:Hrest.
    injection Hall as <- _ _.
    destruct Hin as [<-|Hin].
    + rewrite Hex0 in Hex. destruct (Hact Hex) as [ct [Hct [Ha _]]].
      exists c, ct. split; [now left|]. split; [exact Hct|].
      split; [exact Ha|].
      unfold DecisionMaker.gates_open in Hex.
      apply andb_true_iff in Hex. destruct Hex as [Hex _].
      apply andb_true_iff in Hex. destruct Hex as [Hsafe Hmood].
      rewrite (check_safety_same_rules dm dm0 c ctx Hc Hd Hr) in Hsafe.
      split; [exact Hsafe|]. now apply negb_true_iff.
    + assert (Hsame :
        DecisionMaker.config
          (if DecisionMaker.gates_open dm c ctx emotion
           then DecisionMaker._update_command_history dm c else dm)
        = DecisionMaker.config dm0
        /\ DecisionMaker.danger_keywords
             (if DecisionMaker.gates_open dm c ctx emotion
              then DecisionMaker._update_command_history dm c else dm)
           = DecisionMaker.danger_keywords dm0
        /\ DecisionMaker.restricted_areas
             (if DecisionMaker.gates_open dm c ctx emotion
              then DecisionMaker._update_command_history dm c else dm)
           = DecisionMaker.restricted_areas dm0).
      { destruct (DecisionMaker.gates_open dm c ctx emotion); auto. }
      destruct Hsame as [Hc' [Hd' Hr']].
      destruct (IH dm0 _ ctx emotion (Py.next rng) results0 dm1 rng1
                  Hc' Hd' Hr' Hrest d Hin Hex)
        as [c' [ct [Hin' H]]].
      exists c', ct. split; [now right | exact H].
Qed.

(** X25: an executable decision with an action comes from a candidate.
    When [make_decision] takes the command route and returns an executable
    decision, its action is the configured action of one of the context's
    candidate commands, that command passed the safety gate, and the mood
    did not block it. *)
Theorem executable_decision_from_candidate (dm dm' : DecisionMaker.t)
    (ctx : Ctx.Context) (emotion : EmotionAnalyzer.EmotionResult)
    (rng rng' : Py.Rng) (d : DecisionMaker.Decision) :
  String.eqb (Ctx.context_type ctx) "command"
  && negb (is_empty (Ctx.possible_commands ctx)) = true ->
  DecisionMaker.make_decision dm ctx emotion rng = (d, dm', rng') ->
  DecisionMaker.should_execute d = true ->
  exists c ct,
    In c (Ctx.possible_commands ctx)
    /\ Commands.of_value c = Some ct
    /\ DecisionMaker.action_type d
       = Some (Commands.action (Commands.get_command_params ct))
    /\ DecisionMaker.is_safe (DecisionMaker._check_command_safety dm c ctx)
       = true
    /\ DecisionMaker.mood_blocks emotion = false.
Proof.
  intros Hroute Hmake Hex. unfold DecisionMaker.make_decision in Hmake.
  rewrite Hroute in Hmake.
  destruct (DecisionMaker.process_all dm (Ctx.possible_commands ctx)
              ctx emotion rng) as [[results dm1] rng1] eqn:Hall.
  injection Hmake as <- _ _.
  assert (Hin : In (DecisionMaker._select_best_command_result results)
                   results).
  { unfold DecisionMaker._select_best_command_result in *.
    destruct results as [|first rest]; [discriminate Hex|].
    destruct (max_by _ (filter DecisionMaker.should_execute (first :: rest)))
      as [best|] eqn:E; [|now left].
    apply max_by_In in E. apply filter_In in E. tauto. }
  exact (process_all_results (Ctx.possible_commands ctx) dm dm ctx emotion
           rng eq_refl eq_refl eq_refl Hall _ Hin Hex).
Qed.

Lemma executable_decision_turn_stop :
  exists c ct,
    In c (Ctx.possible_commands Example.turn_stop_context)
    /\ Commands.of_value c = Some ct
    /\ DecisionMaker.action_type
         (fst (fst (DecisionMaker.make_decision
                      (DecisionMaker.init (Some Example.cfg))
                      Example.turn_stop_context Example2.excited
                      Example.rng)))
       = Some (Commands.action (Commands.get_command_params ct))
    /\ DecisionMaker.is_safe
         (DecisionMaker._check_command_safety
            (DecisionMaker.init (Some Example.cfg)) c
            Example.turn_stop_context) = true
    /\ DecisionMaker.mood_blocks Example2.excited = false.
Proof.
  apply (@executable_decision_from_candidate
           (DecisionMaker.init (Some Example.cfg))
           (snd (fst (DecisionMaker.make_decision
                        (DecisionMaker.init (Some Example.cfg))
                        Example.turn_stop_context Example2.excited
                        Example.rng)))
           Example.turn_stop_context Example2.excited Example.rng
           (snd (DecisionMaker.make_decision
                   (DecisionMaker.init (Some Example.cfg))
                   Example.turn_stop_context Example2.excited Example.rng))).
  - vm_compute. reflexivity.
  - vm_compute. reflexivity.
  - vm_compute. reflexivity.
Defined.

Lemma analyze_scene_fields (ca : ContextAnalyzer.t) (text : string)
    (sc : Scn.Scene) (obs : list Scn.Obstacle)
    (tokens : list (string * string)) :
  ContextAnalyzer.pseg_cut ca text = Py.Returned tokens ->
  Scn.obstacles sc = Some obs ->
  Ctx.possible_commands (ContextAnalyzer.analyze ca text (Some sc))
  = map Commands.value (Commands.get_command_by_keywords text)
  /\ Ctx.is_safe (ContextAnalyzer.analyze ca text (Some sc))
     = Some (ContextAnalyzer._check_safety ca
               (map Commands.value (Commands.get_command_by_keywords text))
               obs).
Proof.
  intros Htok Hobs.
  unfold ContextAnalyzer.analyze, ContextAnalyzer._segment_text.
  rewrite Htok. cbn [Py.bind].
  destruct (ContextAnalyzer._analyze_context_type _ _ _ _ _) as [ty conf].
  cbn [Py.bind]. unfold ContextAnalyzer._combine_scene_info.
  rewrite Hobs. split; reflexivity.
Qed.

(** X26: an obstacle nearer than the configured minimal distance blocks
    every safety-checked candidate, provided the safety loop reaches it.
    When tokenization succeeds, the analyzer's configuration gives the
    minimal distance, and every entry of the obstacle list before the near
    obstacle is a dict whose distance is absent or a number, each candidate
    command of the resulting context that requires the safety check is
    rejected by any decision maker, with the reason "当前环境不安全" (the
    environment is not safe), and nothing is recorded. *)
Theorem near_obstacle_blocks_checked_commands (ca : ContextAnalyzer.t)
    (text : string) (sc : Scn.Scene) (pre post : list Scn.Obstacle)
    (tokens : list (string * string)) (cfg : Cfg.Config)
    (s : Cfg.SafetyConfig) (m d : Q) :
  ContextAnalyzer.pseg_cut ca text = Py.Returned tokens ->
  Scn.obstacles sc
  = Some (pre ++ Scn.ObstacleDict (Some (Scn.DistanceNumber d)) :: post)%list ->
  forallb Scn.comparable pre = true ->
  ContextAnalyzer.config ca = Some cfg ->
  Cfg.safety cfg = Some s ->
  Cfg.min_obstacle_distance s = Some m ->
  d < m ->
  forall (dm : DecisionMaker.t) (emotion : EmotionAnalyzer.EmotionResult)
         (rng : Py.Rng) (command : string) (ct : Commands.CommandType),
    In command
       (Ctx.possible_commands (ContextAnalyzer.analyze ca text (Some sc))) ->
    Commands.of_value command = Some ct ->
    Commands.needs_safety_check ct = true ->
    exists dec p,
      DecisionMaker._process_command dm command
        (ContextAnalyzer.analyze ca text (Some sc)) emotion rng
      = (dec, dm, Py.next rng)
      /\ DecisionMaker.should_execute dec = false
      /\ DecisionMaker.reject_reason dec = Some (p ++ "当前环境不安全").
Proof.
  intros Htok Hobs Hpre Hcfg Hs Hm Hlt dm emotion rng command ct
         Hcand Hct Hneed.
  destruct (analyze_scene_fields ca text sc Htok Hobs) as [Hcmds Hsafe].
  set (ctx := ContextAnalyzer.analyze ca text (Some sc)) in *.
  assert (Hunsafe : Ctx.is_safe ctx = Some false).
  { rewrite Hsafe. f_equal. apply check_safety_false_iff. split.
    - rewrite <- Hcmds. intro Hnil. rewrite Hnil in Hcand. destruct Hcand.
    - exists cfg, s, m, pre, d, post. tauto. }
  assert (Hcheck : DecisionMaker._check_command_safety dm command ctx
                   = DecisionMaker.unsafe "当前环境不安全").
  { unfold DecisionMaker._check_command_safety.
    rewrite Hct. cbn [Py.subscript Py.bind]. rewrite Hneed, Hunsafe.
    reflexivity. }
  destruct (process_command_spec dm command ctx emotion rng)
    as [dec [Hdec [Hex [Hreason _]]]].
  unfold DecisionMaker.gates_open in Hdec, Hex.
  rewrite Hcheck in Hdec, Hex, Hreason.
  cbn [DecisionMaker.is_safe DecisionMaker.unsafe DecisionMaker.reason
       get andb] in Hdec, Hex, Hreason.
  destruct (Hreason eq_refl) as [p Hp].
  exists dec, p. auto.
Qed.

Lemma near_obstacle_blocks_come :
  exists dec p,
    DecisionMaker._process_command (DecisionMaker.init (Some Example.cfg))
      "过来" Example2.come_crowded_context Example2.excited Example.rng
    = (dec, DecisionMaker.init (Some Example.cfg), Py.next Example.rng)
    /\ DecisionMaker.should_execute dec = false
    /\ DecisionMaker.reject_reason dec = Some (p ++ "当前环境不安全").
Proof.
  refine (@near_obstacle_blocks_checked_commands
            (Example.analyzer Example.cfg Example.come_tokens) "过来"
            Example2.crowded
            [Scn.ObstacleDict None;
             Scn.ObstacleDict (Some (Scn.DistanceNumber 2))]
            [Scn.ObstacleDict (Some Scn.DistanceOther)]
            Example.come_tokens Example.cfg Example.safety 1 (3#10)
            _ _ _ _ _ _ _
            (DecisionMaker.init (Some Example.cfg)) Example2.excited
            Example.rng "过来" Commands.COME _ _ _).
  - reflexivity.
  - reflexivity.
  - reflexivity.
  - reflexivity.
  - reflexivity.
  - reflexivity.
  - vm_compute. reflexivity.
  - vm_compute. left. reflexivity.
  - vm_compute. reflexivity.
  - reflexivity.
Defined.

Lemma all_clear_raises (m : Q) (o : Scn.Obstacle)
    (post : list Scn.Obstacle) :
  Scn.comparable o = false ->
  forall pre,
    (forall d, In (Scn.ObstacleDict (Some (Scn.DistanceNumber d))) pre ->
               m <= d) ->
    ContextAnalyzer.all_clear m (pre ++ o :: post) = Py.Raised.
Proof.
  intros Ho. induction pre as [|a pre IH]; intro Hfar; cbn [app].
  - destruct o as [[[d|]|]|]; try discriminate Ho; reflexivity.
  - destruct a as [[[d|]|]|];
      cbn [ContextAnalyzer.all_clear ContextAnalyzer.get_distance
           ContextAnalyzer.below Py.bind]; try reflexivity.
    + assert (Hd : Qlt_bool d m = false).
      { apply Qlt_bool_false. apply Hfar. now left. }
      rewrite Hd. apply IH. intros d' Hin. apply Hfar. now right.
    + apply IH. intros d' Hin. apply Hfar. now right.
Qed.

(** X29: the obstacle check fails open.  When the obstacle list has an
    entry that is not a dict, or whose distance is null or not a number,
    and no obstacle listed before that entry is nearer than the configured
    minimal distance, the context is reported safe whatever is listed
    after the entry, however near. *)
Theorem unreadable_obstacle_reports_safe (ca : ContextAnalyzer.t)
    (text : string) (sc : Scn.Scene) (pre post : list Scn.Obstacle)
    (o : Scn.Obstacle) (tokens : list (string * string)) :
  ContextAnalyzer.pseg_cut ca text = Py.Returned tokens ->
  Scn.obstacles sc = Some (pre ++ o :: post)%list ->
  Scn.comparable o = false ->
  (forall cfg s m d,
      ContextAnalyzer.config ca = Some cfg ->
      Cfg.safety cfg = Some s ->
      Cfg.min_obstacle_distance s = Some m ->
      In (Scn.ObstacleDict (Some (Scn.DistanceNumber d))) pre ->
      m <= d) ->
  Ctx.has_obstacles (ContextAnalyzer.analyze ca text (Some sc)) = Some true
  /\ Ctx.is_safe (ContextAnalyzer.analyze ca text (Some sc)) = Some true.
Proof.
  intros Htok Hobs Ho Hfar.
  unfold ContextAnalyzer.analyze, ContextAnalyzer._segment_text.
  rewrite Htok. cbn [Py.bind].
  destruct (ContextAnalyzer._analyze_context_type _ _ _ _ _) as [ty conf].
  cbn [Py.bind]. unfold ContextAnalyzer._combine_scene_info.
  rewrite Hobs. cbn [Ctx.has_obstacles Ctx.is_safe Ctx.possible_commands].
  split.
  - destruct pre; reflexivity.
  - f_equal. unfold ContextAnalyzer._check_safety.
    destruct (is_empty _ || is_empty _); [reflexivity|].
    destruct (ContextAnalyzer.config ca) as [cfg|] eqn:Hcfg; [|reflexivity].
    destruct (Cfg.safety cfg) as [s|] eqn:Hs;
      cbn [Py.subscript Py.bind]; [|reflexivity].
    destruct (Cfg.min_obstacle_distance s) as [m|] eqn:Hm;
      cbn [Py.subscript Py.bind]; [|reflexivity].
    rewrite (@all_clear_raises m o post Ho pre); [reflexivity|].
    intros d Hin. exact (Hfar cfg s m d eq_refl Hs Hm Hin).
Qed.

Lemma unreadable_obstacle_hides_near_one :
  Ctx.has_obstacles Example2.come_hidden_context = Some true
  /\ Ctx.is_safe Example2.come_hidden_context = Some true.
Proof.
  refine (@unreadable_obstacle_reports_safe
            (Example.analyzer Example.cfg Example.come_tokens) "过来"
            Example2.hidden
            [Scn.ObstacleDict (Some (Scn.DistanceNumber 2))]
            [Scn.ObstacleDict (Some (Scn.DistanceNumber (3#10)))]
            (Scn.ObstacleDict (Some Scn.DistanceOther))
            Example.come_tokens _ _ _ _).
  - reflexivity.
  - reflexivity.
  - reflexivity.
  - intros cfg s m d Hcfg Hs Hm [Hin|[]].
    injection Hcfg as <-. injection Hs as <-. injection Hm as <-.
    injection Hin as <-. vm_compute. discriminate.
Defined.

(** X27: a command configured without safety check is not subject to the
    safety gate at all: whatever the context (unsafe scene, danger keywords
    in the text) and the configuration, it is executed with the safety
    score 1 and recorded, provided the mood does not block it and it is not
    throttled. *)
Theorem unchecked_command_ignores_safety (dm : DecisionMaker.t)
    (ct : Commands.CommandType) (ctx : Ctx.Context)
    (emotion : EmotionAnalyzer.EmotionResult) (rng : Py.Rng) :
  Commands.needs_safety_check ct = false ->
  DecisionMaker.mood_blocks emotion = false ->
  DecisionMaker._check_command_history dm (Commands.value ct) = true ->
  exists d,
    DecisionMaker._process_command dm (Commands.value ct) ctx emotion rng
    = (d, DecisionMaker._update_command_history dm (Commands.value ct),
       Py.next rng)
    /\ DecisionMaker.should_execute d = true
    /\ DecisionMaker.action_type d
       = Some (Commands.action (Commands.get_command_params ct))
    /\ DecisionMaker.safety_score d = Some 1.
Proof.
  intros Hneed Hmood Hhist.
  assert (Hct : Commands.of_value (Commands.value ct) = Some ct)
    by (destruct ct; vm_compute; reflexivity).
  assert (Hcheck : DecisionMaker._check_command_safety
                     dm (Commands.value ct) ctx
                   = {| DecisionMaker.is_safe := true;
                        DecisionMaker.reason := None;
                        DecisionMaker.score := 1 |}).
  { unfold DecisionMaker._check_command_safety. rewrite Hct.
    cbn [Py.subscript Py.bind]. now rewrite Hneed. }
  destruct (process_command_spec dm (Commands.value ct) ctx emotion rng)
    as [d [Hd [Hex [_ [_ [_ Hact]]]]]].
  unfold DecisionMaker.gates_open in Hd, Hex, Hact.
  rewrite Hcheck, Hmood, Hhist in Hd, Hex, Hact.
  cbn [DecisionMaker.is_safe DecisionMaker.score negb andb] in Hd, Hex, Hact.
  destruct (Hact eq_refl) as [ct' [Hct' [Ha Hs]]].
  rewrite Hct in Hct'. injection Hct' as <-.
  exists d. auto.
Qed.

Lemma unchecked_command_stop_near_obstacle :
  exists d,
    DecisionMaker._process_command (DecisionMaker.init (Some Example.cfg))
      (Commands.value Commands.STOP) Example.come_near_context
      Example2.excited Example.rng
    = (d,
       DecisionMaker._update_command_history
         (DecisionMaker.init (Some Example.cfg))
         (Commands.value Commands.STOP),
       Py.next Example.rng)
    /\ DecisionMaker.should_execute d = true
    /\ DecisionMaker.action_type d
       = Some (Commands.action (Commands.get_command_params Commands.STOP))
    /\ DecisionMaker.safety_score d = Some 1.
Proof.
  apply (@unchecked_command_ignores_safety
           (DecisionMaker.init (Some Example.cfg)) Commands.STOP
           Example.come_near_context Example2.excited Example.rng).
  - reflexivity.
  - vm_compute. reflexivity.
  - vm_compute. reflexivity.
Defined.

Lemma adjust_params_pitch (self : EmotionAnalyzer.t)
    (params p : Emotions.EmotionParams) (ctx : Ctx.Context) (c : Q) :
  EmotionAnalyzer._adjust_params self params ctx c = Py.Returned p ->
  Emotions.pitch p = Emotions.pitch params
  \/ Emotions.pitch p = Emotions.pitch params * c + 1 * (1 - c).
Proof.
  unfold EmotionAnalyzer._adjust_params.
  destruct (EmotionAnalyzer.config self) as [cfg|].
  2: { intro H. injection H as <-. now left. }
  destruct (Cfg.emotion cfg) as [em|]; cbn [Py.subscript Py.bind];
    [|discriminate].
  destruct (EmotionAnalyzer.clamp_range _ _) as [s4|]; cbn [Py.bind];
    [|discriminate].
  destruct (EmotionAnalyzer.clamp_range _ _) as [v3|]; cbn [Py.bind];
    [|discriminate].
  intro H. injection H as <-. right. reflexivity.
Qed.

(** X28: the pitch returned by [EmotionAnalyzer.analyze] always lies in
    [0.9, 1.2], the default pitch range, on every path and for every
    configuration: it is a blend of a table pitch and 1 by a confidence in
    [0, 1], although no clamp is applied to it. *)
Theorem returned_pitch_in_default_range (self : EmotionAnalyzer.t)
    (ctx : Ctx.Context) (rng : Py.Rng) :
  let result := fst (fst (EmotionAnalyzer.analyze self ctx rng)) in
  9#10 <= Emotions.pitch (EmotionAnalyzer.params result)
  /\ Emotions.pitch (EmotionAnalyzer.params result) <= 12#10.
Proof.
  cbv zeta. unfold EmotionAnalyzer.analyze, EmotionAnalyzer.analyze_try.
  destruct (EmotionAnalyzer._recognize_emotion self ctx rng)
    as [[[e c]|] g] eqn:Hrec.
  - apply recognize_confidence in Hrec. destruct Hrec as [Hc0 Hc1].
    destruct (EmotionAnalyzer._adjust_params _ _ ctx c) as [p|] eqn:Hadj;
      cbn [fst EmotionAnalyzer.params EmotionAnalyzer.fallback].
    + apply adjust_params_pitch in Hadj. destruct Hadj as [Hp|Hp];
        rewrite Hp; destruct e; cbn; lra.
    + cbn. lra.
  - cbn. lra.
Qed.
